(** * Inventory stock ledger: Dashboard and TransactionManager components

    A shallow embedding of the stock-relevant logic of the two React
    components [Dashboard] (low-stock projection and KPI counter) and
    [TransactionManager] (cart handling, unit selection, submit and edit
    flows), of the item modal of [InventoryTable] and of [LoginPage],
    followed by the properties established about them.

    Numbers are modelled twice.  Where a property is about which lines, rows
    or callbacks result, JavaScript numbers are exact rationals [Q].  Where a
    property is about the outcome of a comparison of computed numbers (the
    stock check, the order of the low-stock list, the totals of the category
    chart), the same source lines are embedded again in module [Binary64]
    with IEEE-754 double-precision arithmetic.  Arrays are [list]s; where
    the source mutates an array in place ([Array.prototype.sort]) the arrays
    live in a store indexed by references. *)

From Stdlib Require Import QArith Lqa Zpower SpecFloat Sorting.Sorted Sorting.Permutation.
From stdpp Require Import gmap strings list.

Local Open Scope Q_scope.

(** ** JavaScript primitives used by the components *)
Module JS.

(** Truthiness of a number: [0] is the only falsy rational. *)
Definition truthy (x : Q) : bool := negb (Qeq_bool x 0).

(** [x || d] on numbers. *)
Definition or_else (x d : Q) : Q := if truthy x then x else d.

(** [!x] for [x : number | undefined]. *)
Definition falsy_opt (x : option Q) : bool :=
  match x with
  | None => true
  | Some q => negb (truthy q)
  end.

(** [x > y]. *)
Definition gt (x y : Q) : bool := negb (Qle_bool x y).

(** [x <= y]. *)
Definition le (x y : Q) : bool := Qle_bool x y.

(** [a === b] on strings. *)
Definition str_eq (a b : string) : bool := bool_decide (a = b).

(** [arr.find(p)]. *)
Definition find {A} (p : A -> bool) (arr : list A) : option A := List.find p arr.

(** [arr.filter((x, idx) => p x idx)], with the running index made explicit. *)
Fixpoint filter_from {A} (p : A -> nat -> bool) (k : nat) (arr : list A) : list A :=
  match arr with
  | [] => []
  | x :: rest =>
      if p x k then x :: filter_from p (S k) rest else filter_from p (S k) rest
  end.

Definition filteri {A} (p : A -> nat -> bool) (arr : list A) : list A :=
  filter_from p 0 arr.

(** [arr.reduce(f, init)]. *)
Definition reduce {A B} (f : B -> A -> B) (init : B) (arr : list A) : B :=
  fold_left f arr init.

(** [Array.prototype.sort(cmp)] is stable (ECMAScript 2019).  The engine's
    algorithm is not part of the repository; any stable sort run with a
    consistent comparator returns the same array, and it is modelled here by
    stable insertion: an element moves behind a neighbour only when the
    comparator is strictly positive. *)
Fixpoint sort_insert {A} (cmp : A -> A -> Q) (x : A) (sorted : list A) : list A :=
  match sorted with
  | [] => [x]
  | y :: rest =>
      if gt (cmp x y) 0 then y :: sort_insert cmp x rest else x :: sorted
  end.

Definition sort {A} (cmp : A -> A -> Q) (arr : list A) : list A :=
  foldr (sort_insert cmp) [] arr.

(** The comparator [(a, b) => key(a) - key(b)]. *)
Definition by_key {A} (key : A -> Q) (a b : A) : Q := key a - key b.

End JS.

(** ** A JavaScript object used as a table of running totals *)
Module JSObject.

(** Names that every object inherits from [Object.prototype]: reading one of
    them from a fresh [{}] yields a function or an object, not [undefined]. *)
Definition objectPrototypeKeys : list string :=
  ["constructor"; "toString"; "toLocaleString"; "valueOf"; "hasOwnProperty";
   "isPrototypeOf"; "propertyIsEnumerable"; "__proto__"; "__defineGetter__";
   "__defineSetter__"; "__lookupGetter__"; "__lookupSetter__"].

(** The sum of a list of numbers. *)
Definition sumQ (l : list Q) : Q := foldr Qplus 0 l.

Section Tally.
Context {A : Type} (key : A -> string) (amount : A -> Q).

(** [counts[key(x)] = (counts[key(x)] || 0) + amount(x)] on the object
    [counts].  When the key is not an own key but an inherited name, the
    value read is not a number and neither is the sum: the numeric model
    stops there ([None]). *)
Definition count (counts : gmap string Q) (x : A) : option (gmap string Q) :=
  match counts !! key x with
  | Some v => Some (<[key x := JS.or_else v 0 + amount x]> counts)
  | None =>
      if bool_decide (key x ∈ objectPrototypeKeys) then None
      else Some (<[key x := 0 + amount x]> counts)
  end.

(** [xs.forEach(x => ...)] *)
Fixpoint countAll (counts : gmap string Q) (xs : list A)
  : option (gmap string Q) :=
  match xs with
  | [] => Some counts
  | x :: rest =>
      match count counts x with
      | None => None
      | Some counts' => countAll counts' rest
      end
  end.

(** The total amount of the elements whose key is [c]. *)
Definition keyTotal (c : string) (xs : list A) : Q :=
  sumQ (map amount (List.filter (fun x => JS.str_eq (key x) c) xs)).

(** What the object [counts] holds once the elements [seen] are counted. *)
Definition tallies (counts : gmap string Q) (seen : list A) : Prop :=
  forall c,
    match counts !! c with
    | Some v => v == keyTotal c seen /\ exists x, In x seen /\ key x = c
    | None => forall x, In x seen -> key x <> c
    end.

End Tally.

End JSObject.

(** ** String methods *)
Module JSString.

(** [s.includes(pattern)] *)
Definition includes (s pattern : string) : bool :=
  match String.index 0 pattern s with
  | Some _ => true
  | None => false
  end.

(** [s.startsWith(p)] *)
Definition startsWith (s p : string) : bool := String.prefix p s.

End JSString.

(** ** The record types of [../types] as the components use them *)

Module UnitDefinition.
Record t := mk { name : string; ratio : Q }.
End UnitDefinition.

Module InventoryItem.
Record t := mk {
  id : string;
  sku : string;
  name : string;
  category : string;
  quantity : Q;
  baseUnit : string;
  (* accessed with [?.]: the field may be absent *)
  alternativeUnits : option (list UnitDefinition.t);
  minLevel : Q;
  unitPrice : Q
}.
End InventoryItem.

Inductive TransactionType := IN | OUT.

Module TransactionItemDetail.
Record t := mk {
  itemId : string;
  itemName : string;
  quantityInput : Q;
  selectedUnit : string;
  conversionRatio : Q;
  totalBaseQuantity : Q
}.
End TransactionItemDetail.

Module Transaction.
Record t := mk {
  id : string;
  date : string;
  type : TransactionType;
  items : list TransactionItemDetail.t;
  notes : option string;
  timestamp : string;
  supplierName : option string;
  poNumber : option string;
  riNumber : option string;
  photos : option (list string)
}.
End Transaction.

(** ** Dashboard *)
Module Dashboard.

(** References to arrays and the store holding their contents. *)
Definition ref := positive.
Abbreviation store := (gmap ref (list InventoryItem.t)).

(** [arr.filter(p)] allocates a new array and leaves [arr] alone. *)
Definition array_filter (p : InventoryItem.t -> bool) (arr : ref) (h : store)
  : option (ref * store) :=
  match h !! arr with
  | None => None
  | Some xs => let r := fresh (dom h) in Some (r, <[r := List.filter p xs]> h)
  end.

(** [arr.sort(cmp)] sorts [arr] in place and returns the same reference. *)
Definition array_sort (cmp : InventoryItem.t -> InventoryItem.t -> Q)
  (arr : ref) (h : store) : option (ref * store) :=
  match h !! arr with
  | None => None
  | Some xs => Some (arr, <[arr := JS.sort cmp xs]> h)
  end.

(** [arr.length] *)
Definition array_length (arr : ref) (h : store) : option nat :=
  length <$> h !! arr.

(** [i => i.minLevel > 0 && i.quantity <= i.minLevel] *)
Definition isLowStock (i : InventoryItem.t) : bool :=
  JS.gt (InventoryItem.minLevel i) 0
  && JS.le (InventoryItem.quantity i) (InventoryItem.minLevel i).

(** [a.quantity / a.minLevel] *)
Definition level (a : InventoryItem.t) : Q :=
  InventoryItem.quantity a / InventoryItem.minLevel a.

(** [(a, b) => (a.quantity / a.minLevel) - (b.quantity / b.minLevel)] *)
Definition byLevel (a b : InventoryItem.t) : Q := level a - level b.

(** [stats.lowStockCount] *)
Definition lowStockCount (items : ref) (h : store) : option (nat * store) :=
  match array_filter isLowStock items h with
  | None => None
  | Some (r, h1) =>
      match array_length r h1 with
      | None => None
      | Some n => Some (n, h1)
      end
  end.

(** [lowStockItems] *)
Definition lowStockItems (items : ref) (h : store) : option (ref * store) :=
  match array_filter isLowStock items h with
  | None => None
  | Some (r, h1) => array_sort byLevel r h1
  end.

(** [arr.reduce(f, init)] reads the array and allocates nothing. *)
Definition array_reduce {B} (f : B -> InventoryItem.t -> B) (init : B)
  (arr : ref) (h : store) : option B :=
  JS.reduce f init <$> h !! arr.

(** The object returned by [stats]. *)
Record Stats := mkStats {
  totalItems : nat;
  alertCount : nat; (* the field [lowStockCount] *)
  totalValue : Q;
  totalStockCount : Q
}.

(** [stats] *)
Definition stats (items : ref) (h : store) : option (Stats * store) :=
  match array_length items h with
  | None => None
  | Some n =>
      match lowStockCount items h with
      | None => None
      | Some (low, h1) =>
          match
            array_reduce
              (fun acc curr =>
                 acc + InventoryItem.quantity curr * InventoryItem.unitPrice curr)
              0 items h1,
            array_reduce (fun acc curr => acc + InventoryItem.quantity curr)
              0 items h1
          with
          | Some value, Some count => Some (mkStats n low value count, h1)
          | _, _ => None
          end
      end
  end.

(** [Math.min(a, b)] *)
Definition min (a b : Q) : Q := if JS.le a b then a else b.

(** The width, in percent, of the bar drawn for an item of the low-stock
    list: [Math.min(100, (item.quantity / item.minLevel) * 100)]. *)
Definition barWidth (item : InventoryItem.t) : Q := min 100 (level item * 100).

(** An entry of [categoryData]. *)
Record Slice := mkSlice { name : string; value : Q }.

(** [categoryData].  [keysOf] stands for [Object.keys]: it lists the own keys
    of the object, in the engine's order (integer-like keys first, the
    others in creation order). *)
Definition categoryData (keysOf : gmap string Q -> list string)
  (xs : list InventoryItem.t) : option (list Slice) :=
  match JSObject.countAll InventoryItem.category InventoryItem.quantity ∅ xs with
  | None => None
  | Some counts =>
      Some (map (fun key => mkSlice key (default 0 (counts !! key))) (keysOf counts))
  end.

(** The total quantity of the items of category [c]. *)
Definition categoryTotal : string -> list InventoryItem.t -> Q :=
  JSObject.keyTotal InventoryItem.category InventoryItem.quantity.

(** An entry of [topItemsData]. *)
Module Bar.
Record t := mk {
  name : string;
  quantity : Q;
  fullItem : option InventoryItem.t
}.
End Bar.

(** The lines visited by
    [transactions.filter(t => t.type === 'OUT').forEach(t => t.items.forEach(...))],
    in the order of the visit. *)
Definition outboundLines (transactions : list Transaction.t)
  : list TransactionItemDetail.t :=
  flat_map Transaction.items
    (List.filter
       (fun t => match Transaction.type t with OUT => true | IN => false end)
       transactions).

(** [nameToIdMap] once the lines are visited: the last id seen per name. *)
Definition nameToIdMap (lines : list TransactionItemDetail.t)
  : gmap string string :=
  fold_left
    (fun ids line =>
       <[TransactionItemDetail.itemName line := TransactionItemDetail.itemId line]> ids)
    lines ∅.

(** [topItemsData].  [entriesOf] stands for [Object.entries] (own entries in
    the engine's key order) and [shorten] for
    [name.length > 15 ? name.substring(0, 15) + '...' : name], whose length
    and cut are counted in UTF-16 code units. *)
Definition topItemsData (entriesOf : gmap string Q -> list (string * Q))
  (shorten : string -> string) (items : list InventoryItem.t)
  (transactions : list Transaction.t) : option (list Bar.t) :=
  let lines := outboundLines transactions in
  match
    JSObject.countAll TransactionItemDetail.itemName
      TransactionItemDetail.quantityInput ∅ lines
  with
  | None => None
  | Some counts =>
      let ids := nameToIdMap lines in
      let bar (entry : string * Q) :=
        let '(name, qty) := entry in
        let fullItem :=
          match JS.find (fun i => JS.str_eq (InventoryItem.name i) name) items with
          | Some i => Some i
          | None =>
              match ids !! name with
              | Some id => JS.find (fun i => JS.str_eq (InventoryItem.id i) id) items
              | None => None
              end
          end in
        Bar.mk (shorten name) qty fullItem in
      Some (take 5
              (JS.sort (fun a b => Bar.quantity b - Bar.quantity a)
                 (map bar (entriesOf counts))))
  end.

End Dashboard.

(** ** TransactionManager *)
Module TransactionManager.

Module TID := TransactionItemDetail.

(** What the component does to the outside: the [alert] box of
    [handleAddToCart] (total requested, available stock) and the three
    callbacks received as props. *)
Inductive Effect :=
| alert (total available : Q)
| onProcessTransaction (tx : Transaction.t)
| onUpdateTransaction (tx : Transaction.t)
| onDeleteTransaction (id : string).

(** The message kept in [validationError] (available stock and base unit). *)
Inductive ValidationError :=
| InsufficientStockAvailable (available : Q) (baseUnit : string).

Inductive Cart := new | edit.

#[projections(primitive)]
Record State := mkState {
  (* New Transaction Form State *)
  date : string;
  type : TransactionType;
  notes : string;
  cartItems : list TID.t;
  supplierName : string;
  poNumber : string;
  riNumber : string;
  photos : list string;
  (* Item Selection State *)
  searchQuery : string;
  selectedItem : option InventoryItem.t;
  selectedUnit : string;
  conversionRatio : Q;
  quantityInput : option Q;
  isAutocompleteOpen : bool;
  (* Navigation State *)
  activeIndex : Z;
  (* Validation State *)
  validationError : option ValidationError;
  (* Edit Modal State *)
  isEditModalOpen : bool;
  editingTransaction : option Transaction.t;
  editDate : string;
  editType : TransactionType;
  editNotes : string;
  editCartItems : list TID.t;
  editSupplierName : string;
  editPoNumber : string;
  editRiNumber : string;
  editPhotos : list string
}.

(** The state of a freshly mounted component ([useState] initial values);
    [today] is the current date. *)
Definition initialState (today : string) : State :=
  mkState today IN "" [] "" "" "" []
          "" None "" 1 None false
          0%Z None
          false None "" IN "" [] "" "" "" [].

(** The [useState] setters. *)
Definition setType v s :=
  let 'mkState a _ c d e f g h i j k l m n o p q r t u w x y z a' b' := s in
  mkState a v c d e f g h i j k l m n o p q r t u w x y z a' b'.
Definition setNotes v s :=
  let 'mkState a b _ d e f g h i j k l m n o p q r t u w x y z a' b' := s in
  mkState a b v d e f g h i j k l m n o p q r t u w x y z a' b'.
Definition setCartItems v s :=
  let 'mkState a b c _ e f g h i j k l m n o p q r t u w x y z a' b' := s in
  mkState a b c v e f g h i j k l m n o p q r t u w x y z a' b'.
Definition setSupplierName v s :=
  let 'mkState a b c d _ f g h i j k l m n o p q r t u w x y z a' b' := s in
  mkState a b c d v f g h i j k l m n o p q r t u w x y z a' b'.
Definition setPoNumber v s :=
  let 'mkState a b c d e _ g h i j k l m n o p q r t u w x y z a' b' := s in
  mkState a b c d e v g h i j k l m n o p q r t u w x y z a' b'.
Definition setRiNumber v s :=
  let 'mkState a b c d e f _ h i j k l m n o p q r t u w x y z a' b' := s in
  mkState a b c d e f v h i j k l m n o p q r t u w x y z a' b'.
Definition setPhotos v s :=
  let 'mkState a b c d e f g _ i j k l m n o p q r t u w x y z a' b' := s in
  mkState a b c d e f g v i j k l m n o p q r t u w x y z a' b'.
Definition setSearchQuery v s :=
  let 'mkState a b c d e f g h _ j k l m n o p q r t u w x y z a' b' := s in
  mkState a b c d e f g h v j k l m n o p q r t u w x y z a' b'.
Definition setSelectedItem v s :=
  let 'mkState a b c d e f g h i _ k l m n o p q r t u w x y z a' b' := s in
  mkState a b c d e f g h i v k l m n o p q r t u w x y z a' b'.
Definition setSelectedUnit v s :=
  let 'mkState a b c d e f g h i j _ l m n o p q r t u w x y z a' b' := s in
  mkState a b c d e f g h i j v l m n o p q r t u w x y z a' b'.
Definition setConversionRatio v s :=
  let 'mkState a b c d e f g h i j k _ m n o p q r t u w x y z a' b' := s in
  mkState a b c d e f g h i j k v m n o p q r t u w x y z a' b'.
Definition setQuantityInput v s :=
  let 'mkState a b c d e f g h i j k l _ n o p q r t u w x y z a' b' := s in
  mkState a b c d e f g h i j k l v n o p q r t u w x y z a' b'.
Definition setIsAutocompleteOpen v s :=
  let 'mkState a b c d e f g h i j k l m _ o p q r t u w x y z a' b' := s in
  mkState a b c d e f g h i j k l m v o p q r t u w x y z a' b'.
Definition setActiveIndex v s :=
  let 'mkState a b c d e f g h i j k l m n _ p q r t u w x y z a' b' := s in
  mkState a b c d e f g h i j k l m n v p q r t u w x y z a' b'.
Definition setValidationError v s :=
  let 'mkState a b c d e f g h i j k l m n o _ q r t u w x y z a' b' := s in
  mkState a b c d e f g h i j k l m n o v q r t u w x y z a' b'.
Definition setIsEditModalOpen v s :=
  let 'mkState a b c d e f g h i j k l m n o p _ r t u w x y z a' b' := s in
  mkState a b c d e f g h i j k l m n o p v r t u w x y z a' b'.
Definition setEditingTransaction v s :=
  let 'mkState a b c d e f g h i j k l m n o p q _ t u w x y z a' b' := s in
  mkState a b c d e f g h i j k l m n o p q v t u w x y z a' b'.
Definition setEditDate v s :=
  let 'mkState a b c d e f g h i j k l m n o p q r _ u w x y z a' b' := s in
  mkState a b c d e f g h i j k l m n o p q r v u w x y z a' b'.
Definition setEditType v s :=
  let 'mkState a b c d e f g h i j k l m n o p q r t _ w x y z a' b' := s in
  mkState a b c d e f g h i j k l m n o p q r t v w x y z a' b'.
Definition setEditNotes v s :=
  let 'mkState a b c d e f g h i j k l m n o p q r t u _ x y z a' b' := s in
  mkState a b c d e f g h i j k l m n o p q r t u v x y z a' b'.
Definition setEditCartItems v s :=
  let 'mkState a b c d e f g h i j k l m n o p q r t u w _ y z a' b' := s in
  mkState a b c d e f g h i j k l m n o p q r t u w v y z a' b'.
Definition setEditSupplierName v s :=
  let 'mkState a b c d e f g h i j k l m n o p q r t u w x _ z a' b' := s in
  mkState a b c d e f g h i j k l m n o p q r t u w x v z a' b'.
Definition setEditPoNumber v s :=
  let 'mkState a b c d e f g h i j k l m n o p q r t u w x y _ a' b' := s in
  mkState a b c d e f g h i j k l m n o p q r t u w x y v a' b'.
Definition setEditRiNumber v s :=
  let 'mkState a b c d e f g h i j k l m n o p q r t u w x y z _ b' := s in
  mkState a b c d e f g h i j k l m n o p q r t u w x y z v b'.
Definition setEditPhotos v s :=
  let 'mkState a b c d e f g h i j k l m n o p q r t u w x y z a' _ := s in
  mkState a b c d e f g h i j k l m n o p q r t u w x y z a' v.

(** A handler maps the state of the render it closes over to the next state
    and the effects it performed. *)
Definition Handler := State -> State * list Effect.

(** [handleSelectItem] *)
Definition handleSelectItem (item : InventoryItem.t) : Handler := fun s =>
  (setActiveIndex (-1)%Z
     (setValidationError None
        (setIsAutocompleteOpen false
           (setConversionRatio 1
              (setSelectedUnit (InventoryItem.baseUnit item)
                 (setSearchQuery (InventoryItem.name item)
                    (setSelectedItem (Some item) s)))))), []).

(** [selectedItem.alternativeUnits?.find(u => u.name === unitName)] *)
Definition findAlt (item : InventoryItem.t) (unitName : string)
  : option UnitDefinition.t :=
  match InventoryItem.alternativeUnits item with
  | None => None
  | Some units => JS.find (fun u => JS.str_eq (UnitDefinition.name u) unitName) units
  end.

(** [alt?.ratio || 1] *)
Definition ratioOrOne (alt : option UnitDefinition.t) : Q :=
  match alt with
  | None => 1
  | Some u => JS.or_else (UnitDefinition.ratio u) 1
  end.

(** [handleUnitSelect] *)
Definition handleUnitSelect (unitName : string) : Handler := fun s =>
  match selectedItem s with
  | None => (s, [])
  | Some item =>
      let s1 := setSelectedUnit unitName s in
      if JS.str_eq unitName (InventoryItem.baseUnit item)
      then (setConversionRatio 1 s1, [])
      else (setConversionRatio (ratioOrOne (findAlt item unitName)) s1, [])
  end.

(** The quantity field's [onChange]: [setQuantityInput]. *)
Definition changeQuantity (q : option Q) : Handler := fun s =>
  (setQuantityInput q s, []).

(** The Inbound / Outbound buttons. *)
Definition selectType (t : TransactionType) : Handler := fun s =>
  (setValidationError None (setType t s), []).

Definition cartOf (targetCart : Cart) (s : State) : list TID.t :=
  match targetCart with
  | new => cartItems s
  | edit => editCartItems s
  end.

(** The cart that [targetCart] does not designate. *)
Definition otherCart (targetCart : Cart) (s : State) : list TID.t :=
  match targetCart with
  | new => editCartItems s
  | edit => cartItems s
  end.

(** [cart.filter(it => it.itemId === id).reduce((sum, current) =>
    sum + current.totalBaseQuantity, 0)] *)
Definition alreadyInCart (id : string) (cart : list TID.t) : Q :=
  JS.reduce (fun sum current => sum + TID.totalBaseQuantity current) 0
    (List.filter (fun it => JS.str_eq (TID.itemId it) id) cart).

(** [handleAddToCart] *)
Definition handleAddToCart (targetCart : Cart) : Handler := fun s =>
  match selectedItem s, quantityInput s with
  | Some item, Some qty =>
      if negb (JS.truthy qty) then (s, []) else
      let calculatedBase := qty * conversionRatio s in
      let added :=
        let newItem :=
          TID.mk (InventoryItem.id item) (InventoryItem.name item) qty
                 (selectedUnit s) (conversionRatio s) calculatedBase in
        let s1 :=
          match targetCart with
          | new => setCartItems (cartItems s ++ [newItem]) s
          | edit => setEditCartItems (editCartItems s ++ [newItem]) s
          end in
        (setValidationError None
           (setQuantityInput None
              (setSearchQuery "" (setSelectedItem None s1))), []) in
      match type s with
      | OUT =>
          let inCart := alreadyInCart (InventoryItem.id item) (cartOf targetCart s) in
          if JS.gt (inCart + calculatedBase) (InventoryItem.quantity item)
          then (s, [alert (inCart + calculatedBase) (InventoryItem.quantity item)])
          else added
      | IN => added
      end
  | _, _ => (s, [])
  end.

(** [handleSubmitTransaction]; [newId] is the value of [generateId()] and
    [now] that of [new Date().toISOString()]. *)
Definition handleSubmitTransaction (newId now : string) : Handler := fun s =>
  if (length (cartItems s) =? 0)%nat then (s, []) else
  let tx :=
    match type s with
    | IN =>
        Transaction.mk newId (date s) (type s) (cartItems s) (Some (notes s)) now
          (Some (supplierName s)) (Some (poNumber s)) (Some (riNumber s))
          (Some (photos s))
    | OUT =>
        Transaction.mk newId (date s) (type s) (cartItems s) (Some (notes s)) now
          None None None None
    end in
  (setRiNumber ""
     (setPoNumber ""
        (setSupplierName ""
           (setPhotos [] (setNotes "" (setCartItems [] s))))),
   [onProcessTransaction tx]).

(** [openEditModal] *)
Definition openEditModal (tx : Transaction.t) : Handler := fun s =>
  (setIsEditModalOpen true
     (setEditPhotos (default [] (Transaction.photos tx))
        (setEditRiNumber (default "" (Transaction.riNumber tx))
           (setEditPoNumber (default "" (Transaction.poNumber tx))
              (setEditSupplierName (default "" (Transaction.supplierName tx))
                 (setEditCartItems (Transaction.items tx)
                    (setEditNotes (default "" (Transaction.notes tx))
                       (setEditType (Transaction.type tx)
                          (setEditDate (Transaction.date tx)
                             (setEditingTransaction (Some tx) s))))))))), []).

(** [updateEditItemQty].  Reading [updated[index].conversionRatio] past the
    end of the array throws a [TypeError] before any state is set: [None]. *)
Definition updateEditItemQty (index : nat) (newQty : Q) (s : State)
  : option State :=
  let updated := editCartItems s in
  match updated !! index with
  | None => None
  | Some line =>
      let line' :=
        TID.mk (TID.itemId line) (TID.itemName line) newQty
               (TID.selectedUnit line) (TID.conversionRatio line)
               (newQty * JS.or_else (TID.conversionRatio line) 1) in
      Some (setEditCartItems (<[index := line']> updated) s)
  end.

(** [handleSaveEdit] *)
Definition handleSaveEdit : Handler := fun s =>
  match editingTransaction s with
  | None => (s, [])
  | Some editing =>
      let updatedTx :=
        Transaction.mk (Transaction.id editing) (editDate s) (editType s)
          (editCartItems s) (Some (editNotes s)) (Transaction.timestamp editing)
          (Some (editSupplierName s)) (Some (editPoNumber s))
          (Some (editRiNumber s)) (Some (editPhotos s)) in
      (setIsEditModalOpen false s, [onUpdateTransaction updatedTx])
  end.

(** The remove buttons of the two carts:
    [cart.filter((_, idx) => idx !== i)]. *)
Definition removeLine (targetCart : Cart) (i : nat) : Handler := fun s =>
  let keep := JS.filteri (fun (_ : TID.t) idx => negb (idx =? i)%nat) in
  match targetCart with
  | new => (setCartItems (keep (cartItems s)) s, [])
  | edit => (setEditCartItems (keep (editCartItems s)) s, [])
  end.

(** Sequencing of handlers: the second one runs in the render that follows
    the first. *)
Definition andThen (h1 h2 : Handler) : Handler := fun s =>
  let '(s1, es1) := h1 s in
  let '(s2, es2) := h2 s1 in
  (s2, es1 ++ es2).

(** Adding a line through the item form: pick the item, pick the unit, type
    the quantity, press "Add to Cart". *)
Definition addLine (targetCart : Cart) (item : InventoryItem.t)
  (unitName : string) (qty : Q) : Handler :=
  andThen (handleSelectItem item)
    (andThen (handleUnitSelect unitName)
       (andThen (changeQuantity (Some qty)) (handleAddToCart targetCart))).

(** The ratio the item form holds after [unitName] was picked for [item]. *)
Definition resolve (item : InventoryItem.t) (unitName : string) : Q :=
  if JS.str_eq unitName (InventoryItem.baseUnit item) then 1
  else ratioOrOne (findAlt item unitName).

(** The item form once [item], [unitName] and [qty] have been entered, just
    before "Add to Cart" is pressed. *)
Definition formFilled (item : InventoryItem.t) (unitName : string) (qty : Q)
  (s : State) : State :=
  setQuantityInput (Some qty)
    (fst (handleUnitSelect unitName (fst (handleSelectItem item s)))).

(** The line [handleAddToCart] builds for [qty] of [item] in unit [unitName]. *)
Definition newLine (item : InventoryItem.t) (unitName : string) (qty : Q)
  : TID.t :=
  TID.mk (InventoryItem.id item) (InventoryItem.name item) qty unitName
         (resolve item unitName) (qty * resolve item unitName).

(** The user actions that touch the carts, the item form or the edit modal. *)
Inductive Event :=
| SelectItem (item : InventoryItem.t)
| SelectUnit (unitName : string)
| ChangeQuantity (q : option Q)
| SelectType (t : TransactionType)
| AddToCart (targetCart : Cart)
| RemoveLine (targetCart : Cart) (i : nat)
| SubmitTransaction (newId now : string)
| OpenEditModal (tx : Transaction.t)
| UpdateEditItemQty (index : nat) (newQty : Q)
| SaveEdit.

(** An exception thrown inside an event handler leaves the state as it was. *)
Definition dispatch (e : Event) : Handler :=
  match e with
  | SelectItem item => handleSelectItem item
  | SelectUnit unitName => handleUnitSelect unitName
  | ChangeQuantity q => changeQuantity q
  | SelectType t => selectType t
  | AddToCart targetCart => handleAddToCart targetCart
  | RemoveLine targetCart i => removeLine targetCart i
  | SubmitTransaction newId now => handleSubmitTransaction newId now
  | OpenEditModal tx => openEditModal tx
  | UpdateEditItemQty index newQty => fun s =>
      match updateEditItemQty index newQty s with
      | Some s' => (s', [])
      | None => (s, [])
      end
  | SaveEdit => handleSaveEdit
  end.

(** The edit modal is opened on a transaction of the history list, the
    [transactions] prop. *)
Definition offered (history : Transaction.t -> Prop) (e : Event) : Prop :=
  match e with
  | OpenEditModal tx => history tx
  | _ => True
  end.

(** The states reached from mount by these actions.  The remaining inputs
    of the component (date, notes, supplier, photos, search text, closing
    the modal) only set their own field and are left out. *)
Inductive reachable (history : Transaction.t -> Prop) : State -> Prop :=
| reach_mount today : reachable history (initialState today)
| reach_event s e :
    reachable history s -> offered history e ->
    reachable history (fst (dispatch e s)).

(** The state after a sequence of user actions. *)
Definition replay (events : list Event) (s : State) : State :=
  foldl (fun s e => fst (dispatch e s)) s events.

(** A line whose stored total is its quantity times its own, non-zero,
    stored ratio. *)
Definition consistentLine (line : TID.t) : Prop :=
  TID.totalBaseQuantity line = TID.quantityInput line * TID.conversionRatio line
  /\ JS.truthy (TID.conversionRatio line) = true.

(** A line whose stored total is its quantity times [conversionRatio || 1],
    as [updateEditItemQty] computes it. *)
Definition recomputedLine (line : TID.t) : Prop :=
  TID.totalBaseQuantity line
  = TID.quantityInput line * JS.or_else (TID.conversionRatio line) 1.

(** A line of the edit cart: received with a transaction of the history, or
    holding a recomputed total. *)
Definition editLine (history : Transaction.t -> Prop) (line : TID.t) : Prop :=
  recomputedLine line
  \/ exists tx, history tx /\ In line (Transaction.items tx).

(** The form's ratio is never zero, every line of the new cart is
    consistent, and every line of the edit cart is an [editLine]. *)
Definition formInvariant (history : Transaction.t -> Prop) (s : State) : Prop :=
  JS.truthy (conversionRatio s) = true
  /\ Forall consistentLine (cartItems s)
  /\ Forall (editLine history) (editCartItems s).

(** The parent owns the catalog and the ledger; the component reaches them
    only through the props. *)
Record Props (App : Type) := mkProps {
  inventory : App -> list InventoryItem.t;
  transactions : App -> list Transaction.t;
  processTransaction : Transaction.t -> App -> App;
  updateTransaction : Transaction.t -> App -> App;
  deleteTransaction : string -> App -> App
}.
Arguments mkProps {App}.
Arguments inventory {App}.
Arguments transactions {App}.
Arguments processTransaction {App}.
Arguments updateTransaction {App}.
Arguments deleteTransaction {App}.

Definition perform {App} (P : Props App) (e : Effect) (app : App) : App :=
  match e with
  | alert _ _ => app
  | onProcessTransaction tx => processTransaction P tx app
  | onUpdateTransaction tx => updateTransaction P tx app
  | onDeleteTransaction id => deleteTransaction P id app
  end.

(** Running a handler of the mounted component against the parent. *)
Definition run {App} (P : Props App) (h : Handler) (w : App * State)
  : App * State :=
  let '(s', effects) := h (snd w) in
  (foldl (fun app e => perform P e app) (fst w) effects, s').

(** [totalBaseCalc] *)
Definition totalBaseCalc (s : State) : Q :=
  match quantityInput s with
  | None => 0
  | Some q => q * conversionRatio s
  end.

(** The validation effect, run after every render in which [quantityInput],
    [selectedItem], [type], [cartItems] or [totalBaseCalc] changed. *)
Definition validationEffect (s : State) : State :=
  match type s, selectedItem s with
  | OUT, Some selected =>
      if JS.falsy_opt (quantityInput s) then setValidationError None s else
      let inCart := alreadyInCart (InventoryItem.id selected) (cartItems s) in
      let totalRequested := inCart + totalBaseCalc s in
      if JS.gt totalRequested (InventoryItem.quantity selected)
      then setValidationError
             (Some (InsufficientStockAvailable (InventoryItem.quantity selected)
                      (InventoryItem.baseUnit selected))) s
      else setValidationError None s
  | _, _ => setValidationError None s
  end.

(** [!selectedItem || !quantityInput || !!validationError], the [disabled]
    attribute of the "Add to Cart" button. *)
Definition addDisabled (s : State) : bool :=
  negb (bool_decide (is_Some (selectedItem s)))
  || JS.falsy_opt (quantityInput s)
  || bool_decide (is_Some (validationError s)).

(** A click on "Add to Cart": a disabled button does not fire. *)
Definition clickAddToCart (targetCart : Cart) : Handler := fun s =>
  if addDisabled s then (s, []) else handleAddToCart targetCart s.

(** [handleQtyKeyDown] *)
Definition handleQtyKeyDown (key : string) (target : Cart) : Handler := fun s =>
  if JS.str_eq key "Enter" then
    match selectedItem s, validationError s with
    | Some _, None =>
        if JS.falsy_opt (quantityInput s) then (s, [])
        else handleAddToCart target s
    | _, _ => (s, [])
    end
  else (s, []).

(** A click on the Inbound or Outbound button together with the render it
    causes.  The handler sets [type] and [validationError] only, so of the
    dependencies of the validation effect ([quantityInput], [selectedItem],
    [type], [cartItems], [totalBaseCalc]) only [type] can have changed, and
    React runs an effect again only when one of its dependencies changed. *)
Definition clickType (t : TransactionType) (s : State) : State :=
  let s1 := fst (selectType t s) in
  match t, type s with
  | IN, IN | OUT, OUT => s1
  | _, _ => validationEffect s1
  end.

(** [handleSearchKeyDown], for the current value of [filteredInventory].
    [handleSelectItem(filteredInventory[indexToSelect])] past the end of the
    list throws a [TypeError] on [item.name]: [None]. *)
Definition handleSearchKeyDown (key : string)
  (filteredInventory : list InventoryItem.t) (s : State)
  : option (State * list Effect) :=
  let len := Z.of_nat (length filteredInventory) in
  if JS.str_eq key "Enter" && (0 <? len)%Z then
    let indexToSelect := if (0 <=? activeIndex s)%Z then activeIndex s else 0%Z in
    match filteredInventory !! Z.to_nat indexToSelect with
    | Some item => Some (handleSelectItem item s)
    | None => None
    end
  else if negb (isAutocompleteOpen s) || (len =? 0)%Z then Some (s, [])
  else if JS.str_eq key "ArrowDown" then
    Some (setActiveIndex
            (if (activeIndex s <? len - 1)%Z then (activeIndex s + 1)%Z
             else activeIndex s) s, [])
  else if JS.str_eq key "ArrowUp" then
    Some (setActiveIndex
            (if (0 <? activeIndex s)%Z then (activeIndex s - 1)%Z else 0%Z) s, [])
  else if JS.str_eq key "Escape" then Some (setIsAutocompleteOpen false s, [])
  else Some (s, []).

(** A transaction as the edit modal holds it: the optional fields that are
    absent read as [''] and [[]]. *)
Definition withDefaults (tx : Transaction.t) : Transaction.t :=
  Transaction.mk (Transaction.id tx) (Transaction.date tx) (Transaction.type tx)
    (Transaction.items tx) (Some (default "" (Transaction.notes tx)))
    (Transaction.timestamp tx)
    (Some (default "" (Transaction.supplierName tx)))
    (Some (default "" (Transaction.poNumber tx)))
    (Some (default "" (Transaction.riNumber tx)))
    (Some (default [] (Transaction.photos tx))).

Section Search.

(** The Unicode-aware string methods and the engine's sort are not part of
    the component; [splitWhitespace] stands for [split(/\s+/)].  The
    comparator below is not a consistent one (two items named like the query
    are each ranked before the other), so the order [sort] gives is the
    engine's own. *)
Variables (toLowerCase trim : string -> string).
Variable splitWhitespace : string -> list string.
Variable engineSort :
  (InventoryItem.t -> InventoryItem.t -> Z) -> list InventoryItem.t
  -> list InventoryItem.t.

(** [`${item.name} ${item.sku} ${item.category}`.toLowerCase()] *)
Definition searchString (item : InventoryItem.t) : string :=
  toLowerCase
    (InventoryItem.name item +:+ " " +:+ InventoryItem.sku item +:+ " "
     +:+ InventoryItem.category item).

(** The tokens of the debounced query. *)
Definition searchTokens (debouncedSearchQuery : string) : list string :=
  List.filter (fun t => negb (JS.str_eq t ""))
    (splitWhitespace (trim (toLowerCase debouncedSearchQuery))).

(** The comparator handed to [sort]. *)
Definition byRelevance (query : string) (a b : InventoryItem.t) : Z :=
  let nameA := toLowerCase (InventoryItem.name a) in
  let nameB := toLowerCase (InventoryItem.name b) in
  if JS.str_eq nameA query then (-1)%Z
  else if JS.str_eq nameB query then 1%Z
  else
    let aStarts := JSString.startsWith nameA query in
    let bStarts := JSString.startsWith nameB query in
    if aStarts && negb bStarts then (-1)%Z
    else if negb aStarts && bStarts then 1%Z
    else 0%Z.

(** [tokens.every(token => searchString.includes(token))] *)
Definition matchesAll (tokens : list string) (item : InventoryItem.t) : bool :=
  forallb (fun token => JSString.includes (searchString item) token) tokens.

(** [filteredInventory] *)
Definition filteredInventory (debouncedSearchQuery : string)
  (inventory : list InventoryItem.t) : list InventoryItem.t :=
  if JS.str_eq debouncedSearchQuery "" then [] else
  let query := trim (toLowerCase debouncedSearchQuery) in
  let tokens := searchTokens debouncedSearchQuery in
  take 10
    (engineSort (byRelevance query) (List.filter (matchesAll tokens) inventory)).

End Search.

End TransactionManager.

(** ** InventoryTable *)
Module InventoryTable.

(** An [InventoryItem] together with the fields that only the table handles
    ([location], [lastUpdated], [status]). *)
Module Row.
Record t := mk {
  item : InventoryItem.t;
  location : string;
  lastUpdated : string;
  status : string
}.
End Row.

(** [Partial<InventoryItem>], the fields of [formData] that [handleSubmit]
    reads. *)
Module FormData.
Record t := mk {
  name : option string;
  sku : option string;
  category : option string;
  quantity : option Q;
  baseUnit : option string;
  minLevel : option Q;
  unitPrice : option Q;
  location : option string;
  status : option string
}.
End FormData.

Inductive Effect :=
| onAddItem (row : Row.t)
| onUpdateItem (row : Row.t)
| onDeleteItem (id : string).

(** The state of the item modal. *)
Record State := mkState {
  isModalOpen : bool;
  editingItem : option Row.t;
  formData : FormData.t;
  alternativeUnits : list UnitDefinition.t
}.

Definition Handler := State -> State * list Effect.

(** [x || d] for [x : string | undefined]: the empty string is falsy. *)
Definition str_or (x : option string) (d : string) : string :=
  match x with
  | Some v => if JS.str_eq v "" then d else v
  | None => d
  end.

(** [x !== undefined ? Number(x) : 0] *)
Definition num_or_zero (x : option Q) : Q := default 0 x.

(** [userRole === 'admin' || userRole === 'staff'] *)
Definition canEdit (userRole : string) : bool :=
  JS.str_eq userRole "admin" || JS.str_eq userRole "staff".

(** [(item.minLevel || 0) > 0 && item.quantity <= item.minLevel] *)
Definition isAlertItem (item : InventoryItem.t) : bool :=
  JS.gt (JS.or_else (InventoryItem.minLevel item) 0) 0
  && JS.le (InventoryItem.quantity item) (InventoryItem.minLevel item).

(** [setFormData(item)]: every field of the item is present. *)
Definition formOf (row : Row.t) : FormData.t :=
  let item := Row.item row in
  FormData.mk (Some (InventoryItem.name item)) (Some (InventoryItem.sku item))
    (Some (InventoryItem.category item)) (Some (InventoryItem.quantity item))
    (Some (InventoryItem.baseUnit item)) (Some (InventoryItem.minLevel item))
    (Some (InventoryItem.unitPrice item)) (Some (Row.location row))
    (Some (Row.status row)).

(** The form of a new item. *)
Definition blankForm : FormData.t :=
  FormData.mk (Some "") (Some "") (Some "") None (Some "Pcs") None None
    (Some "") (Some "active").

(** [handleOpenModal] *)
Definition handleOpenModal (item : option Row.t) : Handler := fun s =>
  match item with
  | Some row =>
      (mkState true (Some row) (formOf row)
         (default [] (InventoryItem.alternativeUnits (Row.item row))), [])
  | None => (mkState true None blankForm [], [])
  end.

(** [u => ({ ...u, ratio: Number(u.ratio) || 0 })] *)
Definition normalizeUnit (u : UnitDefinition.t) : UnitDefinition.t :=
  UnitDefinition.mk (UnitDefinition.name u) (JS.or_else (UnitDefinition.ratio u) 0).

(** [handleSubmit]; [newId] is the value of [generateId()] and [now] that of
    [new Date().toISOString()]. *)
Definition handleSubmit (userRole newId now : string) : Handler := fun s =>
  if negb (canEdit userRole) then (s, []) else
  let form := formData s in
  let newItem :=
    Row.mk
      (InventoryItem.mk
         (match editingItem s with
          | Some editing => InventoryItem.id (Row.item editing)
          | None => newId
          end)
         (str_or (FormData.sku form) "")
         (str_or (FormData.name form) "")
         (str_or (FormData.category form) "General")
         (num_or_zero (FormData.quantity form))
         (str_or (FormData.baseUnit form) "Pcs")
         (Some (map normalizeUnit (alternativeUnits s)))
         (num_or_zero (FormData.minLevel form))
         (num_or_zero (FormData.unitPrice form)))
      (str_or (FormData.location form) "")
      now
      (str_or (FormData.status form) "active") in
  (mkState false (editingItem s) (formData s) (alternativeUnits s),
   [match editingItem s with
    | Some _ => onUpdateItem newItem
    | None => onAddItem newItem
    end]).

(** [addAltUnit] *)
Definition addAltUnit : Handler := fun s =>
  (mkState (isModalOpen s) (editingItem s) (formData s)
     (alternativeUnits s ++ [UnitDefinition.mk "" 0]), []).

(** [removeAltUnit] *)
Definition removeAltUnit (idx : nat) : Handler := fun s =>
  (mkState (isModalOpen s) (editingItem s) (formData s)
     (JS.filteri (fun (_ : UnitDefinition.t) i => negb (i =? idx)%nat)
        (alternativeUnits s)), []).

(** The field and value passed to [updateAltUnit]. *)
Inductive UnitField :=
| name_is (val : string)
| ratio_is (val : Q).

(** An element of the array [updated] at run time: a hole of a sparse array,
    or an object with the properties it has. *)
Module Slot.
Inductive t :=
| hole
| object (name : option string) (ratio : option Q).

Definition ofUnit (u : UnitDefinition.t) : t :=
  object (Some (UnitDefinition.name u)) (Some (UnitDefinition.ratio u)).

(** A slot that holds a [UnitDefinition]. *)
Definition toUnit (slot : t) : option UnitDefinition.t :=
  match slot with
  | object (Some name) (Some ratio) => Some (UnitDefinition.mk name ratio)
  | _ => None
  end.
End Slot.

(** [{ ...old, [field]: val }]: spreading [undefined], which is what a hole
    or an index past the end reads as, contributes no property. *)
Definition withField (old : option Slot.t) (field : UnitField) : Slot.t :=
  let '(name, ratio) :=
    match old with
    | Some (Slot.object name ratio) => (name, ratio)
    | _ => (None, None)
    end in
  match field with
  | name_is val => Slot.object (Some val) ratio
  | ratio_is val => Slot.object name (Some val)
  end.

(** [arr[idx] = x]: within the array the element is replaced; at or past
    the end the array grows to [idx + 1] elements, the new ones before
    [idx] being holes. *)
Definition array_set (idx : nat) (x : Slot.t) (arr : list Slot.t) : list Slot.t :=
  if (idx <? length arr)%nat then <[idx := x]> arr
  else arr ++ replicate (idx - length arr) Slot.hole ++ [x].

(** The array [updated] that [updateAltUnit] hands to
    [setAlternativeUnits]. *)
Definition updatedUnits (idx : nat) (field : UnitField) (s : State)
  : list Slot.t :=
  let updated := Slot.ofUnit <$> alternativeUnits s in
  array_set idx (withField (updated !! idx) field) updated.

(** [updateAltUnit].  The next state holds [updated]; when one of its
    elements is a hole or lacks a property it is no [UnitDefinition[]], and
    the array is returned as it is ([inr]). *)
Definition updateAltUnit (idx : nat) (field : UnitField) (s : State)
  : State + list Slot.t :=
  let updated := updatedUnits idx field s in
  match mapM Slot.toUnit updated with
  | Some units =>
      inl (mkState (isModalOpen s) (editingItem s) (formData s) units)
  | None => inr updated
  end.

Section Listing.

(** The Unicode-aware string methods and the default sort of strings (by
    UTF-16 code units) are not part of the component. *)
Variables (toLowerCase trim : string -> string).
Variable sortStrings : list string -> list string.

(** [filteredItems] *)
Definition filteredItems (debouncedSearchTerm categoryFilter : string)
  (items : list Row.t) : list Row.t :=
  List.filter
    (fun row =>
       let item := Row.item row in
       let term := toLowerCase debouncedSearchTerm in
       let matchesSearch :=
         JSString.includes (toLowerCase (InventoryItem.name item)) term
         || JSString.includes (toLowerCase (InventoryItem.sku item)) term in
       let matchesCategory :=
         JS.str_eq categoryFilter "All"
         || JS.str_eq (InventoryItem.category item) categoryFilter in
       matchesSearch && matchesCategory)
    items.

(** [Array.from(new Set(cats))]: the distinct values, each at its first
    occurrence. *)
Fixpoint distinct (cats : list string) : list string :=
  match cats with
  | [] => []
  | c :: rest => c :: List.filter (fun d => negb (JS.str_eq d c)) (distinct rest)
  end.

(** [dynamicCategories] *)
Definition dynamicCategories (items : list Row.t) : list string :=
  sortStrings
    (distinct
       (List.filter
          (fun c => negb (JS.str_eq c "") && negb (JS.str_eq (trim c) ""))
          (map (fun row => InventoryItem.category (Row.item row)) items))).

End Listing.

End InventoryTable.

(** ** LoginPage *)
Module LoginPage.

(** What [await loginUser(...)] produces: an exception (the promise is
    rejected) or the object [{ success, user, message }]. *)
Inductive ServerReply (User : Type) :=
| rejected
| replied (success : bool) (user : option User) (message : option string).
Arguments rejected {User}.
Arguments replied {User}.

Inductive Effect (User : Type) :=
| request (vpsUrl cleanUsername cleanPassword : string)
| warn
| onLogin (user : User).
Arguments request {User}.
Arguments warn {User}.
Arguments onLogin {User}.

(** The state of the form that [handleLogin] reads and writes. *)
Record State := mkState {
  username : string;
  password : string;
  error : option string;
  isAnimating : bool
}.

(** [settings?.vpsApiUrl || '/'] *)
Definition serverUrl (vpsApiUrl : option string) : string :=
  match vpsApiUrl with
  | Some url => if JS.str_eq url "" then "/" else url
  | None => "/"
  end.

Section HandleLogin.

(** The [User] records, the string primitives and the two services are not
    part of the component. *)
Context {User : Type}.
Variables (trim toLowerCase : string -> string).
Variables (userName : User -> string) (userPassword : User -> option string).
Variable loginUser : string -> string -> string -> ServerReply User.
Variable verifyPassword : string -> string -> bool.

(** [handleLogin], for the [users] prop and [settings?.vpsApiUrl]. *)
Definition handleLogin (users : list User) (vpsApiUrl : option string)
  (s : State) : State * list (Effect User) :=
  let cleanUsername := trim (username s) in
  let cleanPassword := trim (password s) in
  let finish (err : option string) (effects : list (Effect User)) :=
    (mkState (username s) (password s) err false, effects) in
  if JS.str_eq cleanUsername "" || JS.str_eq cleanPassword "" then
    finish (Some "Username & Password wajib diisi") []
  else
    let vpsUrl := serverUrl vpsApiUrl in
    let fallback (before : list (Effect User)) :=
      match
        JS.find
          (fun u => JS.str_eq (toLowerCase (userName u)) (toLowerCase cleanUsername))
          users
      with
      | Some foundUser =>
          if verifyPassword cleanPassword (default "" (userPassword foundUser))
          then finish None (before ++ [onLogin foundUser])
          else finish (Some "Password salah (Pastikan server aktif)") before
      | None => finish (Some "User tidak ditemukan.") before
      end in
    match loginUser vpsUrl cleanUsername cleanPassword with
    | replied true (Some user) _ =>
        finish None [request vpsUrl cleanUsername cleanPassword; onLogin user]
    | replied _ _ (Some message) =>
        if negb (JS.str_eq message "") && negb (JSString.includes message "Network Error")
        then fallback [request vpsUrl cleanUsername cleanPassword; warn]
        else fallback [request vpsUrl cleanUsername cleanPassword]
    | replied _ _ None => fallback [request vpsUrl cleanUsername cleanPassword]
    | rejected => fallback [request vpsUrl cleanUsername cleanPassword; warn]
    end.

End HandleLogin.

(** The users handed to [onLogin]. *)
Definition logins {User} (effects : list (Effect User)) : list User :=
  omap (fun e => match e with onLogin u => Some u | _ => None end) effects.

(** The server accepted the credentials: [result.success && result.user]. *)
Definition accepted {User} (reply : ServerReply User) : option User :=
  match reply with
  | replied true (Some user) _ => Some user
  | _ => None
  end.

End LoginPage.

(** ** Sample data: the item of the specification's scenarios *)
Module Samples.

Definition box : UnitDefinition.t := UnitDefinition.mk "Box" 12.

Definition widget (qty : Q) : InventoryItem.t :=
  InventoryItem.mk "i1" "SKU-1" "Widget" "Parts" qty "Pcs" (Some [box]) 20 1500.

Definition bolt : InventoryItem.t :=
  InventoryItem.mk "i2" "SKU-2" "Bolt" "Parts" 3 "Pcs" None 10 200.

Definition nut : InventoryItem.t :=
  InventoryItem.mk "i3" "SKU-3" "Nut" "Parts" 50 "Pcs" None 0 100.

Definition shelf : list InventoryItem.t := [widget 4; nut; bolt; widget 100].

(** Two local accounts (name, stored password), and a login service that
    answers every attempt with a refusal. *)
Definition accounts : list (string * string) :=
  [("admin", "s3cret"); ("budi", "gudang")].

Definition refusing (url user pass : string) : LoginPage.ServerReply (string * string) :=
  LoginPage.replied false None (Some "Invalid credentials").

(** An item saved with an alternative unit left blank (no name, ratio 0). *)
Definition tape : InventoryItem.t :=
  InventoryItem.mk "i4" "SKU-4" "Tape" "Parts" 10 "Roll"
    (Some [UnitDefinition.mk "" 0; UnitDefinition.mk "Carton" 6]) 0 0.

(** A parent that only records the callbacks it receives. *)
Definition recorder : TransactionManager.Props (list TransactionManager.Effect) :=
  TransactionManager.mkProps
    (fun _ => [widget 4])
    (fun _ => [])
    (fun tx log => log ++ [TransactionManager.onProcessTransaction tx])
    (fun tx log => log ++ [TransactionManager.onUpdateTransaction tx])
    (fun id log => log ++ [TransactionManager.onDeleteTransaction id]).

(** A freshly mounted component, and the same with "Outbound" selected. *)
Definition mounted : TransactionManager.State :=
  TransactionManager.initialState "2026-11-03".

Definition outbound : TransactionManager.State :=
  fst (TransactionManager.selectType OUT mounted).

(** The outbound form filled with 9 boxes of the widget, of which 100 pieces
    are in stock. *)
Definition overdrawn : TransactionManager.State :=
  TransactionManager.formFilled (widget 100) "Box" 9 outbound.

(** The committed sale of scenario B: 8 boxes of the widget. *)
Definition sale : Transaction.t :=
  Transaction.mk "t1" "2026-11-01" OUT
    [TransactionManager.newLine (widget 100) "Box" 8]
    (Some "") "2026-11-01T10:00:00.000Z" None None None None.

Definition history (tx : Transaction.t) : Prop := tx = sale.

(** A transaction stored with a line whose conversion ratio is 0. *)
Definition legacy : Transaction.t :=
  Transaction.mk "t9" "2025-01-15" OUT
    [TransactionItemDetail.mk "i4" "Tape" 3 "Carton" 0 0]
    (Some "") "2025-01-15T10:00:00.000Z" None None None None.

(** A delivery of 50 pieces, and the ledger holding it with the sale. *)
Definition restock : Transaction.t :=
  Transaction.mk "t0" "2026-10-30" IN
    [TransactionManager.newLine (widget 100) "Pcs" 50]
    (Some "") "2026-10-30T08:00:00.000Z" (Some "PT Sumber") (Some "PO-1")
    (Some "RI-1") (Some []).

Definition ledger : list Transaction.t := [restock; sale].

(** A session: an outbound draft of 5 boxes and 30 pieces of the widget,
    then the sale opened in the edit modal. *)
Definition session : list TransactionManager.Event :=
  [TransactionManager.SelectType OUT;
   TransactionManager.SelectItem (widget 100);
   TransactionManager.SelectUnit "Box";
   TransactionManager.ChangeQuantity (Some 5);
   TransactionManager.AddToCart TransactionManager.new;
   TransactionManager.SelectItem (widget 100);
   TransactionManager.ChangeQuantity (Some 30);
   TransactionManager.AddToCart TransactionManager.new;
   TransactionManager.OpenEditModal sale].

End Samples.

(** ** The numeric decisions in double precision

    The stock check of [handleAddToCart], the order of the low-stock list
    and the totals of the category chart depend on how sums, products and
    quotients are rounded.  The definitions of this module follow the same
    source lines as above, with every number an IEEE-754 binary64 value and
    every operation rounded to nearest, ties to even, as JavaScript does. *)
Module Binary64.

(** JavaScript numbers.  [SpecFloat] is the specification of binary64
    arithmetic that Rocq's primitive floats implement: 53 bits of precision,
    infinities at exponent 1024. *)
Module Number.

Definition t := spec_float.
Definition prec : Z := 53%Z.
Definition emax : Z := 1024%Z.

(** [x + y], [x - y], [x * y], [x / y] *)
Definition add : t -> t -> t := SFadd prec emax.
Definition sub : t -> t -> t := SFsub prec emax.
Definition mul : t -> t -> t := SFmul prec emax.
Definition div : t -> t -> t := SFdiv prec emax.

(** [x > y], [x <= y] and [x === y]: all three are false when an operand is
    [NaN], and [+0] equals [-0]. *)
Definition gt (x y : t) : bool := SFltb y x.
Definition le (x y : t) : bool := SFleb x y.
Definition eqb (x y : t) : bool := SFeqb x y.

(** The literals [0] and [1], and an integer literal in general (exact
    below [2^53], rounded above). *)
Definition ofZ (z : Z) : t := binary_normalize prec emax z 0%Z false.
Definition zero : t := S754_zero false.
Definition one : t := ofZ 1.

(** The number JavaScript reads from a decimal numeral [n/d], as typed into
    a number field or written in JSON: division is correctly rounded, so
    with [n] and [d] exact this is the binary64 value nearest to [n/d]. *)
Definition ofDecimal (q : Q) : t := div (ofZ (Qnum q)) (ofZ (Zpos (Qden q))).

(** Truthiness: [0], [-0] and [NaN] are falsy. *)
Definition truthy (x : t) : bool :=
  match x with
  | S754_zero _ | S754_nan => false
  | _ => true
  end.

(** [x || d] *)
Definition or_else (x d : t) : t := if truthy x then x else d.

(** The triples of [SpecFloat] that denote a binary64 value. *)
Definition isValue (x : t) : bool := valid_binary prec emax x.

Definition isNaN (x : t) : bool :=
  match x with
  | S754_nan => true
  | _ => false
  end.

(** Neither [NaN] nor an infinity. *)
Definition isFinite (x : t) : bool :=
  match x with
  | S754_zero _ | S754_finite _ _ _ => true
  | _ => false
  end.

(** The exponent that rounding gives a number of magnitude [2^k]:
    [fexp prec emax k]. *)
Definition fexp64 (k : Z) : Z := Z.max (k - 53) (-1074).

(** By how many bits rounding shifts the mantissa [m] at exponent [e]. *)
Definition shift (m e : Z) : Z := Z.max 0 (fexp64 (Zdigits2 m + e) - e).

(** The place of a number other than [NaN] in the order of the numbers, as a
    triple compared lexicographically: sign class, exponent, mantissa. *)
Definition rank (x : t) : Z * Z * Z :=
  match x with
  | S754_nan => (0, 0, 0)
  | S754_zero _ => (0, 0, 0)
  | S754_infinity true => (-2, 0, 0)
  | S754_infinity false => (2, 0, 0)
  | S754_finite true m e => (-1, - e, - Zpos m)
  | S754_finite false m e => (1, e, Zpos m)
  end%Z.

Definition lex (a b : Z * Z * Z) : comparison :=
  let '(a1, a2, a3) := a in
  let '(b1, b2, b3) := b in
  match (a1 ?= b1)%Z with
  | Eq => match (a2 ?= b2)%Z with Eq => (a3 ?= b3)%Z | c => c end
  | c => c
  end.

End Number.

(** [Array.prototype.sort(cmp)] with a comparator that returns a number.
    The sort is stable, and with a consistent comparator every stable sort
    returns the same array; it is modelled by stable insertion: an element
    moves behind a neighbour only when the comparator is strictly positive,
    and a comparator value of [NaN] counts as [0]. *)
Fixpoint sort_insert {A} (cmp : A -> A -> Number.t) (x : A) (sorted : list A)
  : list A :=
  match sorted with
  | [] => [x]
  | y :: rest =>
      if Number.gt (cmp x y) Number.zero then y :: sort_insert cmp x rest
      else x :: sorted
  end.

Definition sort {A} (cmp : A -> A -> Number.t) (arr : list A) : list A :=
  foldr (sort_insert cmp) [] arr.

Module UnitDefinition.
Record t := mk { name : string; ratio : Number.t }.
End UnitDefinition.

Module InventoryItem.
Record t := mk {
  id : string;
  sku : string;
  name : string;
  category : string;
  quantity : Number.t;
  baseUnit : string;
  alternativeUnits : option (list UnitDefinition.t);
  minLevel : Number.t;
  unitPrice : Number.t
}.
End InventoryItem.

Module TransactionItemDetail.
Record t := mk {
  itemId : string;
  itemName : string;
  quantityInput : Number.t;
  selectedUnit : string;
  conversionRatio : Number.t;
  totalBaseQuantity : Number.t
}.
End TransactionItemDetail.

(** *** Dashboard *)
Module Dashboard.

Definition ref := positive.
Abbreviation store := (gmap ref (list InventoryItem.t)).

(** [arr.filter(p)] allocates a new array and leaves [arr] alone. *)
Definition array_filter (p : InventoryItem.t -> bool) (arr : ref) (h : store)
  : option (ref * store) :=
  match h !! arr with
  | None => None
  | Some xs => let r := fresh (dom h) in Some (r, <[r := List.filter p xs]> h)
  end.

(** [arr.sort(cmp)] sorts [arr] in place and returns the same reference. *)
Definition array_sort (cmp : InventoryItem.t -> InventoryItem.t -> Number.t)
  (arr : ref) (h : store) : option (ref * store) :=
  match h !! arr with
  | None => None
  | Some xs => Some (arr, <[arr := sort cmp xs]> h)
  end.

(** [i => i.minLevel > 0 && i.quantity <= i.minLevel] *)
Definition isLowStock (i : InventoryItem.t) : bool :=
  Number.gt (InventoryItem.minLevel i) Number.zero
  && Number.le (InventoryItem.quantity i) (InventoryItem.minLevel i).

(** [(a, b) => (a.quantity / a.minLevel) - (b.quantity / b.minLevel)] *)
Definition byLevel (a b : InventoryItem.t) : Number.t :=
  Number.sub
    (Number.div (InventoryItem.quantity a) (InventoryItem.minLevel a))
    (Number.div (InventoryItem.quantity b) (InventoryItem.minLevel b)).

(** [lowStockItems] *)
Definition lowStockItems (items : ref) (h : store) : option (ref * store) :=
  match array_filter isLowStock items h with
  | None => None
  | Some (r, h1) => array_sort byLevel r h1
  end.

(** [stats.totalStockCount]:
    [items.reduce((acc, curr) => acc + curr.quantity, 0)] *)
Definition totalStockCount (xs : list InventoryItem.t) : Number.t :=
  JS.reduce (fun acc curr => Number.add acc (InventoryItem.quantity curr))
    Number.zero xs.

(** [counts[item.category] = (counts[item.category] || 0) + item.quantity].
    When the category is not an own key but a name inherited from
    [Object.prototype], the value read is not a number and neither is the
    sum: the numeric model stops there ([None]). *)
Definition count (counts : gmap string Number.t) (item : InventoryItem.t)
  : option (gmap string Number.t) :=
  let category := InventoryItem.category item in
  match counts !! category with
  | Some v =>
      Some (<[category :=
                Number.add (Number.or_else v Number.zero)
                  (InventoryItem.quantity item)]> counts)
  | None =>
      if bool_decide (category ∈ JSObject.objectPrototypeKeys) then None
      else Some (<[category :=
                     Number.add Number.zero (InventoryItem.quantity item)]> counts)
  end.

(** [items.forEach(item => ...)] *)
Fixpoint countAll (counts : gmap string Number.t) (xs : list InventoryItem.t)
  : option (gmap string Number.t) :=
  match xs with
  | [] => Some counts
  | item :: rest =>
      match count counts item with
      | None => None
      | Some counts' => countAll counts' rest
      end
  end.

(** An entry of [categoryData]. *)
Record Slice := mkSlice { name : string; value : Number.t }.

(** [categoryData].  [keysOf] stands for [Object.keys]: it lists the own keys
    of the object, in the engine's order. *)
Definition categoryData (keysOf : gmap string Number.t -> list string)
  (xs : list InventoryItem.t) : option (list Slice) :=
  match countAll ∅ xs with
  | None => None
  | Some counts =>
      Some (map (fun key => mkSlice key (default Number.zero (counts !! key)))
              (keysOf counts))
  end.

(** The running total [(t || 0) + q] over the quantities [qs], from [0]. *)
Definition runningTotal (qs : list Number.t) : Number.t :=
  fold_left (fun t q => Number.add (Number.or_else t Number.zero) q) qs
    Number.zero.

(** The quantities of the items of category [c], in the order of the items. *)
Definition quantitiesOf (c : string) (xs : list InventoryItem.t)
  : list Number.t :=
  map InventoryItem.quantity
    (List.filter (fun i => JS.str_eq (InventoryItem.category i) c) xs).

End Dashboard.

(** *** TransactionManager: the item form and the two carts *)
Module TransactionManager.

Module TID := TransactionItemDetail.

(** The [alert] box of [handleAddToCart]: total requested, available stock. *)
Inductive Effect :=
| alert (total available : Number.t).

(** The message kept in [validationError]. *)
Inductive ValidationError :=
| InsufficientStockAvailable (available : Number.t) (baseUnit : string).

Inductive Cart := new | edit.

(** The state that the item form and the carts read and write. *)
#[projections(primitive)]
Record State := mkState {
  type : TransactionType;
  cartItems : list TID.t;
  searchQuery : string;
  selectedItem : option InventoryItem.t;
  selectedUnit : string;
  conversionRatio : Number.t;
  quantityInput : option Number.t;
  isAutocompleteOpen : bool;
  activeIndex : Z;
  validationError : option ValidationError;
  editCartItems : list TID.t
}.

(** The state of a freshly mounted component. *)
Definition initialState : State :=
  mkState IN [] "" None "" Number.one None false 0%Z None [].

(** The [useState] setters. *)
Definition setType v s :=
  let 'mkState _ b c d e f g h i j k := s in mkState v b c d e f g h i j k.
Definition setCartItems v s :=
  let 'mkState a _ c d e f g h i j k := s in mkState a v c d e f g h i j k.
Definition setSearchQuery v s :=
  let 'mkState a b _ d e f g h i j k := s in mkState a b v d e f g h i j k.
Definition setSelectedItem v s :=
  let 'mkState a b c _ e f g h i j k := s in mkState a b c v e f g h i j k.
Definition setSelectedUnit v s :=
  let 'mkState a b c d _ f g h i j k := s in mkState a b c d v f g h i j k.
Definition setConversionRatio v s :=
  let 'mkState a b c d e _ g h i j k := s in mkState a b c d e v g h i j k.
Definition setQuantityInput v s :=
  let 'mkState a b c d e f _ h i j k := s in mkState a b c d e f v h i j k.
Definition setIsAutocompleteOpen v s :=
  let 'mkState a b c d e f g _ i j k := s in mkState a b c d e f g v i j k.
Definition setActiveIndex v s :=
  let 'mkState a b c d e f g h _ j k := s in mkState a b c d e f g h v j k.
Definition setValidationError v s :=
  let 'mkState a b c d e f g h i _ k := s in mkState a b c d e f g h i v k.
Definition setEditCartItems v s :=
  let 'mkState a b c d e f g h i j _ := s in mkState a b c d e f g h i j v.

Definition Handler := State -> State * list Effect.

(** [handleSelectItem] *)
Definition handleSelectItem (item : InventoryItem.t) : Handler := fun s =>
  (setActiveIndex (-1)%Z
     (setValidationError None
        (setIsAutocompleteOpen false
           (setConversionRatio Number.one
              (setSelectedUnit (InventoryItem.baseUnit item)
                 (setSearchQuery (InventoryItem.name item)
                    (setSelectedItem (Some item) s)))))), []).

(** [selectedItem.alternativeUnits?.find(u => u.name === unitName)] *)
Definition findAlt (item : InventoryItem.t) (unitName : string)
  : option UnitDefinition.t :=
  match InventoryItem.alternativeUnits item with
  | None => None
  | Some units => JS.find (fun u => JS.str_eq (UnitDefinition.name u) unitName) units
  end.

(** [alt?.ratio || 1] *)
Definition ratioOrOne (alt : option UnitDefinition.t) : Number.t :=
  match alt with
  | None => Number.one
  | Some u => Number.or_else (UnitDefinition.ratio u) Number.one
  end.

(** [handleUnitSelect] *)
Definition handleUnitSelect (unitName : string) : Handler := fun s =>
  match selectedItem s with
  | None => (s, [])
  | Some item =>
      let s1 := setSelectedUnit unitName s in
      if JS.str_eq unitName (InventoryItem.baseUnit item)
      then (setConversionRatio Number.one s1, [])
      else (setConversionRatio (ratioOrOne (findAlt item unitName)) s1, [])
  end.

(** The quantity field's [onChange]: [setQuantityInput]. *)
Definition changeQuantity (q : option Number.t) : Handler := fun s =>
  (setQuantityInput q s, []).

(** The Inbound / Outbound buttons. *)
Definition selectType (t : TransactionType) : Handler := fun s =>
  (setValidationError None (setType t s), []).

Definition cartOf (targetCart : Cart) (s : State) : list TID.t :=
  match targetCart with
  | new => cartItems s
  | edit => editCartItems s
  end.

(** [cart.filter(it => it.itemId === id).reduce((sum, current) =>
    sum + current.totalBaseQuantity, 0)] *)
Definition alreadyInCart (id : string) (cart : list TID.t) : Number.t :=
  JS.reduce (fun sum current => Number.add sum (TID.totalBaseQuantity current))
    Number.zero
    (List.filter (fun it => JS.str_eq (TID.itemId it) id) cart).

(** [handleAddToCart] *)
Definition handleAddToCart (targetCart : Cart) : Handler := fun s =>
  match selectedItem s, quantityInput s with
  | Some item, Some qty =>
      if negb (Number.truthy qty) then (s, []) else
      let calculatedBase := Number.mul qty (conversionRatio s) in
      let added :=
        let newItem :=
          TID.mk (InventoryItem.id item) (InventoryItem.name item) qty
                 (selectedUnit s) (conversionRatio s) calculatedBase in
        let s1 :=
          match targetCart with
          | new => setCartItems (cartItems s ++ [newItem]) s
          | edit => setEditCartItems (editCartItems s ++ [newItem]) s
          end in
        (setValidationError None
           (setQuantityInput None
              (setSearchQuery "" (setSelectedItem None s1))), []) in
      match type s with
      | OUT =>
          let inCart := alreadyInCart (InventoryItem.id item) (cartOf targetCart s) in
          if Number.gt (Number.add inCart calculatedBase) (InventoryItem.quantity item)
          then (s, [alert (Number.add inCart calculatedBase)
                      (InventoryItem.quantity item)])
          else added
      | IN => added
      end
  | _, _ => (s, [])
  end.

(** Sequencing of handlers: the second one runs in the render that follows
    the first. *)
Definition andThen (h1 h2 : Handler) : Handler := fun s =>
  let '(s1, es1) := h1 s in
  let '(s2, es2) := h2 s1 in
  (s2, es1 ++ es2).

(** Adding a line through the item form: pick the item, pick the unit, type
    the quantity, press "Add to Cart". *)
Definition addLine (targetCart : Cart) (item : InventoryItem.t)
  (unitName : string) (qty : Number.t) : Handler :=
  andThen (handleSelectItem item)
    (andThen (handleUnitSelect unitName)
       (andThen (changeQuantity (Some qty)) (handleAddToCart targetCart))).

(** The ratio the item form holds after [unitName] was picked for [item]. *)
Definition resolve (item : InventoryItem.t) (unitName : string) : Number.t :=
  if JS.str_eq unitName (InventoryItem.baseUnit item) then Number.one
  else ratioOrOne (findAlt item unitName).

(** The item form once [item], [unitName] and [qty] have been entered, just
    before "Add to Cart" is pressed. *)
Definition formFilled (item : InventoryItem.t) (unitName : string)
  (qty : Number.t) (s : State) : State :=
  setQuantityInput (Some qty)
    (fst (handleUnitSelect unitName (fst (handleSelectItem item s)))).

(** The line [handleAddToCart] builds for [qty] of [item] in unit [unitName]. *)
Definition newLine (item : InventoryItem.t) (unitName : string) (qty : Number.t)
  : TID.t :=
  TID.mk (InventoryItem.id item) (InventoryItem.name item) qty unitName
         (resolve item unitName) (Number.mul qty (resolve item unitName)).

End TransactionManager.

(** *** Sample data *)
Module Samples.

(** The item of scenario A with [qty] pieces in stock, given as a decimal
    numeral. *)
Definition widget (qty : Q) : InventoryItem.t :=
  InventoryItem.mk "i1" "SKU-1" "Widget" "Parts" (Number.ofDecimal qty) "Pcs"
    (Some [UnitDefinition.mk "Box" (Number.ofZ 12)])
    (Number.ofZ 20) (Number.ofZ 1500).

(** A freshly mounted component with "Outbound" selected. *)
Definition outbound : TransactionManager.State :=
  fst (TransactionManager.selectType OUT TransactionManager.initialState).

(** An item with [quantity] in stock (a decimal numeral) and the threshold
    [minLevel]. *)
Definition stocked (id : string) (category : string) (quantity minLevel : Q)
  : InventoryItem.t :=
  InventoryItem.mk id id id category (Number.ofDecimal quantity) "Pcs" None
    (Number.ofDecimal minLevel) (Number.ofZ 0).

(** Three items under their threshold and one without a threshold.  The
    quotients of [third] and [thirdish] are the same double, although
    0.3333333333333333 is less than a third. *)
Definition third : InventoryItem.t := stocked "a" "Parts" 1 3.
Definition thirdish : InventoryItem.t :=
  stocked "b" "Parts" (3333333333333333 # 10000000000000000) 1.
Definition twentieth : InventoryItem.t := stocked "c" "Tools" 1 20.
Definition unwatched : InventoryItem.t := stocked "d" "Tools" 50 0.

Definition shelf : list InventoryItem.t := [third; thirdish; twentieth; unwatched].

(** A large lot followed by two single pieces of another category. *)
Definition lots : list InventoryItem.t :=
  [stocked "e" "Bulk" (inject_Z (10 ^ 16)) 0;
   stocked "f" "Spare" 1 0;
   stocked "g" "Spare" 1 0].

End Samples.

End Binary64.

(** * Properties *)

(** ** Comparisons on numbers *)

Lemma gt_iff x y : JS.gt x y = true <-> y < x.
Proof.
  unfold JS.gt. rewrite negb_true_iff, <- not_true_iff_false, Qle_bool_iff.
  split; [apply Qnot_le_lt | apply Qlt_not_le].
Qed.

Lemma gt_false_iff x y : JS.gt x y = false <-> x <= y.
Proof. unfold JS.gt. rewrite negb_false_iff. apply Qle_bool_iff. Qed.

Lemma le_iff x y : JS.le x y = true <-> x <= y.
Proof. apply Qle_bool_iff. Qed.

Lemma truthy_iff x : JS.truthy x = true <-> ~ x == 0.
Proof.
  unfold JS.truthy.
  rewrite negb_true_iff, <- not_true_iff_false, Qeq_bool_iff. tauto.
Qed.

Lemma truthy_false_iff x : JS.truthy x = false <-> x == 0.
Proof. unfold JS.truthy. rewrite negb_false_iff. apply Qeq_bool_iff. Qed.

Lemma or_else_truthy x d : JS.truthy x = true -> JS.or_else x d = x.
Proof. unfold JS.or_else. intros ->. reflexivity. Qed.

Lemma truthy_or_else_one x : JS.truthy (JS.or_else x 1) = true.
Proof. unfold JS.or_else. destruct (JS.truthy x) eqn:E; [exact E | reflexivity]. Qed.

(** ** The stable sort *)
Section StableSort.
Context {A : Type} (key : A -> Q).

Local Abbreviation cmp := (JS.by_key key).
Local Abbreviation ascending := (fun a b : A => key a <= key b).

Lemma cmp_gt a b : JS.gt (cmp a b) 0 = true <-> key b < key a.
Proof. rewrite gt_iff. unfold JS.by_key. symmetry. apply Qlt_minus_iff. Qed.

Lemma sort_insert_perm x l : Permutation (JS.sort_insert cmp x l) (x :: l).
Proof.
  induction l as [|y l IH]; simpl; [reflexivity|].
  destruct (JS.gt (cmp x y) 0); [|reflexivity].
  rewrite IH. apply perm_swap.
Qed.

Lemma sort_perm l : Permutation (JS.sort cmp l) l.
Proof.
  induction l as [|x l IH]; simpl; [constructor|].
  rewrite sort_insert_perm. now constructor.
Qed.

Lemma sort_insert_sorted x l :
  StronglySorted ascending l -> StronglySorted ascending (JS.sort_insert cmp x l).
Proof.
  induction 1 as [|y l Hl IH Hy]; simpl.
  - repeat constructor.
  - destruct (JS.gt (cmp x y) 0) eqn:E.
    + apply cmp_gt in E. constructor; [exact IH|].
      rewrite List.Forall_forall in *. intros z Hz.
      apply (Permutation_in _ (sort_insert_perm x l)) in Hz.
      destruct Hz as [<- | Hz]; [now apply Qlt_le_weak | now apply Hy].
    + assert (Hxy : key x <= key y).
      { apply Qnot_lt_le. intros H. apply cmp_gt in H. congruence. }
      constructor; [now constructor|].
      constructor; [exact Hxy|].
      rewrite List.Forall_forall in *. intros z Hz.
      apply Qle_trans with (key y); [exact Hxy | now apply Hy].
Qed.

Lemma sort_sorted l : StronglySorted ascending (JS.sort cmp l).
Proof.
  induction l as [|x l IH]; simpl; [constructor | now apply sort_insert_sorted].
Qed.

End StableSort.

(** ** Dashboard: the low-stock counter and the list *)
Section DashboardFacts.
Import Dashboard.

Implicit Types (h : store) (items r : ref) (xs : list InventoryItem.t).

Lemma isLowStock_iff i :
  isLowStock i = true
  <-> 0 < InventoryItem.minLevel i
      /\ InventoryItem.quantity i <= InventoryItem.minLevel i.
Proof. unfold isLowStock. now rewrite andb_true_iff, gt_iff, le_iff. Qed.

Lemma fresh_unused h : h !! fresh (dom h) = None.
Proof. apply not_elem_of_dom, is_fresh. Qed.

Lemma array_filter_eval p h items xs :
  h !! items = Some xs ->
  array_filter p items h
  = Some (fresh (dom h), <[fresh (dom h) := List.filter p xs]> h).
Proof. unfold array_filter. now intros ->. Qed.

Lemma lowStockItems_eval h items xs :
  h !! items = Some xs ->
  lowStockItems items h
  = Some (fresh (dom h),
          <[fresh (dom h) := JS.sort byLevel (List.filter isLowStock xs)]> h).
Proof.
  intros H. unfold lowStockItems. rewrite (array_filter_eval _ _ _ _ H).
  unfold array_sort. rewrite lookup_insert_eq. now rewrite insert_insert_eq.
Qed.

Lemma lowStockCount_eval h items xs :
  h !! items = Some xs ->
  lowStockCount items h
  = Some (length (List.filter isLowStock xs),
          <[fresh (dom h) := List.filter isLowStock xs]> h).
Proof.
  intros H. unfold lowStockCount. rewrite (array_filter_eval _ _ _ _ H).
  unfold array_length. now rewrite lookup_insert_eq.
Qed.

Lemma alloc_keeps h r xs r0 :
  h !! r = None -> is_Some (h !! r0) -> <[r := xs]> h !! r0 = h !! r0.
Proof.
  intros Hr [ys Hys]. apply lookup_insert_ne. intros ->. congruence.
Qed.

(** C10. In one render of the dashboard the KPI counter [lowStockCount] and
    the length of the array produced by [lowStockItems] agree: both come
    from the same filter over the same items. *)
Theorem lowStockCount_eq_list_length h items xs :
  h !! items = Some xs ->
  exists n h1 r h2 res,
    lowStockCount items h = Some (n, h1)
    /\ lowStockItems items h1 = Some (r, h2)
    /\ h2 !! r = Some res
    /\ n = length res.
Proof.
  intros H.
  assert (H1 : <[fresh (dom h) := List.filter isLowStock xs]> h !! items = Some xs).
  { rewrite alloc_keeps; eauto using fresh_unused. }
  eexists _, _, _, _, _.
  split; [apply (lowStockCount_eval _ _ _ H)|].
  split; [apply (lowStockItems_eval _ _ _ H1)|].
  split; [apply lookup_insert_eq|].
  symmetry. apply Permutation_length, (sort_perm level).
Qed.

Lemma lowStockCount_eq_list_length_witness :
  exists n h1 r h2 res,
    lowStockCount 1%positive {[ 1%positive := Samples.shelf ]} = Some (n, h1)
    /\ lowStockItems 1%positive h1 = Some (r, h2)
    /\ h2 !! r = Some res
    /\ n = length res.
Proof.
  apply (lowStockCount_eq_list_length {[ 1%positive := Samples.shelf ]} 1%positive
           Samples.shelf).
  reflexivity.
Defined.

End DashboardFacts.

(** ** TransactionManager: the item form and the carts *)
Section TransactionManagerFacts.
Import TransactionManager.

Implicit Types (s : State) (item : InventoryItem.t) (qty : Q)
  (unitName : string) (targetCart : Cart).

Lemma addLine_eval targetCart item unitName qty s :
  addLine targetCart item unitName qty s
  = handleAddToCart targetCart (formFilled item unitName qty s).
Proof.
  unfold addLine, andThen, formFilled, changeQuantity.
  destruct (handleSelectItem item s) as [s1 es1] eqn:E1.
  unfold handleSelectItem in E1. injection E1 as <- <-.
  destruct (handleUnitSelect unitName _) as [s2 es2] eqn:E2.
  assert (es2 = []) as ->.
  { revert E2. unfold handleUnitSelect. cbn.
    destruct (JS.str_eq _ _); now intros [= <- <-]. }
  cbn [fst]. now destruct (handleAddToCart targetCart _).
Qed.

Lemma formFilled_form item unitName qty s :
  selectedItem (formFilled item unitName qty s) = Some item
  /\ quantityInput (formFilled item unitName qty s) = Some qty
  /\ conversionRatio (formFilled item unitName qty s) = resolve item unitName
  /\ selectedUnit (formFilled item unitName qty s) = unitName.
Proof.
  unfold formFilled, handleUnitSelect, handleSelectItem, resolve. cbn.
  destruct (JS.str_eq _ _); cbn; auto.
Qed.

Lemma formFilled_frame item unitName qty s :
  type (formFilled item unitName qty s) = type s
  /\ cartItems (formFilled item unitName qty s) = cartItems s
  /\ editCartItems (formFilled item unitName qty s) = editCartItems s
  /\ editType (formFilled item unitName qty s) = editType s
  /\ editingTransaction (formFilled item unitName qty s) = editingTransaction s.
Proof.
  unfold formFilled, handleUnitSelect, handleSelectItem. cbn.
  destruct (JS.str_eq _ _); cbn; auto.
Qed.

Lemma formFilled_cartOf targetCart item unitName qty s :
  cartOf targetCart (formFilled item unitName qty s) = cartOf targetCart s.
Proof.
  destruct (formFilled_frame item unitName qty s) as (_ & H1 & H2 & _).
  now destruct targetCart.
Qed.

(** The guard at the top of [handleAddToCart]. *)
Lemma handleAddToCart_guard targetCart s :
  selectedItem s = None \/ JS.falsy_opt (quantityInput s) = true ->
  handleAddToCart targetCart s = (s, []).
Proof.
  unfold handleAddToCart, JS.falsy_opt.
  destruct (selectedItem s), (quantityInput s) as [q|]; try reflexivity.
  intros [H | H]; [discriminate | now rewrite H].
Qed.

Lemma handleAddToCart_rejected targetCart s item qty :
  selectedItem s = Some item -> quantityInput s = Some qty ->
  JS.truthy qty = true -> type s = OUT ->
  InventoryItem.quantity item
    < alreadyInCart (InventoryItem.id item) (cartOf targetCart s)
      + qty * conversionRatio s ->
  handleAddToCart targetCart s
  = (s, [alert (alreadyInCart (InventoryItem.id item) (cartOf targetCart s)
                + qty * conversionRatio s)
               (InventoryItem.quantity item)]).
Proof.
  intros Hi Hq Ht Ho Hlt. unfold handleAddToCart.
  rewrite Hi, Hq, Ht, Ho. cbn.
  apply gt_iff in Hlt. now rewrite Hlt.
Qed.

Lemma handleAddToCart_accepted targetCart s item qty :
  selectedItem s = Some item -> quantityInput s = Some qty ->
  JS.truthy qty = true ->
  type s = IN
  \/ alreadyInCart (InventoryItem.id item) (cartOf targetCart s)
     + qty * conversionRatio s <= InventoryItem.quantity item ->
  snd (handleAddToCart targetCart s) = []
  /\ cartOf targetCart (fst (handleAddToCart targetCart s))
     = cartOf targetCart s
       ++ [TID.mk (InventoryItem.id item) (InventoryItem.name item) qty
             (selectedUnit s) (conversionRatio s) (qty * conversionRatio s)]
  /\ otherCart targetCart (fst (handleAddToCart targetCart s))
     = otherCart targetCart s
  /\ type (fst (handleAddToCart targetCart s)) = type s
  /\ editType (fst (handleAddToCart targetCart s)) = editType s.
Proof.
  intros Hi Hq Ht Hok. unfold handleAddToCart.
  rewrite Hi, Hq, Ht. cbn.
  assert (Hcase :
    match type s with
    | OUT => JS.gt (alreadyInCart (InventoryItem.id item) (cartOf targetCart s)
                    + qty * conversionRatio s) (InventoryItem.quantity item)
    | IN => false
    end = false).
  { destruct (type s); [reflexivity|].
    destruct Hok as [H | H]; [discriminate | now apply gt_false_iff]. }
  revert Hcase. destruct (type s) eqn:Ety; [intros _ | intros ->];
    destruct targetCart; cbn; auto.
Qed.

Lemma str_eq_refl a : JS.str_eq a a = true.
Proof. unfold JS.str_eq. now apply bool_decide_eq_true. Qed.

(** What [addLine] does once the guard is passed. *)
Lemma addLine_rejected targetCart item unitName qty s :
  type s = OUT -> ~ qty == 0 ->
  InventoryItem.quantity item
    < alreadyInCart (InventoryItem.id item) (cartOf targetCart s)
      + qty * resolve item unitName ->
  addLine targetCart item unitName qty s
  = (formFilled item unitName qty s,
     [alert (alreadyInCart (InventoryItem.id item) (cartOf targetCart s)
             + qty * resolve item unitName)
            (InventoryItem.quantity item)]).
Proof.
  intros Ho Hq Hlt. rewrite addLine_eval.
  destruct (formFilled_form item unitName qty s) as (Hi & Hqi & Hr & _).
  destruct (formFilled_frame item unitName qty s) as (Ht & _).
  rewrite (handleAddToCart_rejected targetCart _ item qty Hi Hqi);
    rewrite ?formFilled_cartOf, ?Hr; try reflexivity.
  - now apply truthy_iff.
  - now rewrite Ht.
  - exact Hlt.
Qed.

Lemma addLine_accepted targetCart item unitName qty s :
  ~ qty == 0 ->
  type s = IN
  \/ alreadyInCart (InventoryItem.id item) (cartOf targetCart s)
     + qty * resolve item unitName <= InventoryItem.quantity item ->
  snd (addLine targetCart item unitName qty s) = []
  /\ cartOf targetCart (fst (addLine targetCart item unitName qty s))
     = cartOf targetCart s ++ [newLine item unitName qty]
  /\ otherCart targetCart (fst (addLine targetCart item unitName qty s))
     = otherCart targetCart s
  /\ type (fst (addLine targetCart item unitName qty s)) = type s
  /\ editType (fst (addLine targetCart item unitName qty s)) = editType s.
Proof.
  intros Hq Hok. rewrite addLine_eval.
  destruct (formFilled_form item unitName qty s) as (Hi & Hqi & Hr & Hu).
  destruct (formFilled_frame item unitName qty s) as (Ht & Hc & He & Het & _).
  destruct (handleAddToCart_accepted targetCart _ item qty Hi Hqi)
    as (H1 & H2 & H3 & H4 & H5).
  - now apply truthy_iff.
  - rewrite Ht, formFilled_cartOf, Hr. exact Hok.
  - rewrite H1, H2, H3, H4, H5, formFilled_cartOf, Hr, Hu, Ht, Het.
    repeat split; try reflexivity.
    destruct targetCart; assumption.
Qed.

(** *** Unit selection *)






(** *** The quantity guard *)

(** C5, as the code has it.  A quantity equal to zero, or a quantity field
    left empty, makes [handleAddToCart] return at once: no line is appended
    to either cart and nothing is reported. *)
Theorem addLine_zero_quantity_ignored targetCart item unitName qty s :
  qty == 0 ->
  addLine targetCart item unitName qty s = (formFilled item unitName qty s, [])
  /\ cartItems (fst (addLine targetCart item unitName qty s)) = cartItems s
  /\ editCartItems (fst (addLine targetCart item unitName qty s)) = editCartItems s
  /\ (forall s', quantityInput s' = None ->
                 handleAddToCart targetCart s' = (s', [])).
Proof.
  intros Hq.
  assert (H : addLine targetCart item unitName qty s
              = (formFilled item unitName qty s, [])).
  { rewrite addLine_eval. apply handleAddToCart_guard. right.
    destruct (formFilled_form item unitName qty s) as (_ & -> & _).
    cbn. apply truthy_false_iff in Hq. now rewrite Hq. }
  destruct (formFilled_frame item unitName qty s) as (_ & Hc & He & _).
  rewrite H. repeat split; try assumption.
  intros s' Hn. apply handleAddToCart_guard. right. now rewrite Hn.
Qed.

Lemma addLine_zero_quantity_ignored_witness :
  addLine new (Samples.widget 100) "Box" 0 Samples.outbound
  = (formFilled (Samples.widget 100) "Box" 0 Samples.outbound, [])
  /\ cartItems (fst (addLine new (Samples.widget 100) "Box" 0 Samples.outbound))
     = [].
Proof.
  destruct (addLine_zero_quantity_ignored new (Samples.widget 100) "Box" 0
              Samples.outbound eq_refl) as (H1 & H2 & _).
  exact (conj H1 H2).
Defined.

(** C5, counterexample.  A negative quantity passes the guard: -5 pieces are
    appended as a line, in an inbound draft as well as in an outbound one. *)
Lemma negative_quantity_accepted :
  -5 <= 0
  /\ snd (addLine new (Samples.widget 100) "Pcs" (-5) Samples.mounted) = []
  /\ cartItems (fst (addLine new (Samples.widget 100) "Pcs" (-5) Samples.mounted))
     = [TID.mk "i1" "Widget" (-5) "Pcs" 1 (-5)]
  /\ snd (addLine new (Samples.widget 100) "Pcs" (-5) Samples.outbound) = []
  /\ cartItems (fst (addLine new (Samples.widget 100) "Pcs" (-5) Samples.outbound))
     = [TID.mk "i1" "Widget" (-5) "Pcs" 1 (-5)].
Proof.
  split; [discriminate|]. repeat split; reflexivity.
Qed.

(** *** Submitting the draft *)

Lemma handleSubmitTransaction_nonempty newId now s :
  cartItems s <> [] ->
  exists tx,
    snd (handleSubmitTransaction newId now s) = [onProcessTransaction tx]
    /\ Transaction.items tx = cartItems s
    /\ Transaction.type tx = type s
    /\ cartItems (fst (handleSubmitTransaction newId now s)) = [].
Proof.
  intros Hne. unfold handleSubmitTransaction.
  destruct (cartItems s) as [|line rest] eqn:E; [congruence|].
  cbn [length Nat.eqb].
  destruct (type s) eqn:Et; eexists; cbn; rewrite ?E; repeat split; reflexivity.
Qed.

(** C6. Submitting a draft with no lines does nothing: the handler returns
    at once, no callback of the parent is invoked (so no transaction is
    recorded and the parent's state, item quantities included, is what it
    was) and the component's state is untouched. *)
Theorem submit_empty_draft_ignored {App} (P : Props App) (app : App)
  newId now s :
  cartItems s = [] ->
  handleSubmitTransaction newId now s = (s, [])
  /\ run P (handleSubmitTransaction newId now) (app, s) = (app, s)
  /\ inventory P (fst (run P (handleSubmitTransaction newId now) (app, s)))
     = inventory P app
  /\ transactions P (fst (run P (handleSubmitTransaction newId now) (app, s)))
     = transactions P app.
Proof.
  intros He.
  assert (H : handleSubmitTransaction newId now s = (s, [])).
  { unfold handleSubmitTransaction. now rewrite He. }
  assert (Hr : run P (handleSubmitTransaction newId now) (app, s) = (app, s)).
  { unfold run. cbn [snd fst]. now rewrite H. }
  rewrite Hr. auto.
Qed.

Lemma submit_empty_draft_ignored_witness :
  handleSubmitTransaction "t9" "2026-11-03T09:00:00.000Z" Samples.outbound
  = (Samples.outbound, [])
  /\ run Samples.recorder
       (handleSubmitTransaction "t9" "2026-11-03T09:00:00.000Z")
       ([], Samples.outbound)
     = ([], Samples.outbound).
Proof.
  destruct (submit_empty_draft_ignored Samples.recorder []
              "t9" "2026-11-03T09:00:00.000Z" Samples.outbound eq_refl)
    as (H1 & H2 & _).
  exact (conj H1 H2).
Defined.

(** *** Removing a line, and the frame of the draft operations *)

Lemma filter_from_keep_all {A} (l : list A) k n :
  (n < k)%nat ->
  JS.filter_from (fun _ idx => negb (idx =? n)%nat) k l = l.
Proof.
  revert k. induction l as [|x l IH]; intros k Hk; [reflexivity|].
  cbn [JS.filter_from].
  destruct (Nat.eqb_spec k n) as [-> | _]; [lia|].
  cbn [negb]. f_equal. apply IH. lia.
Qed.

Lemma filter_from_drop_index {A} (l : list A) k i n :
  n = (k + i)%nat ->
  JS.filter_from (fun _ idx => negb (idx =? n)%nat) k l
  = take i l ++ drop (S i) l.
Proof.
  revert k i. induction l as [|x l IH]; intros k i ->.
  - now destruct i.
  - cbn [JS.filter_from]. destruct i as [|i].
    + rewrite Nat.add_0_r, Nat.eqb_refl. cbn [negb take drop app].
      rewrite drop_0. apply filter_from_keep_all. lia.
    + destruct (Nat.eqb_spec k (k + S i)) as [E | _]; [lia|].
      cbn [negb take drop app]. f_equal. apply IH. lia.
Qed.

Lemma filteri_drop_index {A} (l : list A) i :
  JS.filteri (fun _ idx => negb (idx =? i)%nat) l = take i l ++ drop (S i) l.
Proof. unfold JS.filteri. now apply filter_from_drop_index. Qed.

Lemma removeLine_cart targetCart i s :
  cartOf targetCart (fst (removeLine targetCart i s))
  = take i (cartOf targetCart s) ++ drop (S i) (cartOf targetCart s).
Proof.
  unfold removeLine. destruct targetCart; cbn; apply filteri_drop_index.
Qed.

Lemma handleAddToCart_effects targetCart s :
  snd (handleAddToCart targetCart s) = []
  \/ exists total available,
       snd (handleAddToCart targetCart s) = [alert total available]
       /\ type s = OUT
       /\ fst (handleAddToCart targetCart s) = s.
Proof.
  unfold handleAddToCart.
  destruct (selectedItem s) as [item|]; [|now left].
  destruct (quantityInput s) as [qty|]; [|now left].
  destruct (negb (JS.truthy qty)); [now left|].
  destruct (type s) eqn:Et; [now left|]. cbn zeta.
  destruct (JS.gt _ _); [right; eauto | now left].
Qed.

Lemma run_silent {App} (P : Props App) (h : Handler) app s :
  (forall e, In e (snd (h s)) -> exists total available, e = alert total available) ->
  fst (run P h (app, s)) = app.
Proof.
  unfold run. cbn [fst snd]. destruct (h s) as [s' es]. cbn [fst snd].
  revert app. induction es as [|e es IH]; intros app H; [reflexivity|].
  cbn [foldl]. destruct (H e (or_introl eq_refl)) as (t & a & ->).
  cbn [perform]. apply IH. intros e' He'. apply H. now right.
Qed.

(** C8. The remove button of a cart deletes the line at its index and
    nothing else: the lines before it stay where they are, those after it
    move up by one, in order, and the other cart is untouched.  Neither
    removing nor adding a line invokes a callback of the parent, whose state
    (the catalog with its quantities and the ledger) is therefore what it
    was. *)
Theorem draft_operations_frame {App} (P : Props App) (app : App)
  targetCart i s :
  cartOf targetCart (fst (removeLine targetCart i s))
  = take i (cartOf targetCart s) ++ drop (S i) (cartOf targetCart s)
  /\ (forall j,
        cartOf targetCart (fst (removeLine targetCart i s)) !! j
        = if decide (j < i)%nat then cartOf targetCart s !! j
          else cartOf targetCart s !! S j)
  /\ otherCart targetCart (fst (removeLine targetCart i s))
     = otherCart targetCart s
  /\ snd (removeLine targetCart i s) = []
  /\ fst (run P (removeLine targetCart i) (app, s)) = app
  /\ (forall item unitName qty,
        fst (run P (addLine targetCart item unitName qty) (app, s)) = app
        /\ inventory P (fst (run P (addLine targetCart item unitName qty) (app, s)))
           = inventory P app).
Proof.
  split; [apply removeLine_cart|].
  split.
  { intros j. rewrite removeLine_cart, <- delete_take_drop.
    destruct (decide (j < i)%nat) as [Hlt | Hge].
    - now apply list_lookup_delete_lt.
    - apply list_lookup_delete_ge. lia. }
  split; [now destruct targetCart|].
  split; [now destruct targetCart|].
  split.
  { apply run_silent. destruct targetCart; intros e []. }
  intros item unitName qty.
  assert (H : fst (run P (addLine targetCart item unitName qty) (app, s)) = app).
  { apply run_silent. rewrite addLine_eval. intros e He.
    destruct (handleAddToCart_effects targetCart (formFilled item unitName qty s))
      as [Hn | (t & a & Ha & _)].
    - rewrite Hn in He. destruct He.
    - rewrite Ha in He. destruct He as [<- | []]. eauto. }
  now rewrite H.
Qed.

(** *** The edit modal *)




(** C4. Saving an edit involves no stock check.  For any transaction open in
    the edit modal, changing the quantity of one of its lines always
    succeeds, and "Save Changes" then hands the edited lines to the parent's
    [onUpdateTransaction] and closes the modal; nothing else is performed (no
    alert), whatever the parent's catalog holds and however large the new
    total is. *)
Theorem edit_save_skips_stock_check {App} (P : Props App) (app : App)
  tx i line newQty s0 :
  Transaction.items tx !! i = Some line ->
  let s := fst (openEditModal tx s0) in
  let line' :=
    TID.mk (TID.itemId line) (TID.itemName line) newQty (TID.selectedUnit line)
           (TID.conversionRatio line)
           (newQty * JS.or_else (TID.conversionRatio line) 1) in
  exists s1 saved,
    updateEditItemQty i newQty s = Some s1
    /\ editCartItems s1 = <[i := line']> (Transaction.items tx)
    /\ handleSaveEdit s1 = (setIsEditModalOpen false s1, [onUpdateTransaction saved])
    /\ Transaction.id saved = Transaction.id tx
    /\ Transaction.type saved = Transaction.type tx
    /\ Transaction.items saved = <[i := line']> (Transaction.items tx)
    /\ run P handleSaveEdit (app, s1)
       = (updateTransaction P saved app, setIsEditModalOpen false s1).
Proof.
  intros Hl s line'.
  eexists _, _.
  split.
  { unfold updateEditItemQty. subst s. cbn. rewrite Hl. reflexivity. }
  cbn. repeat split; reflexivity.
Qed.

(** The sale of 8 boxes is edited to 100 boxes while 4 pieces are in stock:
    the 1200 pieces are saved. *)
Lemma edit_save_skips_stock_check_witness :
  exists s1 saved,
    updateEditItemQty 0 100 (fst (openEditModal Samples.sale Samples.outbound))
    = Some s1
    /\ run Samples.recorder handleSaveEdit ([], s1)
       = ([onUpdateTransaction saved], setIsEditModalOpen false s1)
    /\ Transaction.type saved = OUT
    /\ TID.totalBaseQuantity <$> Transaction.items saved = [1200]
    /\ InventoryItem.quantity <$> inventory Samples.recorder [] = [4].
Proof.
  destruct (edit_save_skips_stock_check Samples.recorder [] Samples.sale 0
              (newLine (Samples.widget 100) "Box" 8) 100 Samples.outbound eq_refl)
    as (s1 & saved & H1 & _ & _ & _ & H5 & H6 & H7).
  exists s1, saved.
  split; [exact H1|]. split; [exact H7|]. split; [exact H5|].
  split; [now rewrite H6 | reflexivity].
Defined.

(** *** The total of a line *)

Lemma ratioOrOne_truthy alt : JS.truthy (ratioOrOne alt) = true.
Proof. destruct alt as [u|]; [apply truthy_or_else_one | reflexivity]. Qed.

Lemma resolve_truthy item unitName : JS.truthy (resolve item unitName) = true.
Proof.
  unfold resolve. destruct (JS.str_eq _ _); [reflexivity | apply ratioOrOne_truthy].
Qed.

Lemma Forall_filteri_drop (Q : TID.t -> Prop) i (l : list TID.t) :
  Forall Q l -> Forall Q (JS.filteri (fun _ idx => negb (idx =? i)%nat) l).
Proof.
  intros H. rewrite filteri_drop_index. apply Forall_app.
  split; [now apply Forall_take | now apply Forall_drop].
Qed.

Lemma handleAddToCart_carts targetCart s :
  fst (handleAddToCart targetCart s) = s
  \/ exists item qty,
       cartOf targetCart (fst (handleAddToCart targetCart s))
       = cartOf targetCart s
         ++ [TID.mk (InventoryItem.id item) (InventoryItem.name item) qty
               (selectedUnit s) (conversionRatio s) (qty * conversionRatio s)]
       /\ otherCart targetCart (fst (handleAddToCart targetCart s))
          = otherCart targetCart s
       /\ conversionRatio (fst (handleAddToCart targetCart s)) = conversionRatio s.
Proof.
  destruct s as [? ty ? ? ? ? ? ? ? [item|] ? ? [qty|] ? ? ? ? ? ? ? ? ? ? ? ? ?];
    unfold handleAddToCart; cbn; try (now left).
  destruct (negb (JS.truthy qty)); [now left|].
  destruct ty; [right | cbn zeta; destruct (JS.gt _ _); [now left | right]];
    exists item, qty; destruct targetCart; cbn; auto.
Qed.

Lemma consistent_recomputed line : consistentLine line -> recomputedLine line.
Proof.
  intros [Ht Hr]. unfold recomputedLine. now rewrite (or_else_truthy _ _ Hr).
Qed.

Lemma dispatch_invariant history e s :
  offered history e ->
  formInvariant history s -> formInvariant history (fst (dispatch e s)).
Proof.
  intros He (Hr & Hc & Hec).
  destruct e as [item | unitName | q | t | targetCart | targetCart i
                 | newId now | tx | index newQty | ]; cbn [dispatch].
  - repeat split; assumption || reflexivity.
  - unfold handleUnitSelect. destruct (selectedItem s) as [item|];
      [|now repeat split].
    destruct (JS.str_eq _ _); cbn; repeat split;
      assumption || reflexivity || apply ratioOrOne_truthy.
  - now repeat split.
  - now repeat split.
  - destruct (handleAddToCart_carts targetCart s)
      as [-> | (item & qty & H1 & H2 & H3)]; [now repeat split|].
    assert (Hline : consistentLine
                      (TID.mk (InventoryItem.id item) (InventoryItem.name item) qty
                         (selectedUnit s) (conversionRatio s)
                         (qty * conversionRatio s))).
    { split; [reflexivity | exact Hr]. }
    split; [now rewrite H3|].
    destruct targetCart; cbn [cartOf] in H1; cbv beta delta [otherCart] in H2;
      cbn iota in H2; rewrite H1, H2.
    + split; [|exact Hec]. apply Forall_app. split; [exact Hc|].
      constructor; [exact Hline | constructor].
    + split; [exact Hc|]. apply Forall_app. split; [exact Hec|].
      constructor; [|constructor]. left. now apply consistent_recomputed.
  - destruct targetCart; cbn; repeat split;
      assumption || now apply Forall_filteri_drop.
  - unfold handleSubmitTransaction.
    destruct (length (cartItems s) =? 0)%nat; cbn; repeat split;
      assumption || constructor.
  - cbn. repeat split; try assumption.
    apply List.Forall_forall. intros line Hline. right. now exists tx.
  - unfold updateEditItemQty.
    destruct (editCartItems s !! index) as [line|] eqn:El; [|now repeat split].
    cbn. repeat split; try assumption.
    apply Forall_insert; [exact Hec|]. left. reflexivity.
  - unfold handleSaveEdit. destruct (editingTransaction s); now repeat split.
Qed.

Lemma reachable_invariant history s :
  reachable history s -> formInvariant history s.
Proof.
  induction 1 as [today | s e _ IH He].
  - repeat split; constructor.
  - now apply (dispatch_invariant history).
Qed.

Lemma updateEditItemQty_eval index newQty s line :
  editCartItems s !! index = Some line ->
  updateEditItemQty index newQty s
  = Some (setEditCartItems
            (<[index :=
                 TID.mk (TID.itemId line) (TID.itemName line) newQty
                        (TID.selectedUnit line) (TID.conversionRatio line)
                        (newQty * JS.or_else (TID.conversionRatio line) 1)]>
               (editCartItems s)) s).
Proof. unfold updateEditItemQty. now intros ->. Qed.

(** C3. In every state the component can reach, whatever transactions the
    history offers for editing, every line of the new cart has
    [totalBaseQuantity] equal to [quantityInput] times the non-zero
    [conversionRatio] stored on that line, and every line of the edit cart
    is either a line received with the edited transaction or has
    [totalBaseQuantity] equal to [quantityInput] times
    [conversionRatio || 1].  The stored total does not follow the catalog:
    adding a line for any item, whatever its unit definitions now are,
    appends a consistent line and leaves the existing lines of both carts as
    they were.  Editing the quantity of a line recomputes its total as the
    new quantity times [conversionRatio || 1] (the ratio stored on the line
    when that is not zero, and 1 when it is zero), keeps the stored ratio,
    and changes no other line. *)
Theorem line_total_consistent_and_frozen history s :
  reachable history s ->
  Forall consistentLine (cartItems s)
  /\ Forall (editLine history) (editCartItems s)
  /\ (forall targetCart item unitName qty,
        exists added,
          cartOf targetCart (fst (addLine targetCart item unitName qty s))
          = cartOf targetCart s ++ added
          /\ Forall consistentLine added
          /\ otherCart targetCart (fst (addLine targetCart item unitName qty s))
             = otherCart targetCart s)
  /\ (forall index line newQty,
        editCartItems s !! index = Some line ->
        exists s',
          updateEditItemQty index newQty s = Some s'
          /\ editCartItems s'
             = <[index :=
                   TID.mk (TID.itemId line) (TID.itemName line) newQty
                          (TID.selectedUnit line) (TID.conversionRatio line)
                          (newQty * JS.or_else (TID.conversionRatio line) 1)]>
                 (editCartItems s)
          /\ JS.or_else (TID.conversionRatio line) 1
             = (if JS.truthy (TID.conversionRatio line)
                then TID.conversionRatio line else 1)
          /\ (forall j, j <> index -> editCartItems s' !! j = editCartItems s !! j)
          /\ cartItems s' = cartItems s).
Proof.
  intros Hs.
  destruct (reachable_invariant history s Hs) as (Hr & Hc & Hec).
  split; [exact Hc|]. split; [exact Hec|].
  split.
  { intros targetCart item unitName qty. rewrite addLine_eval.
    destruct (formFilled_form item unitName qty s) as (_ & _ & Hres & _).
    destruct (formFilled_frame item unitName qty s) as (_ & Hci & Heci & _).
    destruct (handleAddToCart_carts targetCart (formFilled item unitName qty s))
      as [-> | (it & q & H1 & H2 & _)].
    - exists []. rewrite formFilled_cartOf, app_nil_r.
      repeat split; [constructor | now destruct targetCart].
    - eexists. rewrite H1, formFilled_cartOf. split; [reflexivity|].
      split.
      + repeat constructor. cbn [TID.conversionRatio].
        rewrite Hres. apply resolve_truthy.
      + rewrite H2. now destruct targetCart. }
  intros index line newQty Hl.
  eexists. split; [apply (updateEditItemQty_eval _ _ _ _ Hl)|].
  cbn. repeat split. intros j Hj. now apply list_lookup_insert_ne.
Qed.

Lemma reachable_replay history events s :
  reachable history s -> Forall (offered history) events ->
  reachable history (replay events s).
Proof.
  intros Hs He. revert s Hs.
  induction He as [|e events He _ IH]; intros s Hs; [exact Hs|].
  cbn [replay foldl]. apply IH. now constructor.
Qed.

(** After the sample session the draft holds 60 and 30 pieces, the edit cart
    the 96 pieces of the sale; changing the sale to 5 boxes gives 60. *)
Lemma line_total_consistent_and_frozen_witness :
  Forall consistentLine (cartItems (replay Samples.session Samples.mounted))
  /\ TID.totalBaseQuantity <$> cartItems (replay Samples.session Samples.mounted)
     = [60; 30]
  /\ exists s',
       updateEditItemQty 0 5 (replay Samples.session Samples.mounted) = Some s'
       /\ TID.totalBaseQuantity <$> editCartItems s' = [60].
Proof.
  assert (Hs : reachable Samples.history (replay Samples.session Samples.mounted)).
  { apply reachable_replay; [constructor|].
    repeat constructor. }
  destruct (line_total_consistent_and_frozen Samples.history _ Hs)
    as (H1 & _ & _ & H4).
  split; [exact H1|]. split; [reflexivity|].
  destruct (H4 0%nat (newLine (Samples.widget 100) "Box" 8) 5 eq_refl)
    as (s' & Hu & He & _).
  exists s'. split; [exact Hu|]. now rewrite He.
Defined.

(** A line stored with ratio 0 does not keep the equation when its quantity
    is edited.  The history holds a transaction whose line satisfies
    [totalBaseQuantity = quantityInput * conversionRatio] (3 cartons at
    ratio 0, total 0); opened in the edit modal and changed to 7 cartons,
    the line has the total 7 = 7 * 1, while 7 times its stored ratio is 0. *)
Lemma zero_ratio_line_recomputed_at_one :
  reachable (fun tx => tx = Samples.legacy)
    (fst (openEditModal Samples.legacy Samples.mounted))
  /\ Forall
       (fun line =>
          TID.totalBaseQuantity line
          = TID.quantityInput line * TID.conversionRatio line)
       (Transaction.items Samples.legacy)
  /\ exists s' line,
       updateEditItemQty 0 7 (fst (openEditModal Samples.legacy Samples.mounted))
       = Some s'
       /\ editCartItems s' = [line]
       /\ TID.quantityInput line = 7
       /\ TID.conversionRatio line = 0
       /\ TID.totalBaseQuantity line = 7 * 1
       /\ ~ TID.totalBaseQuantity line
            == TID.quantityInput line * TID.conversionRatio line.
Proof.
  split.
  { apply (reach_event _ Samples.mounted (OpenEditModal Samples.legacy));
      [constructor | reflexivity]. }
  split; [repeat constructor|].
  eexists _, _. split; [reflexivity|].
  repeat split. intros H. vm_compute in H. discriminate.
Qed.

End TransactionManagerFacts.

(** ** TransactionManager: validation, keyboard, submit and edit round trips *)
Section TransactionManagerFlows.
Import TransactionManager.

Implicit Types (s : State) (item : InventoryItem.t) (qty : Q)
  (unitName : string) (targetCart : Cart).

(** X1. The inline validation and the handler's own check agree for the new
    cart: once the validation effect has run, [validationError] is empty
    exactly when [handleAddToCart('new')] would raise no alert.  The effect
    changes nothing but [validationError], and it looks at [cartItems] only:
    the lines of the edit cart never influence it. *)
Theorem validation_agrees_with_add_to_cart s :
  (validationError (validationEffect s) = None
   <-> snd (handleAddToCart new s) = [])
  /\ (forall lines,
        validationError (validationEffect (setEditCartItems lines s))
        = validationError (validationEffect s))
  /\ setValidationError (validationError s) (validationEffect s) = s.
Proof.
  destruct s as [? ty ? ? ? ? ? ? ? [it|] ? ? [q|] ? ? ? ? ? ? ? ? ? ? ? ? ?];
    unfold validationEffect, handleAddToCart, totalBaseCalc, JS.falsy_opt; cbn;
    try (destruct ty; cbn; now repeat split).
  destruct ty; cbn; destruct (JS.truthy q); cbn;
    try destruct (JS.gt _ _); cbn;
    repeat (split || intro); congruence.
Qed.

Lemma validated_add_is_silent targetCart s :
  targetCart = new ->
  validationError (validationEffect s) = None ->
  snd (handleAddToCart targetCart (validationEffect s)) = [].
Proof.
  intros -> Hv.
  destruct s as [? ty ? ? ? ? ? ? ? [it|] ? ? [q|] ? ? ? ? ? ? ? ? ? ? ? ? ?];
    revert Hv;
    unfold validationEffect, handleAddToCart, totalBaseCalc, JS.falsy_opt; cbn;
    try (destruct ty; cbn; now intros).
  destruct ty; cbn; destruct (JS.truthy q) eqn:Et; cbn; rewrite ?Et; cbn;
    try (destruct (JS.gt _ _) eqn:Eg;
         repeat first [rewrite Et | rewrite Eg | progress cbn]);
    intros; (discriminate || reflexivity).
Qed.

(** What a flagged form looks like. *)
Lemma flagged_form s err :
  validationError (validationEffect s) = Some err ->
  exists item qty,
    type s = OUT /\ selectedItem s = Some item /\ quantityInput s = Some qty
    /\ JS.truthy qty = true
    /\ JS.gt (alreadyInCart (InventoryItem.id item) (cartItems s)
              + qty * conversionRatio s) (InventoryItem.quantity item) = true.
Proof.
  destruct s as [? ty ? ? ? ? ? ? ? [it|] ? ? [q|] ? ? ? ? ? ? ? ? ? ? ? ? ?];
    unfold validationEffect, totalBaseCalc, JS.falsy_opt; cbn;
    try (destruct ty; cbn; discriminate).
  destruct ty; cbn; [discriminate|].
  destruct (JS.truthy q) eqn:Et; cbn; [|discriminate].
  destruct (JS.gt _ _) eqn:Eg; cbn; [|discriminate].
  intros _. exists it, q. auto.
Qed.

(** X2. The gate of the "Add to Cart" entry points and how it is lifted.
    Right after the validation effect has run, neither the Enter key in the
    quantity field nor a click on "Add to Cart" performs any effect, and
    both entry points apply the same gate in every state; any other key in
    the quantity field does nothing.  The button of the transaction type
    that is already selected clears [validationError] and changes no
    dependency of the validation effect, so the effect does not run again:
    when the form was flagged, "Add to Cart" is enabled afterwards, and both
    entry points reach the check of [handleAddToCart], which raises the
    alert and leaves the state as it is. *)
Theorem add_to_cart_entry_points s targetCart key :
  snd (handleQtyKeyDown "Enter" new (validationEffect s)) = []
  /\ snd (clickAddToCart new (validationEffect s)) = []
  /\ handleQtyKeyDown "Enter" targetCart s = clickAddToCart targetCart s
  /\ handleQtyKeyDown key targetCart s
     = (if bool_decide (key = "Enter") then clickAddToCart targetCart s
        else (s, []))
  /\ clickType (type s) s = setValidationError None s
  /\ (forall err,
        validationError (validationEffect s) = Some err ->
        exists total available,
          JS.gt total available = true
          /\ addDisabled (clickType (type s) (validationEffect s)) = false
          /\ clickAddToCart new (clickType (type s) (validationEffect s))
             = (clickType (type s) (validationEffect s), [alert total available])
          /\ handleQtyKeyDown "Enter" new (clickType (type s) (validationEffect s))
             = (clickType (type s) (validationEffect s), [alert total available])).
Proof.
  assert (Hsame : forall s0 c,
            handleQtyKeyDown "Enter" c s0 = clickAddToCart c s0).
  { intros s0 c. unfold handleQtyKeyDown, clickAddToCart, addDisabled. cbn.
    destruct (selectedItem s0), (validationError s0);
      cbn; try reflexivity; now destruct (JS.falsy_opt _). }
  assert (Hclick : snd (clickAddToCart new (validationEffect s)) = []).
  { unfold clickAddToCart, addDisabled.
    destruct (validationError (validationEffect s)) as [err|] eqn:Ev.
    - cbn. rewrite !orb_true_r. reflexivity.
    - destruct (_ || _ || _); [reflexivity|].
      now apply validated_add_is_silent. }
  split; [now rewrite Hsame|]. split; [exact Hclick|].
  split; [apply Hsame|].
  split.
  { unfold handleQtyKeyDown at 1. unfold JS.str_eq.
    destruct (bool_decide (key = "Enter")); [|reflexivity].
    apply (Hsame s targetCart). }
  split.
  { unfold clickType, selectType. cbn [fst].
    destruct s as [? [] ? ? ? ? ? ? ? ? ? ? ? ? ? ? ? ? ? ? ? ? ? ? ? ?]; reflexivity. }
  intros err Hv.
  destruct (flagged_form s err Hv) as (item & qty & Ho & Hi & Hq & Ht & Hg).
  exists (alreadyInCart (InventoryItem.id item) (cartItems s) + qty * conversionRatio s),
    (InventoryItem.quantity item).
  split; [exact Hg|].
  rewrite Hsame.
  assert (Hs1 : clickType (type s) (validationEffect s) = setValidationError None s).
  { clear Hclick Hsame. revert Hv Ho Hi Hq Ht Hg.
    destruct s as [? ty ? ? ? ? ? ? ? it' ? ? q' ? ? ? ? ? ? ? ? ? ? ? ? ?].
    cbn. intros Hv -> -> -> Ht Hg.
    unfold validationEffect, totalBaseCalc, JS.falsy_opt, clickType, selectType.
    cbn. rewrite Ht. cbn. rewrite Hg. reflexivity. }
  rewrite Hs1.
  assert (Hadd : handleAddToCart new (setValidationError None s)
                 = (setValidationError None s,
                    [alert (alreadyInCart (InventoryItem.id item) (cartItems s)
                            + qty * conversionRatio s)
                           (InventoryItem.quantity item)])).
  { clear Hclick Hsame Hs1 Hv. revert Ho Hi Hq Ht Hg.
    destruct s as [? ty ? ? ? ? ? ? ? it' ? ? q' ? ? ? ? ? ? ? ? ? ? ? ? ?].
    cbn. intros -> -> -> Ht Hg. unfold handleAddToCart. cbn.
    rewrite Ht. cbn. rewrite Hg. reflexivity. }
  assert (Hen : addDisabled (setValidationError None s) = false).
  { clear Hclick Hsame Hs1 Hv Hadd. revert Ho Hi Hq Ht Hg.
    destruct s as [? ty ? ? ? ? ? ? ? it' ? ? q' ? ? ? ? ? ? ? ? ? ? ? ? ?].
    cbn. intros -> -> -> Ht Hg. unfold addDisabled, JS.falsy_opt. cbn.
    now rewrite Ht. }
  split; [exact Hen|].
  unfold clickAddToCart. rewrite Hen. split; exact Hadd.
Qed.

(** Nine boxes of the widget against 100 pieces: the form is flagged and the
    button disabled; after a click on "Outbound", which was selected
    already, the button raises the alert. *)
Lemma add_to_cart_entry_points_witness :
  validationError (validationEffect Samples.overdrawn)
  = Some (InsufficientStockAvailable 100 "Pcs")
  /\ addDisabled (validationEffect Samples.overdrawn) = true
  /\ addDisabled (clickType OUT (validationEffect Samples.overdrawn)) = false
  /\ snd (clickAddToCart new (clickType OUT (validationEffect Samples.overdrawn)))
     = [alert 108 100].
Proof.
  destruct (add_to_cart_entry_points Samples.overdrawn new "Enter")
    as (_ & _ & _ & _ & _ & H6).
  destruct (H6 (InsufficientStockAvailable 100 "Pcs") eq_refl)
    as (total & available & _ & Hen & Hclick & _).
  split; [reflexivity|]. split; [reflexivity|]. split; [exact Hen|].
  pose proof Hclick as E. vm_compute in E. injection E as <- <-.
  exact (f_equal snd Hclick).
Defined.

(** X3. Submitting a non-empty draft invokes [onProcessTransaction] exactly
    once, with the generated id, the form's date and type and the cart's
    lines in order.  An inbound transaction carries the supplier fields and
    photos; an outbound one carries none of them, whatever the fields hold.
    The cart is emptied, so a second submit right after does nothing. *)
Theorem submit_commits_once newId now s :
  cartItems s <> [] ->
  exists tx,
    snd (handleSubmitTransaction newId now s) = [onProcessTransaction tx]
    /\ Transaction.id tx = newId
    /\ Transaction.date tx = date s
    /\ Transaction.type tx = type s
    /\ Transaction.items tx = cartItems s
    /\ Transaction.timestamp tx = now
    /\ Transaction.supplierName tx
       = match type s with IN => Some (supplierName s) | OUT => None end
    /\ Transaction.poNumber tx
       = match type s with IN => Some (poNumber s) | OUT => None end
    /\ Transaction.riNumber tx
       = match type s with IN => Some (riNumber s) | OUT => None end
    /\ Transaction.photos tx
       = match type s with IN => Some (photos s) | OUT => None end
    /\ cartItems (fst (handleSubmitTransaction newId now s)) = []
    /\ editCartItems (fst (handleSubmitTransaction newId now s)) = editCartItems s
    /\ (forall newId' now',
          handleSubmitTransaction newId' now'
            (fst (handleSubmitTransaction newId now s))
          = (fst (handleSubmitTransaction newId now s), [])).
Proof.
  destruct s as [? ty ? [|line rest] ? ? ? ? ? ? ? ? ? ? ? ? ? ? ? ? ? ? ? ? ? ?];
    intros Hne; [now destruct Hne|].
  unfold handleSubmitTransaction. cbn.
  destruct ty; eexists; cbn; repeat split; reflexivity.
Qed.

Lemma submit_commits_once_witness :
  exists tx,
    snd (handleSubmitTransaction "t2" "2026-11-03T09:00:00.000Z"
           (fst (addLine new (Samples.widget 100) "Box" 8 Samples.outbound)))
    = [onProcessTransaction tx]
    /\ Transaction.type tx = OUT
    /\ Transaction.items tx = [newLine (Samples.widget 100) "Box" 8]
    /\ Transaction.supplierName tx = None.
Proof.
  destruct (submit_commits_once "t2" "2026-11-03T09:00:00.000Z"
              (fst (addLine new (Samples.widget 100) "Box" 8 Samples.outbound)))
    as (tx & H1 & _ & _ & H4 & H5 & _ & H7 & _).
  - discriminate.
  - exists tx. repeat split; assumption.
Defined.

(** X4. Opening a transaction in the edit modal and saving it untouched
    hands back the same transaction (same id, date, type, lines and
    timestamp) with its absent optional fields filled with empty values; a
    transaction that has all of them comes back unchanged, and the new
    transaction form is not affected by opening the modal. *)
Theorem edit_modal_round_trip tx s :
  handleSaveEdit (fst (openEditModal tx s))
  = (setIsEditModalOpen false (fst (openEditModal tx s)),
     [onUpdateTransaction (withDefaults tx)])
  /\ withDefaults (withDefaults tx) = withDefaults tx
  /\ (withDefaults tx = tx
      <-> is_Some (Transaction.notes tx)
          /\ is_Some (Transaction.supplierName tx)
          /\ is_Some (Transaction.poNumber tx)
          /\ is_Some (Transaction.riNumber tx)
          /\ is_Some (Transaction.photos tx))
  /\ cartItems (fst (openEditModal tx s)) = cartItems s
  /\ type (fst (openEditModal tx s)) = type s
  /\ snd (openEditModal tx s) = [].
Proof.
  split; [reflexivity|]. split; [reflexivity|].
  split; [|now repeat split].
  destruct tx as [i d t l [n|] ts [sn|] [po|] [ri|] [ph|]]; cbn;
    (split;
     [ intros H; try discriminate H; repeat split; eauto
     | intros (H1 & H2 & H3 & H4 & H5);
       first [reflexivity
             | now (destruct H1 as [? ?])
             | now (destruct H2 as [? ?])
             | now (destruct H3 as [? ?])
             | now (destruct H4 as [? ?])
             | now (destruct H5 as [? ?])] ]).
Qed.

(** X5. Changing the quantity of a line of the edit cart succeeds exactly
    for an index inside the cart.  It then keeps the number of lines and,
    line by line, the item, the unit and the conversion ratio; the edited
    line gets the new quantity; and nothing but the edit cart changes. *)
Theorem updateEditItemQty_bounds index newQty s :
  (is_Some (updateEditItemQty index newQty s)
   <-> (index < length (editCartItems s))%nat)
  /\ (forall s',
        updateEditItemQty index newQty s = Some s' ->
        length (editCartItems s') = length (editCartItems s)
        /\ TID.itemId <$> editCartItems s' = TID.itemId <$> editCartItems s
        /\ TID.selectedUnit <$> editCartItems s'
           = TID.selectedUnit <$> editCartItems s
        /\ TID.conversionRatio <$> editCartItems s'
           = TID.conversionRatio <$> editCartItems s
        /\ TID.quantityInput <$> editCartItems s' !! index = Some newQty
        /\ setEditCartItems (editCartItems s) s' = s).
Proof.
  unfold updateEditItemQty. split.
  - rewrite <- lookup_lt_is_Some.
    destruct (editCartItems s !! index); split; intros [x Hx]; eauto; discriminate.
  - intros s'. destruct (editCartItems s !! index) as [line|] eqn:El; [|discriminate].
    intros [= <-]. cbn.
    assert (Hid : forall (B : Type) (f : TID.t -> B) line',
              f line' = f line ->
              f <$> <[index := line']> (editCartItems s) = f <$> editCartItems s).
    { intros B f line' Hf. rewrite list_fmap_insert, Hf.
      apply list_insert_id. now rewrite list_lookup_fmap, El. }
    split; [apply length_insert|].
    repeat split; try (now apply Hid).
    rewrite list_lookup_insert_eq; [reflexivity|].
    now apply lookup_lt_Some in El.
Qed.

Lemma updateEditItemQty_bounds_witness :
  exists s',
    updateEditItemQty 0 5 (fst (openEditModal Samples.sale Samples.mounted))
    = Some s'
    /\ length (editCartItems s') = 1%nat
    /\ TID.quantityInput <$> editCartItems s' !! 0%nat = Some 5
    /\ updateEditItemQty 1 5 (fst (openEditModal Samples.sale Samples.mounted))
       = None.
Proof.
  pose proof (updateEditItemQty_bounds 0 5
                (fst (openEditModal Samples.sale Samples.mounted))) as [[_ Hin] Hok].
  destruct (Hin (Nat.lt_0_succ 0)) as [s' Hs'].
  destruct (Hok s' Hs') as (H1 & _ & _ & _ & H5 & _).
  exists s'. repeat split; assumption || reflexivity.
Defined.

(** X6. The stock check is made when a line is added, never afterwards.  A
    line added while the form says "Inbound" stays in the cart when the form
    is switched to "Outbound", and submitting then commits it as an outbound
    transaction without any alert, whatever the item's quantity is. *)
Theorem type_toggle_skips_stock_check item unitName qty newId now s :
  type s = IN -> ~ qty == 0 ->
  let s1 := fst (addLine new item unitName qty s) in
  let s2 := fst (selectType OUT s1) in
  snd (addLine new item unitName qty s) = []
  /\ snd (selectType OUT s1) = []
  /\ type s2 = OUT
  /\ cartItems s2 = cartItems s ++ [newLine item unitName qty]
  /\ exists tx,
       snd (handleSubmitTransaction newId now s2) = [onProcessTransaction tx]
       /\ Transaction.type tx = OUT
       /\ Transaction.items tx = cartItems s ++ [newLine item unitName qty].
Proof.
  intros Hin Hq s1 s2.
  destruct (addLine_accepted new item unitName qty s Hq (or_introl Hin))
    as (H1 & H2 & _).
  cbn [cartOf] in H2.
  assert (Hc : cartItems s2 = cartItems s ++ [newLine item unitName qty])
    by exact H2.
  split; [exact H1|]. split; [reflexivity|]. split; [reflexivity|].
  split; [exact Hc|].
  destruct (submit_commits_once newId now s2) as (tx & Ht & _ & _ & Hty & Hit & _).
  { rewrite Hc. now destruct (cartItems s). }
  exists tx. rewrite Hit, Hc. now repeat split.
Qed.

(** 100 boxes of a widget of which 4 pieces are in stock leave as an
    outbound transaction of 1200 pieces. *)
Lemma type_toggle_skips_stock_check_witness :
  exists tx,
    snd (handleSubmitTransaction "t3" "2026-11-03T09:00:00.000Z"
           (fst (selectType OUT
                   (fst (addLine new (Samples.widget 4) "Box" 100 Samples.mounted)))))
    = [onProcessTransaction tx]
    /\ Transaction.type tx = OUT
    /\ TID.totalBaseQuantity <$> Transaction.items tx = [1200].
Proof.
  assert (Hq : ~ 100 == 0) by (intros H; vm_compute in H; discriminate).
  destruct (type_toggle_skips_stock_check (Samples.widget 4) "Box" 100 "t3"
              "2026-11-03T09:00:00.000Z" Samples.mounted eq_refl Hq)
    as (_ & _ & _ & _ & tx & H1 & H2 & H3).
  exists tx. split; [exact H1|]. split; [exact H2|]. now rewrite H3.
Defined.

(** *** Headroom of an outbound draft *)

Lemma alreadyInCart_fold_shift (lines : list TID.t) (a : Q) :
  fold_left (fun sum current => sum + TID.totalBaseQuantity current) lines a
  == a + fold_left (fun sum current => sum + TID.totalBaseQuantity current) lines 0.
Proof.
  revert a. induction lines as [|x lines IH]; intros a; cbn [fold_left].
  - ring.
  - rewrite IH, (IH (0 + _)). ring.
Qed.

Lemma alreadyInCart_app id (l1 l2 : list TID.t) :
  alreadyInCart id (l1 ++ l2) == alreadyInCart id l1 + alreadyInCart id l2.
Proof.
  unfold alreadyInCart, JS.reduce. rewrite List.filter_app, fold_left_app.
  apply alreadyInCart_fold_shift.
Qed.

Lemma alreadyInCart_cons id line (l : list TID.t) :
  alreadyInCart id (line :: l)
  == (if JS.str_eq (TID.itemId line) id then TID.totalBaseQuantity line else 0)
     + alreadyInCart id l.
Proof.
  unfold alreadyInCart, JS.reduce. cbn [List.filter].
  destruct (JS.str_eq _ _); cbn [fold_left].
  - rewrite alreadyInCart_fold_shift. ring.
  - ring.
Qed.

(** The draft total of an item after the line at [i] is removed. *)
Lemma alreadyInCart_remove id i (l : list TID.t) :
  alreadyInCart id (take i l ++ drop (S i) l)
  == alreadyInCart id l
     - match l !! i with
       | Some line =>
           if JS.str_eq (TID.itemId line) id then TID.totalBaseQuantity line else 0
       | None => 0
       end.
Proof.
  destruct (l !! i) as [line|] eqn:El.
  - rewrite <- (take_drop_middle l i line El) at 3.
    rewrite !alreadyInCart_app, alreadyInCart_cons. ring.
  - apply lookup_ge_None in El.
    rewrite take_ge, drop_ge, app_nil_r by lia. ring.
Qed.

Lemma addLine_silent_within_stock targetCart item unitName qty s :
  type s = OUT -> ~ qty == 0 ->
  snd (addLine targetCart item unitName qty s) = [] ->
  alreadyInCart (InventoryItem.id item) (cartOf targetCart s)
  + qty * resolve item unitName <= InventoryItem.quantity item.
Proof.
  intros Ho Hq Hs.
  destruct (Qlt_le_dec (InventoryItem.quantity item)
              (alreadyInCart (InventoryItem.id item) (cartOf targetCart s)
               + qty * resolve item unitName)) as [Hlt | Hle]; [|exact Hle].
  rewrite (addLine_rejected targetCart item unitName qty s Ho Hq Hlt) in Hs.
  discriminate.
Qed.

(** X8. Removing a line only gives headroom, provided the removed line does
    not carry a negative total for the same item: a line that the outbound
    draft accepts before the removal is accepted after it as well. *)
Theorem removal_keeps_line_acceptable targetCart i item unitName qty s :
  type s = OUT -> ~ qty == 0 ->
  (forall line,
     cartOf targetCart s !! i = Some line ->
     TID.itemId line = InventoryItem.id item ->
     0 <= TID.totalBaseQuantity line) ->
  snd (addLine targetCart item unitName qty s) = [] ->
  snd (addLine targetCart item unitName qty (fst (removeLine targetCart i s))) = []
  /\ alreadyInCart (InventoryItem.id item)
       (cartOf targetCart (fst (removeLine targetCart i s)))
     <= alreadyInCart (InventoryItem.id item) (cartOf targetCart s).
Proof.
  intros Ho Hq Hpos Hs.
  assert (Hle := addLine_silent_within_stock targetCart item unitName qty s Ho Hq Hs).
  assert (Hdec : alreadyInCart (InventoryItem.id item)
                   (cartOf targetCart (fst (removeLine targetCart i s)))
                 <= alreadyInCart (InventoryItem.id item) (cartOf targetCart s)).
  { rewrite removeLine_cart, alreadyInCart_remove.
    destruct (cartOf targetCart s !! i) as [line|] eqn:El.
    - unfold JS.str_eq. destruct (bool_decide_reflect
                                    (TID.itemId line = InventoryItem.id item))
        as [Heq | _].
      + specialize (Hpos line eq_refl Heq). lra.
      + lra.
    - lra. }
  split; [|exact Hdec].
  apply (addLine_accepted targetCart item unitName qty). { exact Hq. }
  right. eapply Qle_trans; [|exact Hle].
  now apply Qplus_le_l.
Qed.

Lemma removal_keeps_line_acceptable_witness :
  snd (addLine new (Samples.widget 100) "Pcs" 4
         (fst (removeLine new 0
                 (fst (addLine new (Samples.widget 100) "Box" 8 Samples.outbound)))))
  = [].
Proof.
  assert (Hq : ~ 4 == 0) by (intros H; vm_compute in H; discriminate).
  refine (proj1 (removal_keeps_line_acceptable new 0 (Samples.widget 100) "Pcs" 4
                   (fst (addLine new (Samples.widget 100) "Box" 8 Samples.outbound))
                   eq_refl Hq _ eq_refl)).
  intros line [= <-] _. vm_compute. discriminate.
Defined.

(** *** Unit resolution and keyboard navigation *)

Lemma findAlt_first item unitName before u after :
  InventoryItem.alternativeUnits item = Some (before ++ u :: after) ->
  UnitDefinition.name u = unitName ->
  (forall v, In v before -> UnitDefinition.name v <> unitName) ->
  findAlt item unitName = Some u.
Proof.
  intros Ha Hu Hb. unfold findAlt, JS.find. rewrite Ha. clear Ha.
  induction before as [|v before IH]; cbn [app List.find].
  - unfold JS.str_eq. now rewrite bool_decide_eq_true_2.
  - unfold JS.str_eq at 1.
    rewrite bool_decide_eq_false_2 by (apply Hb; now left).
    apply IH. intros w Hw. apply Hb. now right.
Qed.

(** X9. The conversion ratio the form ends up with is never zero.  The base
    unit always resolves to 1, even when an alternative unit bears the same
    name.  Any other name resolves to the ratio of the first alternative
    unit of that name, except that a ratio of zero is replaced by 1. *)
Theorem resolve_cases item unitName :
  ~ resolve item unitName == 0
  /\ resolve item (InventoryItem.baseUnit item) = 1
  /\ (forall before u after,
        unitName <> InventoryItem.baseUnit item ->
        InventoryItem.alternativeUnits item = Some (before ++ u :: after) ->
        UnitDefinition.name u = unitName ->
        (forall v, In v before -> UnitDefinition.name v <> unitName) ->
        resolve item unitName
        = if JS.truthy (UnitDefinition.ratio u) then UnitDefinition.ratio u else 1).
Proof.
  split; [apply truthy_iff, resolve_truthy|].
  split; [unfold resolve; now rewrite str_eq_refl|].
  intros before u after Hb Ha Hu Hfirst. unfold resolve, JS.str_eq.
  rewrite bool_decide_eq_false_2 by exact Hb.
  now rewrite (findAlt_first item unitName before u after Ha Hu Hfirst).
Qed.

Lemma resolve_cases_witness :
  resolve (Samples.widget 100) "Box" = 12
  /\ resolve Samples.tape "" = 1.
Proof.
  split.
  - refine (proj2 (proj2 (resolve_cases (Samples.widget 100) "Box"))
              [] Samples.box [] _ eq_refl eq_refl _); [discriminate | intros v []].
  - refine (proj2 (proj2 (resolve_cases Samples.tape ""))
              [] (UnitDefinition.mk "" 0) [UnitDefinition.mk "Carton" 6]
              _ eq_refl eq_refl _); [discriminate | intros v []].
Defined.

(** X10. Keyboard navigation in the search field stays inside the result
    list.  If the highlighted index is -1 or an index of the list (0 when
    the list is empty), then no key makes the handler fail, the index is
    still in that range afterwards, no effect is performed and the carts are
    untouched; Enter on a non-empty list selects the highlighted item (the
    first one when nothing is highlighted) in its base unit at ratio 1. *)
Theorem search_keys_stay_in_range key filtered s :
  (-1 <= activeIndex s <= Z.max 0 (Z.of_nat (length filtered) - 1))%Z ->
  exists r,
    handleSearchKeyDown key filtered s = Some r
    /\ (-1 <= activeIndex (fst r) <= Z.max 0 (Z.of_nat (length filtered) - 1))%Z
    /\ snd r = []
    /\ cartItems (fst r) = cartItems s
    /\ editCartItems (fst r) = editCartItems s
    /\ (key = "Enter" -> filtered <> [] ->
        exists item,
          filtered !! Z.to_nat (Z.max 0 (activeIndex s)) = Some item
          /\ selectedItem (fst r) = Some item
          /\ selectedUnit (fst r) = InventoryItem.baseUnit item
          /\ conversionRatio (fst r) = 1).
Proof.
  intros Hr. unfold handleSearchKeyDown, JS.str_eq.
  destruct (bool_decide_reflect (key = "Enter")) as [-> | Hk]; cbn [andb].
  - destruct (Z.ltb_spec 0 (Z.of_nat (length filtered))) as [Hlen | Hlen].
    + assert (Hidx : (Z.to_nat (if (0 <=? activeIndex s)%Z then activeIndex s else 0)
                      < length filtered)%nat).
      { destruct (Z.leb_spec 0 (activeIndex s)); lia. }
      destruct (lookup_lt_is_Some_2 filtered _ Hidx) as [item Hitem].
      rewrite Hitem. eexists. split; [reflexivity|]. cbn.
      split; [lia|]. do 3 (split; [reflexivity|]).
      intros _ _. exists item. split; [|now repeat split].
      rewrite <- Hitem. f_equal. destruct (Z.leb_spec 0 (activeIndex s)); lia.
    + assert (Hnil : filtered = [])
        by (destruct filtered; [reflexivity | cbn in Hlen; lia]).
      subst filtered. cbn. rewrite orb_true_r. eexists. split; [reflexivity|].
      cbn. split; [exact Hr|]. do 3 (split; [reflexivity|]).
      intros _ Hne. now destruct Hne.
  - destruct (negb (isAutocompleteOpen s) || (Z.of_nat (length filtered) =? 0)%Z)
      eqn:Eclosed.
    { eexists. split; [reflexivity|]. cbn. split; [exact Hr|].
      do 3 (split; [reflexivity|]). intros ->. now destruct Hk. }
    apply orb_false_elim in Eclosed as [_ Hlen%Z.eqb_neq].
    destruct (bool_decide (key = "ArrowDown")).
    { eexists. split; [reflexivity|]. cbn.
      split; [destruct (Z.ltb_spec (activeIndex s)
                          (Z.of_nat (length filtered) - 1)); lia|].
      do 3 (split; [reflexivity|]). intros ->. now destruct Hk. }
    destruct (bool_decide (key = "ArrowUp")).
    { eexists. split; [reflexivity|]. cbn.
      split; [destruct (Z.ltb_spec 0 (activeIndex s)); lia|].
      do 3 (split; [reflexivity|]). intros ->. now destruct Hk. }
    destruct (bool_decide (key = "Escape")).
    { eexists. split; [reflexivity|]. cbn. split; [exact Hr|].
      do 3 (split; [reflexivity|]). intros ->. now destruct Hk. }
    eexists. split; [reflexivity|]. cbn. split; [exact Hr|].
    do 3 (split; [reflexivity|]). intros ->. now destruct Hk.
Qed.

Lemma search_keys_stay_in_range_witness :
  exists r,
    handleSearchKeyDown "Enter" Samples.shelf
      (fst (handleSelectItem Samples.nut Samples.mounted)) = Some r
    /\ selectedItem (fst r) = Some (Samples.widget 4).
Proof.
  destruct (search_keys_stay_in_range "Enter" Samples.shelf
              (fst (handleSelectItem Samples.nut Samples.mounted)))
    as (r & Hr & _ & _ & _ & _ & Hsel).
  - cbn. lia.
  - destruct (Hsel eq_refl) as (item & Hi & Hs & _); [discriminate|].
    exists r. split; [exact Hr|]. rewrite Hs, <- Hi. reflexivity.
Defined.

End TransactionManagerFlows.

(** ** Dashboard: the KPI cards and the bars *)
Section DashboardCards.
Import Dashboard.

Implicit Types (h : store) (items r : ref) (xs : list InventoryItem.t).

Lemma filter_length_all {A} (p : A -> bool) (l : list A) :
  length (List.filter p l) = length l <-> List.Forall (fun x => p x = true) l.
Proof.
  induction l as [|x l IH]; cbn [List.filter length].
  - split; [constructor | reflexivity].
  - assert (Hle := List.filter_length_le p l).
    destruct (p x) eqn:E; cbn [length].
    + rewrite Nat.succ_inj_wd, IH. split.
      * now constructor.
      * intros H. now apply List.Forall_inv_tail in H.
    + split; [lia|]. intros H. apply List.Forall_inv in H. congruence.
Qed.

Lemma reduce_nonneg {A} (g : A -> Q) (l : list A) (a : Q) :
  0 <= a -> List.Forall (fun x => 0 <= g x) l ->
  0 <= JS.reduce (fun acc x => acc + g x) a l.
Proof.
  unfold JS.reduce. intros Ha Hl. revert a Ha.
  induction Hl as [|x l Hx _ IH]; intros a Ha; cbn [fold_left]; [exact Ha|].
  apply IH. lra.
Qed.

(** X11. The KPI cards are computed for every array of items and leave it
    untouched.  "Unique SKUs" is the number of items, "Low Stock Alerts"
    never exceeds it and equals it exactly when every item is at or below a
    positive minimum level; when no quantity and no price is negative,
    "Total Units" and "Total Valuation" are not negative either. *)
Theorem stats_cards h items xs :
  h !! items = Some xs ->
  exists st h',
    stats items h = Some (st, h')
    /\ totalItems st = length xs
    /\ alertCount st = length (List.filter isLowStock xs)
    /\ (alertCount st <= totalItems st)%nat
    /\ (alertCount st = totalItems st
        <-> List.Forall (fun i => isLowStock i = true) xs)
    /\ (List.Forall (fun i => 0 <= InventoryItem.quantity i
                              /\ 0 <= InventoryItem.unitPrice i) xs ->
        0 <= totalStockCount st /\ 0 <= totalValue st)
    /\ h' !! items = Some xs.
Proof.
  intros H.
  assert (H1 : <[fresh (dom h) := List.filter isLowStock xs]> h !! items = Some xs).
  { rewrite alloc_keeps; eauto using fresh_unused. }
  eexists _, _. split.
  { unfold stats, array_length, array_reduce.
    rewrite (lowStockCount_eval _ _ _ H), H, H1. reflexivity. }
  cbn. split; [reflexivity|]. split; [reflexivity|].
  split; [apply List.filter_length_le|].
  split; [apply filter_length_all|].
  split; [|exact H1].
  intros Hpos. split.
  - apply (reduce_nonneg InventoryItem.quantity); [lra|].
    eapply List.Forall_impl; [|exact Hpos]. now intros i [? ?].
  - apply (reduce_nonneg
             (fun i => InventoryItem.quantity i * InventoryItem.unitPrice i));
      [lra|].
    eapply List.Forall_impl; [|exact Hpos]. intros i [? ?].
    now apply Qmult_le_0_compat.
Qed.

Lemma stats_cards_witness :
  exists st h',
    stats 1%positive {[ 1%positive := Samples.shelf ]} = Some (st, h')
    /\ totalItems st = 4%nat
    /\ alertCount st = 2%nat
    /\ h' !! 1%positive = Some Samples.shelf.
Proof.
  destruct (stats_cards {[ 1%positive := Samples.shelf ]} 1%positive Samples.shelf)
    as (st & h' & H1 & H2 & H3 & _ & _ & _ & H7); [reflexivity|].
  exists st, h'. repeat split; assumption.
Defined.

Lemma level_low_stock i :
  isLowStock i = true -> level i <= 1.
Proof.
  intros [Hpos Hle]%isLowStock_iff. unfold level.
  apply Qle_shift_div_r; [exact Hpos|]. lra.
Qed.

(** X12. The bar of an item of the low-stock list never needs its clamp:
    for every item the list shows, [quantity / minLevel] is at most 1, so
    the width is [quantity / minLevel * 100], at most 100, and it is not
    negative unless the quantity is. *)
Theorem low_stock_bar_unclamped h items xs r h' res item :
  h !! items = Some xs ->
  lowStockItems items h = Some (r, h') ->
  h' !! r = Some res ->
  In item res ->
  barWidth item == level item * 100
  /\ barWidth item <= 100
  /\ (0 <= InventoryItem.quantity item -> 0 <= barWidth item).
Proof.
  intros H Hl Hres Hin.
  rewrite (lowStockItems_eval _ _ _ H) in Hl. injection Hl as <- <-.
  rewrite lookup_insert_eq in Hres. injection Hres as <-.
  apply (Permutation_in _ (sort_perm level _)) in Hin.
  apply filter_In in Hin as [_ Hlow].
  assert (Hlev := level_low_stock item Hlow).
  apply isLowStock_iff in Hlow as [Hpos Hq].
  assert (Hw : barWidth item == level item * 100).
  { unfold barWidth, min, JS.le.
    destruct (Qle_bool 100 (level item * 100)) eqn:E; [|reflexivity].
    apply Qle_bool_iff in E. lra. }
  split; [exact Hw|]. split; [lra|].
  intros Hq0. rewrite Hw.
  assert (0 <= level item); [|lra].
  unfold level. apply Qle_shift_div_l; [exact Hpos|]. lra.
Qed.

Lemma low_stock_bar_unclamped_witness :
  barWidth (Samples.widget 4) == 20 /\ barWidth (Samples.widget 4) <= 100.
Proof.
  destruct (low_stock_bar_unclamped {[ 1%positive := Samples.shelf ]} 1%positive
              Samples.shelf
              (fresh (dom ({[ 1%positive := Samples.shelf ]} : store)))
              (<[fresh (dom ({[ 1%positive := Samples.shelf ]} : store)) :=
                   [Samples.widget 4; Samples.bolt]]>
                 {[ 1%positive := Samples.shelf ]})
              [Samples.widget 4; Samples.bolt] (Samples.widget 4))
    as (H1 & H2 & _).
  - reflexivity.
  - reflexivity.
  - apply lookup_insert_eq.
  - now left.
  - split; [rewrite H1; reflexivity | exact H2].
Defined.

End DashboardCards.

(** ** Running totals kept in an object *)

Lemma sumQ_app (l1 l2 : list Q) :
  JSObject.sumQ (l1 ++ l2) == JSObject.sumQ l1 + JSObject.sumQ l2.
Proof.
  unfold JSObject.sumQ. induction l1 as [|x l1 IH]; cbn [app foldr]; [ring|].
  rewrite IH. ring.
Qed.

Lemma or_else_zero v : JS.or_else v 0 == v.
Proof.
  unfold JS.or_else. destruct (JS.truthy v) eqn:E; [reflexivity|].
  apply truthy_false_iff in E. now rewrite E.
Qed.

Section TallyFacts.
Context {A : Type} (key : A -> string) (amount : A -> Q).

Local Abbreviation keyTotal := (JSObject.keyTotal key amount).
Local Abbreviation tallies := (JSObject.tallies key amount).

Lemma keyTotal_snoc c xs x :
  keyTotal c (xs ++ [x])
  == keyTotal c xs + (if JS.str_eq (key x) c then amount x else 0).
Proof.
  unfold JSObject.keyTotal. rewrite List.filter_app, map_app, sumQ_app.
  cbn [List.filter].
  destruct (JS.str_eq _ _); unfold JSObject.sumQ; cbn [map foldr]; ring.
Qed.

Lemma keyTotal_absent c xs :
  (forall x, In x xs -> key x <> c) -> keyTotal c xs = 0.
Proof.
  intros H. unfold JSObject.keyTotal.
  induction xs as [|x xs IH]; [reflexivity|]. cbn [List.filter].
  unfold JS.str_eq at 1. rewrite bool_decide_eq_false_2 by (apply H; now left).
  apply IH. intros i Hi. apply H. now right.
Qed.

Lemma count_tallies counts seen x :
  tallies counts seen ->
  key x ∉ JSObject.objectPrototypeKeys ->
  exists counts',
    JSObject.count key amount counts x = Some counts'
    /\ tallies counts' (seen ++ [x]).
Proof.
  intros Ht Hp. unfold JSObject.count.
  assert (Hstep : forall v,
            (match counts !! key x with
             | Some w => w == v
             | None => v == 0
             end) ->
            (forall w, counts !! key x = Some w -> w == keyTotal (key x) seen) ->
            (counts !! key x = None ->
             forall y, In y seen -> key y <> key x) ->
            tallies (<[key x := v + amount x]> counts) (seen ++ [x])).
  { intros v Hv Hsome Hnone c.
    destruct (decide (key x = c)) as [<- | Hne].
    - rewrite lookup_insert_eq. split.
      + rewrite keyTotal_snoc, str_eq_refl.
        destruct (counts !! key x) as [w|] eqn:E.
        * rewrite <- Hv, (Hsome w eq_refl). reflexivity.
        * rewrite Hv, (keyTotal_absent _ _ (Hnone eq_refl)). reflexivity.
      + exists x. split; [apply in_or_app; right; now left | reflexivity].
    - rewrite lookup_insert_ne by exact Hne.
      specialize (Ht c). destruct (counts !! c) as [w|].
      + destruct Ht as [Hw (y & Hy & Hc)]. split.
        * rewrite keyTotal_snoc. unfold JS.str_eq.
          rewrite bool_decide_eq_false_2 by exact Hne. rewrite Hw. ring.
        * exists y. split; [apply in_or_app; now left | exact Hc].
      + intros y [Hy | [<- | []]]%in_app_or; [now apply Ht | exact Hne]. }
  assert (Hcat := Ht (key x)).
  destruct (counts !! key x) as [w|] eqn:E.
  - eexists. split; [reflexivity|]. apply Hstep.
    + symmetry. apply or_else_zero.
    + intros w' [= <-]. apply Hcat.
    + discriminate.
  - rewrite bool_decide_eq_false_2 by exact Hp.
    eexists. split; [reflexivity|]. apply Hstep.
    + reflexivity.
    + discriminate.
    + intros _. exact Hcat.
Qed.

Lemma countAll_tallies xs counts seen :
  tallies counts seen ->
  Forall (fun x => key x ∉ JSObject.objectPrototypeKeys) xs ->
  exists counts',
    JSObject.countAll key amount counts xs = Some counts'
    /\ tallies counts' (seen ++ xs).
Proof.
  intros Ht Hp. revert counts seen Ht.
  induction Hp as [|x xs Hx _ IH]; intros counts seen Ht; cbn [JSObject.countAll].
  - exists counts. now rewrite app_nil_r.
  - destruct (count_tallies counts seen x Ht Hx) as (c1 & -> & Ht1).
    destruct (IH c1 (seen ++ [x]) Ht1) as (c2 & Hc2 & Ht2).
    exists c2. split; [exact Hc2|]. now rewrite <- app_assoc in Ht2.
Qed.

(** Counting from the empty object: the keys are the keys that occur, and
    each holds its total. *)
Lemma countAll_from_empty xs :
  Forall (fun x => key x ∉ JSObject.objectPrototypeKeys) xs ->
  exists counts,
    JSObject.countAll key amount ∅ xs = Some counts
    /\ (forall c, is_Some (counts !! c) <-> exists x, In x xs /\ key x = c)
    /\ (forall c v, counts !! c = Some v -> v == keyTotal c xs).
Proof.
  intros Hp.
  assert (Hempty : tallies ∅ []).
  { intros c. rewrite lookup_empty. intros x []. }
  destruct (countAll_tallies xs ∅ [] Hempty Hp) as (counts & Hc & Ht).
  cbn [app] in Ht. exists counts. split; [exact Hc|]. split.
  - intros c. specialize (Ht c). destruct (counts !! c) as [v|]; split.
    + intros _. apply Ht.
    + intros _. eauto.
    + intros [? [=]].
    + intros (x & Hx & Hxc). now destruct (Ht x Hx Hxc).
  - intros c v Hv. specialize (Ht c). rewrite Hv in Ht. apply Ht.
Qed.

End TallyFacts.

(** ** Dashboard: the top-items chart *)
Section DashboardCharts.
Import Dashboard.

Implicit Types (xs : list InventoryItem.t).

Lemma sort_insert_ext {A} (cmp1 cmp2 : A -> A -> Q) x (l : list A) :
  (forall a b, cmp1 a b == cmp2 a b) ->
  JS.sort_insert cmp1 x l = JS.sort_insert cmp2 x l.
Proof.
  intros H. induction l as [|y l IH]; [reflexivity|]. cbn [JS.sort_insert].
  unfold JS.gt. rewrite (Qleb_comp _ _ (H x y) 0 0 (Qeq_refl 0)).
  now rewrite IH.
Qed.

Lemma sort_ext {A} (cmp1 cmp2 : A -> A -> Q) (l : list A) :
  (forall a b, cmp1 a b == cmp2 a b) -> JS.sort cmp1 l = JS.sort cmp2 l.
Proof.
  intros H. induction l as [|x l IH]; [reflexivity|].
  cbn [JS.sort foldr]. fold (JS.sort cmp1 l) (JS.sort cmp2 l).
  rewrite IH. now apply sort_insert_ext.
Qed.

Lemma StronglySorted_take {A} (R : A -> A -> Prop) n (l : list A) :
  StronglySorted R l -> StronglySorted R (take n l).
Proof.
  intros H. revert n. induction H as [|x l _ IH Hx]; intros [|n]; cbn;
    try constructor.
  - apply IH.
  - rewrite List.Forall_forall in *. intros y Hy. apply Hx.
    apply list_elem_of_In. apply list_elem_of_In in Hy.
    now apply (subseteq_take n l).
Qed.

Lemma StronglySorted_weaken {A} (R R' : A -> A -> Prop) (l : list A) :
  StronglySorted R l -> (forall a b, R a b -> R' a b) -> StronglySorted R' l.
Proof.
  intros H Himp. induction H as [|x l _ IH Hx]; constructor; [exact IH|].
  eapply List.Forall_impl; [|exact Hx]. intros y. apply Himp.
Qed.

(** X22. The "Top 5 High Velocity Items" chart.  Provided no item name of an
    outbound line is a name inherited from [Object.prototype], the chart has
    at most five bars, in order of decreasing quantity; every bar stands for
    an item name that occurs on an outbound line and is worth the total of
    the entered quantities ([quantityInput], whatever the unit) of the
    outbound lines of that name, inbound transactions counting for nothing;
    the item attached to a bar is an item of the inventory; and the chart is
    empty exactly when there is no outbound line. *)
Theorem top_items_chart entriesOf shorten items transactions :
  (forall counts, Permutation (entriesOf counts) (map_to_list counts)) ->
  Forall (fun line =>
            TransactionItemDetail.itemName line ∉ JSObject.objectPrototypeKeys)
    (outboundLines transactions) ->
  exists bars,
    topItemsData entriesOf shorten items transactions = Some bars
    /\ (length bars <= 5)%nat
    /\ StronglySorted (fun a b => Bar.quantity b <= Bar.quantity a) bars
    /\ (forall bar,
          In bar bars ->
          exists name,
            Bar.name bar = shorten name
            /\ Bar.quantity bar
               == JSObject.keyTotal TransactionItemDetail.itemName
                    TransactionItemDetail.quantityInput name
                    (outboundLines transactions)
            /\ (exists line,
                  In line (outboundLines transactions)
                  /\ TransactionItemDetail.itemName line = name)
            /\ (forall item, Bar.fullItem bar = Some item -> In item items))
    /\ (bars = [] <-> outboundLines transactions = []).
Proof.
  intros Hentries Hp.
  destruct (countAll_from_empty TransactionItemDetail.itemName
              TransactionItemDetail.quantityInput _ Hp)
    as (counts & Hc & Hdom & Hval).
  unfold topItemsData. rewrite Hc.
  set (bar := fun entry : string * Q => let '(name, qty) := entry in _).
  set (all := map bar (entriesOf counts)).
  assert (Hsort : JS.sort (fun a b => Bar.quantity b - Bar.quantity a) all
                  = JS.sort (JS.by_key (fun b => - Bar.quantity b)) all).
  { apply sort_ext. intros a b. unfold JS.by_key. ring. }
  rewrite Hsort.
  assert (HP := sort_perm (fun b => - Bar.quantity b) all).
  eexists. split; [reflexivity|].
  split; [rewrite length_take; lia|].
  split.
  { apply StronglySorted_take.
    apply (StronglySorted_weaken _ _ _
             (sort_sorted (fun b => - Bar.quantity b) all)).
    cbn. intros a b Hab. lra. }
  split.
  { intros b Hb. apply list_elem_of_In in Hb.
    apply (subseteq_take 5) in Hb. apply list_elem_of_In in Hb.
    apply (Permutation_in _ HP) in Hb.
    apply in_map_iff in Hb as ([name qty] & <- & Hin).
    apply list_elem_of_In in Hin. rewrite (Hentries counts) in Hin.
    apply elem_of_map_to_list in Hin.
    exists name. cbn. split; [reflexivity|].
    split; [now apply Hval|].
    split; [apply Hdom; eauto|].
    intros item.
    destruct (JS.find _ items) as [i|] eqn:E1.
    - intros [= <-]. now apply find_some in E1.
    - destruct (nameToIdMap _ !! name) as [id|]; [|discriminate].
      intros E2. now apply find_some in E2. }
  split.
  - intros Hnil.
    destruct (outboundLines transactions) as [|line rest] eqn:El; [reflexivity|].
    exfalso.
    destruct (proj2 (Hdom (TransactionItemDetail.itemName line))) as [v Hv].
    { exists line. split; [now left | reflexivity]. }
    apply elem_of_map_to_list in Hv. rewrite <- (Hentries counts) in Hv.
    apply list_elem_of_In in Hv.
    apply (in_map bar) in Hv. fold all in Hv.
    apply (Permutation_in _ (Permutation_sym HP)) in Hv.
    revert Hnil Hv.
    generalize (JS.sort (JS.by_key (fun b => - Bar.quantity b)) all).
    intros [|b l] Hnil Hv; [destruct Hv | discriminate Hnil].
  - intros Hnil. rewrite Hnil in Hdom.
    assert (Hempty : entriesOf counts = []).
    { destruct (entriesOf counts) as [|[name qty] l] eqn:E; [reflexivity|].
      assert (Hin : (name, qty) ∈ map_to_list counts).
      { rewrite <- (Hentries counts), E. now left. }
      apply elem_of_map_to_list in Hin.
      destruct (proj1 (Hdom name)) as (x & [] & _). eauto. }
    subst all. now rewrite Hempty.
Qed.

(** On the sample ledger the chart has one bar, the 8 boxes of the sale; the
    delivery of 50 pieces does not count. *)
Lemma top_items_chart_witness :
  exists bars,
    topItemsData map_to_list (fun name => name) Samples.shelf Samples.ledger
    = Some bars
    /\ Bar.name <$> bars = ["Widget"]
    /\ Bar.quantity <$> bars = [8]
    /\ (length bars <= 5)%nat.
Proof.
  destruct (top_items_chart map_to_list (fun name => name) Samples.shelf
              Samples.ledger) as (bars & H1 & H2 & _).
  - intros counts. reflexivity.
  - repeat (constructor; [refine (bool_decide_unpack _ _); vm_compute; exact I|]).
    constructor.
  - exists bars. split; [exact H1|].
    vm_compute in H1. injection H1 as <-.
    split; [reflexivity|]. split; [reflexivity | exact H2].
Defined.

End DashboardCharts.

(** ** InventoryTable: the alert flag and the item modal *)
Section InventoryTableFacts.
Import InventoryTable.

Implicit Types (s : State) (row : Row.t).

Lemma isAlertItem_isLowStock (i : InventoryItem.t) :
  isAlertItem i = Dashboard.isLowStock i.
Proof.
  unfold isAlertItem, Dashboard.isLowStock. f_equal.
  unfold JS.gt. f_equal. apply Qleb_comp; [apply or_else_zero | reflexivity].
Qed.

(** X14. The table and the dashboard agree on what a low-stock item is: the
    items of the dashboard's low-stock list are exactly the items that the
    table marks with the alert. *)
Theorem table_alert_matches_dashboard (h : Dashboard.store) items xs r h' res :
  h !! items = Some xs ->
  Dashboard.lowStockItems items h = Some (r, h') ->
  h' !! r = Some res ->
  forall i, In i res <-> In i xs /\ isAlertItem i = true.
Proof.
  intros H Hl Hres i.
  rewrite (lowStockItems_eval _ _ _ H) in Hl. injection Hl as <- <-.
  rewrite lookup_insert_eq in Hres. injection Hres as <-.
  rewrite isAlertItem_isLowStock, <- filter_In.
  assert (HP := sort_perm Dashboard.level (List.filter Dashboard.isLowStock xs)).
  split; intros Hi.
  - now apply (Permutation_in _ HP).
  - now apply (Permutation_in _ (Permutation_sym HP)).
Qed.

Lemma table_alert_matches_dashboard_witness :
  isAlertItem (Samples.widget 4) = true /\ isAlertItem Samples.nut = false.
Proof.
  split.
  - refine (proj2 (proj1 (table_alert_matches_dashboard
                            {[ 1%positive := Samples.shelf ]} 1%positive Samples.shelf
                            (fresh (dom ({[ 1%positive := Samples.shelf ]}
                                         : Dashboard.store)))
                            (<[fresh (dom ({[ 1%positive := Samples.shelf ]}
                                           : Dashboard.store)) :=
                                 [Samples.widget 4; Samples.bolt]]>
                               {[ 1%positive := Samples.shelf ]})
                            [Samples.widget 4; Samples.bolt]
                            _ _ _ (Samples.widget 4)) _)).
    + reflexivity.
    + reflexivity.
    + apply lookup_insert_eq.
    + now left.
  - reflexivity.
Defined.

Lemma str_or_nonempty x d : d <> "" -> str_or x d <> "".
Proof.
  intros Hd. unfold str_or, JS.str_eq. destruct x as [v|]; [|exact Hd].
  destruct (bool_decide_reflect (v = "")); assumption.
Qed.

(** X15. Saving the item modal.  A user who is neither admin nor staff
    changes nothing and reaches no callback.  Otherwise exactly one callback
    is invoked and the modal closes: [onUpdateItem] with the id of the item
    being edited, or [onAddItem] with the generated id when the modal was
    opened for a new item.  The saved item always has a base unit and a
    category (["Pcs"] and ["General"] when left blank), an absent quantity,
    minimum level or price is saved as 0, and the alternative units keep
    their names, order and ratios. *)
Theorem item_modal_submit userRole newId now s :
  (canEdit userRole = false -> handleSubmit userRole newId now s = (s, []))
  /\ (canEdit userRole = true ->
      exists saved,
        snd (handleSubmit userRole newId now s)
        = [match editingItem s with
           | Some _ => onUpdateItem saved
           | None => onAddItem saved
           end]
        /\ isModalOpen (fst (handleSubmit userRole newId now s)) = false
        /\ InventoryItem.id (Row.item saved)
           = match editingItem s with
             | Some editing => InventoryItem.id (Row.item editing)
             | None => newId
             end
        /\ InventoryItem.baseUnit (Row.item saved) <> ""
        /\ InventoryItem.category (Row.item saved) <> ""
        /\ InventoryItem.quantity (Row.item saved)
           = default 0 (FormData.quantity (formData s))
        /\ InventoryItem.minLevel (Row.item saved)
           = default 0 (FormData.minLevel (formData s))
        /\ InventoryItem.unitPrice (Row.item saved)
           = default 0 (FormData.unitPrice (formData s))
        /\ Row.lastUpdated saved = now
        /\ exists units,
             InventoryItem.alternativeUnits (Row.item saved) = Some units
             /\ map UnitDefinition.name units
                = map UnitDefinition.name (alternativeUnits s)
             /\ Forall2 Qeq (map UnitDefinition.ratio units)
                  (map UnitDefinition.ratio (alternativeUnits s))).
Proof.
  unfold handleSubmit. split; intros ->; cbn [negb]; [reflexivity|].
  eexists. split; [reflexivity|]. cbn.
  split; [reflexivity|]. split; [reflexivity|].
  split; [now apply str_or_nonempty|]. split; [now apply str_or_nonempty|].
  do 4 (split; [reflexivity|]).
  eexists. split; [reflexivity|].
  induction (alternativeUnits s) as [|u l [IH1 IH2]]; cbn [map].
  - split; [reflexivity | constructor].
  - split; [now rewrite IH1|]. constructor; [apply or_else_zero | exact IH2].
Qed.

Lemma item_modal_submit_witness :
  handleSubmit "viewer" "n1" "2026-11-03T09:00:00.000Z"
    (fst (handleOpenModal None (mkState false None blankForm [])))
  = (fst (handleOpenModal None (mkState false None blankForm [])), [])
  /\ exists saved,
       snd (handleSubmit "staff" "n1" "2026-11-03T09:00:00.000Z"
              (fst (handleOpenModal None (mkState false None blankForm []))))
       = [onAddItem saved]
       /\ InventoryItem.id (Row.item saved) = "n1"
       /\ InventoryItem.category (Row.item saved) = "General".
Proof.
  split.
  - exact (proj1 (item_modal_submit "viewer" "n1" "2026-11-03T09:00:00.000Z" _)
             eq_refl).
  - destruct (proj2 (item_modal_submit "staff" "n1" "2026-11-03T09:00:00.000Z"
                       (fst (handleOpenModal None (mkState false None blankForm []))))
                eq_refl) as (saved & H1 & _ & H3 & _).
    exists saved. split; [exact H1|]. split; [exact H3|].
    cbn in H1. injection H1 as <-. reflexivity.
Defined.

(** X16. Opening an item in the modal and saving it untouched sends the
    parent an update for the same id that keeps the item's name, SKU,
    quantity, minimum level, price and location, so the item's stock and its
    low-stock status are what they were; the category, base unit and status
    are kept unless they were empty. *)
Theorem item_modal_round_trip userRole newId now row s :
  canEdit userRole = true ->
  exists saved,
    snd (handleSubmit userRole newId now (fst (handleOpenModal (Some row) s)))
    = [onUpdateItem saved]
    /\ InventoryItem.id (Row.item saved) = InventoryItem.id (Row.item row)
    /\ InventoryItem.name (Row.item saved) = InventoryItem.name (Row.item row)
    /\ InventoryItem.sku (Row.item saved) = InventoryItem.sku (Row.item row)
    /\ InventoryItem.quantity (Row.item saved)
       = InventoryItem.quantity (Row.item row)
    /\ InventoryItem.minLevel (Row.item saved)
       = InventoryItem.minLevel (Row.item row)
    /\ InventoryItem.unitPrice (Row.item saved)
       = InventoryItem.unitPrice (Row.item row)
    /\ Row.location saved = Row.location row
    /\ Dashboard.isLowStock (Row.item saved) = Dashboard.isLowStock (Row.item row)
    /\ (InventoryItem.category (Row.item row) <> "" ->
        InventoryItem.category (Row.item saved)
        = InventoryItem.category (Row.item row))
    /\ (InventoryItem.baseUnit (Row.item row) <> "" ->
        InventoryItem.baseUnit (Row.item saved)
        = InventoryItem.baseUnit (Row.item row))
    /\ (Row.status row <> "" -> Row.status saved = Row.status row).
Proof.
  intros Hrole. unfold handleSubmit, handleOpenModal. cbn [fst]. rewrite Hrole.
  cbn [negb]. eexists. split; [reflexivity|]. cbn -[str_or].
  assert (Hsame : forall v, str_or (Some v) "" = v).
  { intros v. unfold str_or, JS.str_eq.
    destruct (bool_decide_reflect (v = "")) as [-> | _]; reflexivity. }
  assert (Hkeep : forall v d, v <> "" -> str_or (Some v) d = v).
  { intros v d Hv. unfold str_or, JS.str_eq.
    now rewrite bool_decide_eq_false_2. }
  rewrite !Hsame. repeat split; auto.
Qed.

Lemma item_modal_round_trip_witness :
  exists saved,
    snd (handleSubmit "admin" "n1" "2026-11-03T09:00:00.000Z"
           (fst (handleOpenModal
                   (Some (Row.mk (Samples.widget 4) "A-01" "2026-11-01" "active"))
                   (mkState false None blankForm []))))
    = [onUpdateItem saved]
    /\ InventoryItem.quantity (Row.item saved) = 4
    /\ InventoryItem.category (Row.item saved) = "Parts".
Proof.
  destruct (item_modal_round_trip "admin" "n1" "2026-11-03T09:00:00.000Z"
              (Row.mk (Samples.widget 4) "A-01" "2026-11-01" "active")
              (mkState false None blankForm []) eq_refl)
    as (saved & H1 & _ & _ & _ & H5 & _ & _ & _ & _ & H10 & _).
  exists saved. split; [exact H1|]. split; [exact H5|].
  apply H10. discriminate.
Defined.

Lemma mapM_toUnit_ofUnit (units : list UnitDefinition.t) :
  mapM Slot.toUnit (Slot.ofUnit <$> units) = Some units.
Proof.
  apply mapM_Some. induction units as [|[name ratio] units IH]; constructor;
    [reflexivity | exact IH].
Qed.

Lemma mapM_toUnit_partial (before : list Slot.t) slot :
  Slot.toUnit slot = None -> mapM Slot.toUnit (before ++ [slot]) = None.
Proof.
  intros H. apply mapM_None. apply Exists_app. right. now constructor.
Qed.

(** X17. The alternative-unit editor of the item modal.  "Add Unit" appends
    a blank unit (no name, ratio 0) and removing that last row gives the
    list back; removing a row deletes that row only.  Changing a field of a
    displayed row keeps the number of rows and every other row, and leaves
    the other field of the row alone.  With an index at or past the end,
    which the form never passes, nothing is thrown: the array grows to
    [idx + 1] elements, the units followed by holes and by an object that
    has the one property only. *)
Theorem alt_unit_editor idx field s :
  alternativeUnits (fst (addAltUnit s))
  = alternativeUnits s ++ [UnitDefinition.mk "" 0]
  /\ alternativeUnits
       (fst (removeAltUnit (length (alternativeUnits s)) (fst (addAltUnit s))))
     = alternativeUnits s
  /\ alternativeUnits (fst (removeAltUnit idx s))
     = take idx (alternativeUnits s) ++ drop (S idx) (alternativeUnits s)
  /\ (forall u,
        alternativeUnits s !! idx = Some u ->
        exists s',
          updateAltUnit idx field s = inl s'
          /\ alternativeUnits s'
             = <[idx := match field with
                        | name_is val => UnitDefinition.mk val (UnitDefinition.ratio u)
                        | ratio_is val => UnitDefinition.mk (UnitDefinition.name u) val
                        end]> (alternativeUnits s)
          /\ length (alternativeUnits s') = length (alternativeUnits s)
          /\ (forall j, j <> idx ->
                        alternativeUnits s' !! j = alternativeUnits s !! j)
          /\ formData s' = formData s
          /\ editingItem s' = editingItem s
          /\ isModalOpen s' = isModalOpen s)
  /\ ((length (alternativeUnits s) <= idx)%nat ->
      updateAltUnit idx field s
      = inr ((Slot.ofUnit <$> alternativeUnits s)
             ++ replicate (idx - length (alternativeUnits s)) Slot.hole
             ++ [match field with
                 | name_is val => Slot.object (Some val) None
                 | ratio_is val => Slot.object None (Some val)
                 end])
      /\ length (updatedUnits idx field s) = S idx).
Proof.
  split; [reflexivity|].
  split.
  { unfold removeAltUnit, addAltUnit. cbn [fst alternativeUnits].
    rewrite filteri_drop_index, take_app_length.
    rewrite drop_app_ge by lia.
    replace (S (length (alternativeUnits s)) - length (alternativeUnits s))%nat
      with 1%nat by lia.
    cbn. apply app_nil_r. }
  split; [unfold removeAltUnit; cbn [fst alternativeUnits];
          apply filteri_drop_index|].
  split.
  - intros u Hu. pose proof (lookup_lt_Some _ _ _ Hu) as Hlt.
    assert (Hup : updatedUnits idx field s
                  = Slot.ofUnit
                    <$> <[idx := match field with
                                 | name_is val =>
                                     UnitDefinition.mk val (UnitDefinition.ratio u)
                                 | ratio_is val =>
                                     UnitDefinition.mk (UnitDefinition.name u) val
                                 end]> (alternativeUnits s)).
    { unfold updatedUnits, array_set. rewrite length_fmap.
      apply Nat.ltb_lt in Hlt. rewrite Hlt.
      rewrite list_lookup_fmap, Hu, list_fmap_insert. cbn.
      now destruct field. }
    unfold updateAltUnit. rewrite Hup, mapM_toUnit_ofUnit.
    eexists. split; [reflexivity|]. cbn.
    split; [reflexivity|]. split; [apply length_insert|].
    split; [intros j Hj; now apply list_lookup_insert_ne|]. auto.
  - intros Hge.
    assert (Hup : updatedUnits idx field s
                  = (Slot.ofUnit <$> alternativeUnits s)
                    ++ replicate (idx - length (alternativeUnits s)) Slot.hole
                    ++ [match field with
                        | name_is val => Slot.object (Some val) None
                        | ratio_is val => Slot.object None (Some val)
                        end]).
    { unfold updatedUnits, array_set. rewrite length_fmap.
      apply Nat.ltb_ge in Hge. rewrite Hge.
      rewrite list_lookup_fmap.
      rewrite (proj2 (lookup_ge_None _ _)) by (now apply Nat.ltb_ge).
      cbn. now destruct field. }
    split.
    + unfold updateAltUnit. rewrite Hup, app_assoc, mapM_toUnit_partial;
        [now rewrite <- app_assoc | now destruct field].
    + rewrite Hup, !length_app, length_fmap, length_replicate. cbn. lia.
Qed.

(** Changing the ratio of the only row, and the same call one row further. *)
Lemma alt_unit_editor_witness :
  (exists s',
     updateAltUnit 0 (ratio_is 24) (mkState true None blankForm [Samples.box])
     = inl s'
     /\ alternativeUnits s' = [UnitDefinition.mk "Box" 24])
  /\ updateAltUnit 2 (ratio_is 24) (mkState true None blankForm [Samples.box])
     = inr [Slot.object (Some "Box") (Some 12); Slot.hole;
            Slot.object None (Some 24)].
Proof.
  destruct (alt_unit_editor 0 (ratio_is 24)
              (mkState true None blankForm [Samples.box]))
    as (_ & _ & _ & Hin & _).
  destruct (alt_unit_editor 2 (ratio_is 24)
              (mkState true None blankForm [Samples.box]))
    as (_ & _ & _ & _ & Hout).
  destruct (Hin Samples.box eq_refl) as (s' & Hs' & Hunits & _).
  split; [exists s'; split; [exact Hs' | exact Hunits]|].
  refine (proj1 (Hout _)). cbn. lia.
Defined.

(** X18. An alternative unit saved with ratio 0 -- the state in which "Add
    Unit" leaves a new row -- does not convert at 0 in the transaction form:
    provided it is the first unit of its name and not the base unit,
    selecting it gives the conversion ratio 1. *)
Theorem zero_ratio_unit_converts_at_one userRole newId now s before u after :
  canEdit userRole = true ->
  alternativeUnits s = before ++ u :: after ->
  UnitDefinition.ratio u == 0 ->
  (forall v, In v before -> UnitDefinition.name v <> UnitDefinition.name u) ->
  UnitDefinition.name u
  <> str_or (FormData.baseUnit (formData s)) "Pcs" ->
  exists saved,
    snd (handleSubmit userRole newId now s)
    = [match editingItem s with
       | Some _ => onUpdateItem saved
       | None => onAddItem saved
       end]
    /\ TransactionManager.findAlt (Row.item saved) (UnitDefinition.name u)
       = Some (UnitDefinition.mk (UnitDefinition.name u) 0)
    /\ TransactionManager.resolve (Row.item saved) (UnitDefinition.name u) = 1.
Proof.
  intros Hrole Hunits Hzero Hfirst Hbase.
  unfold handleSubmit. rewrite Hrole. cbn [negb].
  eexists. split; [reflexivity|].
  assert (Hnorm : normalizeUnit u = UnitDefinition.mk (UnitDefinition.name u) 0).
  { unfold normalizeUnit, JS.or_else.
    apply truthy_false_iff in Hzero. now rewrite Hzero. }
  assert (Hfind :
    TransactionManager.findAlt
      (Row.item
         (Row.mk
            (InventoryItem.mk
               match editingItem s with
               | Some editing => InventoryItem.id (Row.item editing)
               | None => newId
               end
               (str_or (FormData.sku (formData s)) "")
               (str_or (FormData.name (formData s)) "")
               (str_or (FormData.category (formData s)) "General")
               (num_or_zero (FormData.quantity (formData s)))
               (str_or (FormData.baseUnit (formData s)) "Pcs")
               (Some (map normalizeUnit (alternativeUnits s)))
               (num_or_zero (FormData.minLevel (formData s)))
               (num_or_zero (FormData.unitPrice (formData s))))
            (str_or (FormData.location (formData s)) "") now
            (str_or (FormData.status (formData s)) "active")))
      (UnitDefinition.name u)
    = Some (UnitDefinition.mk (UnitDefinition.name u) 0)).
  { rewrite <- Hnorm.
    apply (findAlt_first _ _ (map normalizeUnit before) (normalizeUnit u)
             (map normalizeUnit after)).
    - cbn. now rewrite Hunits, map_app.
    - reflexivity.
    - intros v (w & <- & Hw)%in_map_iff. cbn. now apply Hfirst. }
  split; [exact Hfind|].
  unfold TransactionManager.resolve, JS.str_eq.
  rewrite bool_decide_eq_false_2 by exact Hbase.
  now rewrite Hfind.
Qed.

(** A new item saved right after "Add Unit": the blank unit converts at 1. *)
Lemma zero_ratio_unit_converts_at_one_witness :
  exists saved,
    snd (handleSubmit "admin" "n1" "2026-11-03T09:00:00.000Z"
           (fst (addAltUnit (fst (handleOpenModal None
                                    (mkState false None blankForm []))))))
    = [onAddItem saved]
    /\ TransactionManager.resolve (Row.item saved) "" = 1.
Proof.
  assert (Hz : UnitDefinition.ratio (UnitDefinition.mk "" 0) == 0) by reflexivity.
  destruct (zero_ratio_unit_converts_at_one "admin" "n1" "2026-11-03T09:00:00.000Z"
              (fst (addAltUnit (fst (handleOpenModal None
                                       (mkState false None blankForm [])))))
              [] (UnitDefinition.mk "" 0) [] eq_refl eq_refl Hz)
    as (saved & H1 & _ & H3).
  - intros v [].
  - discriminate.
  - exists saved. split; [exact H1 | exact H3].
Defined.

End InventoryTableFacts.

(** ** LoginPage: the outcomes of a login attempt *)
Section LoginPageFacts.
Import LoginPage.

Context {User : Type}.
Variables (trim toLowerCase : string -> string).
Variables (userName : User -> string) (userPassword : User -> option string).
Variable verifyPassword : string -> string -> bool.

Local Abbreviation login server :=
  (handleLogin trim toLowerCase userName userPassword server verifyPassword).

(** The local fallback of [handleLogin]: what happens once the server has
    not accepted the credentials. *)
Lemma handleLogin_fallback server users vpsApiUrl s :
  trim (username s) <> "" -> trim (password s) <> "" ->
  accepted (server (serverUrl vpsApiUrl) (trim (username s)) (trim (password s)))
  = None ->
  exists before,
    logins before = []
    /\ login server users vpsApiUrl s
       = match
           JS.find
             (fun u => JS.str_eq (toLowerCase (userName u))
                         (toLowerCase (trim (username s)))) users
         with
         | Some foundUser =>
             if verifyPassword (trim (password s))
                  (default "" (userPassword foundUser))
             then (mkState (username s) (password s) None false,
                   before ++ [onLogin foundUser])
             else (mkState (username s) (password s)
                     (Some "Password salah (Pastikan server aktif)") false, before)
         | None =>
             (mkState (username s) (password s) (Some "User tidak ditemukan.")
                false, before)
         end.
Proof.
  intros Hu Hp Hacc. unfold handleLogin, JS.str_eq.
  rewrite !bool_decide_eq_false_2 by assumption. cbn [orb].
  destruct (server _ _ _) as [|[] [user|] [message|]]; try discriminate Hacc;
    try destruct (negb _ && negb _);
    eexists; (split; [|reflexivity]); reflexivity.
Qed.

(** X19. A login attempt whose username or password is blank once trimmed
    is refused on the spot: the error asks for both fields, the login
    service is not called and nobody is logged in. *)
Theorem blank_credentials_refused server users vpsApiUrl s :
  trim (username s) = "" \/ trim (password s) = "" ->
  handleLogin trim toLowerCase userName userPassword server verifyPassword
    users vpsApiUrl s
  = (mkState (username s) (password s)
       (Some "Username & Password wajib diisi") false, []).
Proof.
  intros H. unfold handleLogin, JS.str_eq.
  destruct H as [-> | ->]; cbn; [reflexivity|].
  now rewrite orb_true_r.
Qed.

(** X20. Who gets logged in.  [onLogin] is invoked at most once, and the
    form shows no error exactly when it was invoked.  The user handed to it
    is the one the server returned with [success], or else a user of the
    local list whose name matches the trimmed username up to case and whose
    stored password the trimmed password verifies against.  The animation
    flag is always off at the end. *)
Theorem login_outcome server users vpsApiUrl s :
  let r := login server users vpsApiUrl s in
  let reply :=
    server (serverUrl vpsApiUrl) (trim (username s)) (trim (password s)) in
  isAnimating (fst r) = false
  /\ (length (logins (snd r)) <= 1)%nat
  /\ (error (fst r) = None <-> logins (snd r) <> [])
  /\ (forall u,
        In u (logins (snd r)) ->
        trim (username s) <> "" /\ trim (password s) <> ""
        /\ (accepted reply = Some u
            \/ (accepted reply = None
                /\ In u users
                /\ toLowerCase (userName u) = toLowerCase (trim (username s))
                /\ verifyPassword (trim (password s))
                     (default "" (userPassword u)) = true))).
Proof.
  intros r reply. subst r.
  assert (Hblank : trim (username s) = "" \/ trim (password s) = "" ->
    isAnimating (fst (login server users vpsApiUrl s)) = false
    /\ (length (logins (snd (login server users vpsApiUrl s))) <= 1)%nat
    /\ (error (fst (login server users vpsApiUrl s)) = None
        <-> logins (snd (login server users vpsApiUrl s)) <> [])
    /\ (forall u, In u (logins (snd (login server users vpsApiUrl s))) -> False)).
  { intros H. rewrite (blank_credentials_refused server users vpsApiUrl s H). cbn.
    split; [reflexivity|]. split; [lia|]. split; [|intros u []].
    split; [discriminate | congruence]. }
  destruct (decide (trim (username s) = "")) as [Hu | Hu].
  { destruct (Hblank (or_introl Hu)) as (H1 & H2 & H3 & H4).
    split; [exact H1|]. split; [exact H2|]. split; [exact H3|].
    intros u Hin. destruct (H4 u Hin). }
  destruct (decide (trim (password s) = "")) as [Hp | Hp].
  { destruct (Hblank (or_intror Hp)) as (H1 & H2 & H3 & H4).
    split; [exact H1|]. split; [exact H2|]. split; [exact H3|].
    intros u Hin. destruct (H4 u Hin). }
  clear Hblank.
  destruct (accepted reply) as [user|] eqn:Hacc.
  - assert (Hr : login server users vpsApiUrl s
                 = (mkState (username s) (password s) None false,
                    [request (serverUrl vpsApiUrl) (trim (username s))
                       (trim (password s)); onLogin user])).
    { unfold handleLogin, JS.str_eq.
      rewrite !bool_decide_eq_false_2 by assumption. cbn [orb].
      subst reply. destruct (server _ _ _) as [|[] [w|] m]; try discriminate Hacc.
      now injection Hacc as ->. }
    rewrite Hr. cbn.
    split; [reflexivity|]. split; [lia|].
    split; [split; [discriminate | reflexivity]|].
    intros u [<- | []]. auto.
  - destruct (handleLogin_fallback server users vpsApiUrl s Hu Hp Hacc)
      as (before & Hb & ->).
    destruct (JS.find _ users) as [found|] eqn:Ef.
    + apply find_some in Ef as [Hin Hname].
      apply bool_decide_eq_true in Hname.
      destruct (verifyPassword _ _) eqn:Ev; cbn [fst snd error isAnimating].
      * unfold logins in *. rewrite omap_app, Hb. cbn.
        split; [reflexivity|]. split; [lia|].
        split; [split; [discriminate | reflexivity]|].
        intros u [<- | []]. split; [exact Hu|]. split; [exact Hp|].
        right. repeat split; assumption.
      * rewrite Hb. cbn.
        split; [reflexivity|]. split; [lia|].
        split; [split; [discriminate | congruence]|]. intros u [].
    + cbn [fst snd error isAnimating]. rewrite Hb. cbn.
      split; [reflexivity|]. split; [lia|].
      split; [split; [discriminate | congruence]|]. intros u [].
Qed.

(** X21. A refusal by the server is never final and its message is never
    shown.  Whatever the server answers short of accepting the credentials
    -- a refusal with any message, a network error, a rejected promise --
    the attempt is decided by the local user list alone: the final state and
    the user logged in are the same for any two such servers, and the error
    displayed, if any, is one of the component's own three messages. *)
Theorem server_refusal_falls_back server1 server2 users vpsApiUrl s :
  accepted (server1 (serverUrl vpsApiUrl) (trim (username s)) (trim (password s)))
  = None ->
  accepted (server2 (serverUrl vpsApiUrl) (trim (username s)) (trim (password s)))
  = None ->
  fst (login server1 users vpsApiUrl s) = fst (login server2 users vpsApiUrl s)
  /\ logins (snd (login server1 users vpsApiUrl s))
     = logins (snd (login server2 users vpsApiUrl s))
  /\ (error (fst (login server1 users vpsApiUrl s)) = None
      \/ error (fst (login server1 users vpsApiUrl s))
         = Some "Username & Password wajib diisi"
      \/ error (fst (login server1 users vpsApiUrl s))
         = Some "Password salah (Pastikan server aktif)"
      \/ error (fst (login server1 users vpsApiUrl s))
         = Some "User tidak ditemukan.").
Proof.
  intros H1 H2.
  destruct (decide (trim (username s) = "")) as [Hu | Hu];
    [rewrite !blank_credentials_refused by (now left); cbn; auto|].
  destruct (decide (trim (password s) = "")) as [Hp | Hp];
    [rewrite !blank_credentials_refused by (now right); cbn; auto|].
  destruct (handleLogin_fallback server1 users vpsApiUrl s Hu Hp H1)
    as (b1 & Hb1 & ->).
  destruct (handleLogin_fallback server2 users vpsApiUrl s Hu Hp H2)
    as (b2 & Hb2 & ->).
  destruct (JS.find _ users) as [found|];
    [destruct (verifyPassword _ _)|]; cbn [fst snd error];
    unfold logins in *; rewrite ?omap_app, ?Hb1, ?Hb2; auto 6.
Qed.

End LoginPageFacts.

Lemma blank_credentials_refused_witness :
  LoginPage.handleLogin (fun x => x) (fun x => x) fst (fun u => Some (snd u))
    Samples.refusing String.eqb Samples.accounts None
    (LoginPage.mkState "admin" "" None false)
  = (LoginPage.mkState "admin" "" (Some "Username & Password wajib diisi") false,
     []).
Proof.
  apply (blank_credentials_refused (fun x => x) (fun x => x) fst
           (fun u => Some (snd u)) String.eqb Samples.refusing Samples.accounts
           None (LoginPage.mkState "admin" "" None false)).
  now right.
Defined.

(** The server refuses, or cannot be reached: "budi" is logged in from the
    local list either way. *)
Lemma server_refusal_falls_back_witness :
  LoginPage.logins
    (snd (LoginPage.handleLogin (fun x => x) (fun x => x) fst
            (fun u => Some (snd u)) Samples.refusing String.eqb Samples.accounts
            None (LoginPage.mkState "budi" "gudang" None false)))
  = LoginPage.logins
      (snd (LoginPage.handleLogin (fun x => x) (fun x => x) fst
              (fun u => Some (snd u)) (fun _ _ _ => LoginPage.rejected) String.eqb
              Samples.accounts None
              (LoginPage.mkState "budi" "gudang" None false))).
Proof.
  exact (proj1 (proj2 (server_refusal_falls_back (fun x => x) (fun x => x) fst
                         (fun u => Some (snd u)) String.eqb Samples.refusing
                         (fun _ _ _ => LoginPage.rejected) Samples.accounts None
                         (LoginPage.mkState "budi" "gudang" None false)
                         eq_refl eq_refl))).
Defined.

(** ** Searching and listing items *)
Section SearchFacts.

Variables (toLowerCase trim : string -> string).

Lemma includes_empty s : JSString.includes s "" = true.
Proof. unfold JSString.includes. now destruct s. Qed.

Section TransactionSearch.
Import TransactionManager.

Variable splitWhitespace : string -> list string.
Variable engineSort :
  (InventoryItem.t -> InventoryItem.t -> Z) -> list InventoryItem.t
  -> list InventoryItem.t.
Hypothesis engineSort_perm : forall cmp l, Permutation (engineSort cmp l) l.

(** X23. The item search of the transaction form.  An empty query gives no
    result.  Otherwise there are at most ten results, each an item of the
    inventory whose name, SKU and category (joined, in lower case) contain
    every token of the query; when at most ten items match they are all
    listed, each as often as it occurs in the inventory.  Hence whatever
    Enter selects from the list is an inventory item that matches the
    query. *)
Theorem search_results_match debouncedSearchQuery inventory :
  let results :=
    filteredInventory toLowerCase trim splitWhitespace engineSort
      debouncedSearchQuery inventory in
  let tokens := searchTokens toLowerCase trim splitWhitespace debouncedSearchQuery in
  let matching := List.filter (matchesAll toLowerCase tokens) inventory in
  (length results <= 10)%nat
  /\ (debouncedSearchQuery = "" -> results = [])
  /\ (forall item,
        In item results ->
        In item inventory
        /\ forall token,
             In token tokens ->
             JSString.includes (searchString toLowerCase item) token = true)
  /\ (debouncedSearchQuery <> "" -> (length matching <= 10)%nat ->
      Permutation results matching)
  /\ (forall s r item,
        handleSearchKeyDown "Enter" results s = Some r ->
        selectedItem (fst r) = Some item ->
        results <> [] ->
        In item inventory
        /\ matchesAll toLowerCase tokens item = true).
Proof.
  intros results tokens matching.
  assert (Hsub : forall item, In item results -> In item matching).
  { intros item. subst results. unfold filteredInventory, JS.str_eq.
    destruct (bool_decide (debouncedSearchQuery = "")); [intros []|].
    intros Hin. apply list_elem_of_In in Hin.
    apply (subseteq_take 10) in Hin. apply list_elem_of_In in Hin.
    now apply (Permutation_in _ (engineSort_perm _ _)) in Hin. }
  split.
  { subst results. unfold filteredInventory.
    destruct (JS.str_eq _ _); [cbn; lia | rewrite length_take; lia]. }
  split.
  { intros ->. reflexivity. }
  split.
  { intros item Hin. apply Hsub in Hin. apply filter_In in Hin as [Hin Hm].
    split; [exact Hin|]. unfold matchesAll in Hm.
    rewrite forallb_forall in Hm. exact Hm. }
  split.
  { intros Hq Hlen. subst results. unfold filteredInventory, JS.str_eq.
    rewrite bool_decide_eq_false_2 by exact Hq.
    rewrite take_ge; [apply engineSort_perm|].
    now rewrite (Permutation_length (engineSort_perm _ _)). }
  intros s r item Hr Hsel Hne.
  assert (Hin : In item results).
  { revert Hr. unfold handleSearchKeyDown. rewrite str_eq_refl. cbn [andb].
    destruct (Z.ltb_spec 0 (Z.of_nat (length results))) as [_ | Hlen].
    - destruct (results !! _) as [it|] eqn:El; [|discriminate].
      intros [= <-]. cbn in Hsel. injection Hsel as <-.
      apply list_elem_of_In. now apply list_elem_of_lookup_2 in El.
    - destruct results; [now destruct Hne | cbn in Hlen; lia]. }
  apply Hsub in Hin. now apply filter_In in Hin.
Qed.

End TransactionSearch.

Section TableListing.
Import InventoryTable.

Variable sortStrings : list string -> list string.
Hypothesis sortStrings_perm : forall l, Permutation (sortStrings l) l.
Hypothesis toLowerCase_empty : toLowerCase "" = "".

(** X24. The item table's filter.  The rows shown are rows of the inventory
    in their original order; with a category selected, every row shown is of
    that category; and with the filter on "All" and an empty search term
    every row is shown. *)
Theorem table_filter term categoryFilter (items : list Row.t) :
  sublist (filteredItems toLowerCase term categoryFilter items) items
  /\ (categoryFilter <> "All" ->
      forall row,
        In row (filteredItems toLowerCase term categoryFilter items) ->
        InventoryItem.category (Row.item row) = categoryFilter)
  /\ filteredItems toLowerCase "" "All" items = items
  /\ filteredItems toLowerCase term categoryFilter
       (filteredItems toLowerCase term categoryFilter items)
     = filteredItems toLowerCase term categoryFilter items.
Proof.
  unfold filteredItems. split.
  { induction items as [|row rows IH]; cbn [List.filter]; [constructor|].
    destruct (_ && _); now constructor. }
  split.
  { intros Hc row [_ Hm]%filter_In.
    apply andb_true_iff in Hm as [_ Hm]. unfold JS.str_eq in Hm.
    rewrite (bool_decide_eq_false_2 _ Hc) in Hm.
    now apply bool_decide_eq_true in Hm. }
  split.
  { induction items as [|row rows IH]; cbn [List.filter]; [reflexivity|].
    rewrite IH, toLowerCase_empty, includes_empty. reflexivity. }
  induction items as [|row rows IH]; cbn [List.filter]; [reflexivity|].
  destruct (_ && _) eqn:E; [|exact IH].
  cbn [List.filter]. rewrite E. now rewrite IH.
Qed.

Lemma distinct_spec (cats : list string) :
  NoDup (distinct cats) /\ forall c, c ∈ distinct cats <-> c ∈ cats.
Proof.
  induction cats as [|c rest [IHnd IHin]]; cbn [distinct].
  - split; [constructor | reflexivity].
  - assert (Hf : forall d,
              In d (List.filter (fun d => negb (JS.str_eq d c)) (distinct rest))
              <-> d ∈ rest /\ d <> c).
    { intros d. rewrite filter_In, <- list_elem_of_In, IHin.
      unfold JS.str_eq. rewrite negb_true_iff, bool_decide_eq_false. tauto. }
    split.
    + constructor.
      * rewrite list_elem_of_In, Hf. tauto.
      * apply NoDup_ListNoDup, List.NoDup_filter, NoDup_ListNoDup, IHnd.
    + intros d. rewrite !elem_of_cons, list_elem_of_In, Hf.
      destruct (decide (d = c)); tauto.
Qed.

(** X25. The category choices offered by the table list every category of
    the inventory that is not blank, and each of them once. *)
Theorem category_choices (items : list Row.t) :
  NoDup (dynamicCategories trim sortStrings items)
  /\ forall c,
       c ∈ dynamicCategories trim sortStrings items
       <-> c <> "" /\ trim c <> ""
           /\ exists row, In row items /\ InventoryItem.category (Row.item row) = c.
Proof.
  unfold dynamicCategories.
  destruct (distinct_spec
              (List.filter
                 (fun c => negb (JS.str_eq c "") && negb (JS.str_eq (trim c) ""))
                 (map (fun row => InventoryItem.category (Row.item row)) items)))
    as [Hnd Hin].
  split; [now rewrite sortStrings_perm|].
  intros c. rewrite sortStrings_perm, Hin, list_elem_of_In, filter_In, in_map_iff.
  unfold JS.str_eq.
  rewrite andb_true_iff, !negb_true_iff, !bool_decide_eq_false.
  split.
  - intros [(row & <- & Hrow) [H1 H2]]. eauto.
  - intros (H1 & H2 & row & Hrow & <-). eauto.
Qed.

End TableListing.

End SearchFacts.

(** With case-preserving stand-ins for the string methods: the query
    "Widget" finds the two widget rows of the sample shelf. *)
Lemma search_results_match_witness :
  (length
     (TransactionManager.filteredInventory (fun s => s) (fun s => s)
        (fun s => [s]) (fun _ l => l) "Widget" Samples.shelf) <= 10)%nat
  /\ Permutation
       (TransactionManager.filteredInventory (fun s => s) (fun s => s)
          (fun s => [s]) (fun _ l => l) "Widget" Samples.shelf)
       [Samples.widget 4; Samples.widget 100].
Proof.
  destruct (search_results_match (fun s => s) (fun s => s) (fun s => [s])
              (fun _ l => l) (fun _ l => Permutation_refl l) "Widget" Samples.shelf)
    as (H1 & _ & _ & H4 & _).
  split; [exact H1|].
  apply H4; [discriminate | vm_compute; lia].
Defined.

Lemma table_filter_witness :
  InventoryTable.filteredItems (fun s => s) "" "All"
    [InventoryTable.Row.mk (Samples.widget 4) "A-01" "2026-11-01" "active";
     InventoryTable.Row.mk Samples.nut "B-02" "2026-11-01" "inactive"]
  = [InventoryTable.Row.mk (Samples.widget 4) "A-01" "2026-11-01" "active";
     InventoryTable.Row.mk Samples.nut "B-02" "2026-11-01" "inactive"].
Proof.
  exact (proj1 (proj2 (proj2 (table_filter (fun s => s) eq_refl "" "All" _)))).
Defined.

Lemma category_choices_witness :
  NoDup
    (InventoryTable.dynamicCategories (fun s => s) (fun l => l)
       [InventoryTable.Row.mk (Samples.widget 4) "A-01" "2026-11-01" "active";
        InventoryTable.Row.mk Samples.nut "B-02" "2026-11-01" "inactive"])
  /\ InventoryTable.dynamicCategories (fun s => s) (fun l => l)
       [InventoryTable.Row.mk (Samples.widget 4) "A-01" "2026-11-01" "active";
        InventoryTable.Row.mk Samples.nut "B-02" "2026-11-01" "inactive"]
     = ["Parts"].
Proof.
  split; [|reflexivity].
  exact (proj1 (category_choices (fun s => s) (fun l => l)
                  (fun l => Permutation_refl l) _)).
Defined.

(** * Properties in double precision *)

(** ** Rounding, quotients and differences *)
Section Binary64Arithmetic.
Import Binary64.
Local Open Scope Z_scope.




Lemma fexp64_eq e : fexp Number.prec Number.emax e = Z.max (e - 53) (-1074).
Proof. reflexivity. Qed.

Lemma digits2_pos_bounds m :
  2 ^ (Zpos (digits2_pos m) - 1) <= Zpos m < 2 ^ Zpos (digits2_pos m).
Proof.
  induction m as [m IH | m IH |]; cbn [digits2_pos]; [| |cbn; lia];
    rewrite Pos2Z.inj_succ;
    replace (Z.succ (Zpos (digits2_pos m)) - 1) with (Z.succ (Zpos (digits2_pos m) - 1)) by lia;
    rewrite !Z.pow_succ_r by lia; lia.
Qed.

Lemma shr_1_m r : 0 <= shr_m r -> shr_m (shr_1 r) = shr_m r / 2.
Proof.
  destruct r as [m rb sb]. cbn [shr_m shr_1]. intros Hm.
  rewrite <- Z.div2_div.
  destruct m as [|[p|p|]|p]; try reflexivity; lia.
Qed.

Lemma iter_shr_m p r :
  0 <= shr_m r -> shr_m (SpecFloat.iter_pos shr_1 p r) = shr_m r / 2 ^ Zpos p.
Proof.
  revert r. induction p as [p IH | p IH |]; intros r Hr; cbn [SpecFloat.iter_pos].
  - assert (H1 : 0 <= shr_m (shr_1 r)).
    { rewrite shr_1_m by exact Hr. apply Z.div_pos; lia. }
    assert (H2 : 0 <= shr_m (SpecFloat.iter_pos shr_1 p (shr_1 r))).
    { rewrite IH by exact H1. apply Z.div_pos; [exact H1 | apply Z.pow_pos_nonneg; lia]. }
    rewrite IH by exact H2. rewrite IH by exact H1. rewrite shr_1_m by exact Hr.
    rewrite !Z.div_div by (try apply Z.pow_pos_nonneg; lia).
    f_equal. rewrite (Pos2Z.inj_xI p).
    replace (2 * Zpos p + 1) with (1 + Zpos p + Zpos p) by lia.
    rewrite !Z.pow_add_r by lia. lia.
  - assert (H2 : 0 <= shr_m (SpecFloat.iter_pos shr_1 p r)).
    { rewrite IH by exact Hr. apply Z.div_pos; [exact Hr | apply Z.pow_pos_nonneg; lia]. }
    rewrite IH by exact H2. rewrite IH by exact Hr.
    rewrite !Z.div_div by (try apply Z.pow_pos_nonneg; lia).
    f_equal. rewrite (Pos2Z.inj_xO p).
    replace (2 * Zpos p) with (Zpos p + Zpos p) by lia.
    rewrite !Z.pow_add_r by lia. lia.
  - rewrite shr_1_m by exact Hr. reflexivity.
Qed.

Lemma shr_m_of_loc m l : shr_m (shr_record_of_loc m l) = m.
Proof. destruct l as [|[]]; reflexivity. Qed.

Lemma shr_spec r e n :
  0 <= shr_m r ->
  shr_m (fst (shr r e n)) = shr_m r / 2 ^ Z.max 0 n
  /\ snd (shr r e n) = e + Z.max 0 n.
Proof.
  intros Hr. destruct n as [|p|p]; cbn [shr fst snd].
  - rewrite Z.div_1_r. split; [reflexivity | lia].
  - rewrite iter_shr_m by exact Hr. split; [reflexivity | lia].
  - rewrite Z.div_1_r. split; [reflexivity | lia].
Qed.


Lemma Zdigits2_nonneg m : 0 <= Zdigits2 m.
Proof. destruct m; cbn; lia. Qed.

Lemma Zdigits2_bounds m :
  0 < m -> 2 ^ (Zdigits2 m - 1) <= m < 2 ^ Zdigits2 m /\ 0 < Zdigits2 m.
Proof.
  destruct m as [|p|p]; try lia. intros _. cbn [Zdigits2].
  split; [apply digits2_pos_bounds | lia].
Qed.

Lemma Zdigits2_unique m d : 0 < m -> 2 ^ (d - 1) <= m < 2 ^ d -> Zdigits2 m = d.
Proof.
  intros Hm [Hlo Hhi]. destruct (Zdigits2_bounds m Hm) as [[Dlo Dhi] Dpos].
  destruct (Z.lt_trichotomy (Zdigits2 m) d) as [H | [H | H]]; [|exact H|].
  - assert (2 ^ Zdigits2 m <= 2 ^ (d - 1)) by (apply Z.pow_le_mono_r; lia). lia.
  - assert (2 ^ d <= 2 ^ (Zdigits2 m - 1)) by (apply Z.pow_le_mono_r; lia). lia.
Qed.

Lemma Zdigits2_gt m k : 0 <= k -> 2 ^ k <= m -> k < Zdigits2 m.
Proof.
  intros Hk Hm. assert (0 < m) by (pose proof (Z.pow_pos_nonneg 2 k ltac:(lia) Hk); lia).
  destruct (Zdigits2_bounds m H) as [[_ Dhi] _].
  pose proof (Zdigits2_nonneg m). apply (Z.pow_lt_mono_r_iff 2); lia.
Qed.

Lemma Zdigits2_mono a b : 0 < a <= b -> Zdigits2 a <= Zdigits2 b.
Proof.
  intros [Ha Hab]. destruct (Zdigits2_bounds a Ha) as [[Dlo _] Dpos].
  assert (Zdigits2 a - 1 < Zdigits2 b) by (apply Zdigits2_gt; lia). lia.
Qed.

Lemma Zdigits2_shr m n :
  0 < m -> 0 <= n < Zdigits2 m -> Zdigits2 (m / 2 ^ n) = Zdigits2 m - n.
Proof.
  intros Hm Hn. destruct (Zdigits2_bounds m Hm) as [[Dlo Dhi] Dpos].
  assert (Hp : 0 < 2 ^ n) by (apply Z.pow_pos_nonneg; lia).
  assert (Hlo : 2 ^ (Zdigits2 m - n - 1) <= m / 2 ^ n).
  { apply Z.div_le_lower_bound; [exact Hp|].
    rewrite <- Z.pow_add_r by lia.
    now replace (n + (Zdigits2 m - n - 1)) with (Zdigits2 m - 1) by lia. }
  assert (Hhi : m / 2 ^ n < 2 ^ (Zdigits2 m - n)).
  { apply Z.div_lt_upper_bound; [exact Hp|].
    rewrite <- Z.pow_add_r by lia.
    now replace (n + (Zdigits2 m - n)) with (Zdigits2 m) by lia. }
  apply Zdigits2_unique; [|split; assumption].
  assert (0 < 2 ^ (Zdigits2 m - n - 1)) by (apply Z.pow_pos_nonneg; lia). lia.
Qed.

Lemma shr_small m n : 0 <= m -> Zdigits2 m <= n -> m / 2 ^ n = 0.
Proof.
  intros Hm Hn. destruct (Z.eq_dec m 0) as [-> | Hne]; [reflexivity|].
  - apply Z.div_small. destruct (Zdigits2_bounds m) as [[_ Dhi] Dpos]; [lia|].
    split; [lia|]. eapply Z.lt_le_trans; [exact Dhi|]. apply Z.pow_le_mono_r; lia.
Qed.



Lemma shr_fexp_spec m e l :
  0 <= m ->
  shr_m (fst (shr_fexp Number.prec Number.emax m e l)) = m / 2 ^ Number.shift m e
  /\ snd (shr_fexp Number.prec Number.emax m e l) = e + Number.shift m e.
Proof.
  intros Hm. unfold shr_fexp, Number.shift.
  destruct (shr_spec (shr_record_of_loc m l) e
              (fexp Number.prec Number.emax (Zdigits2 m + e) - e)) as [H1 H2].
  { now rewrite shr_m_of_loc. }
  rewrite shr_m_of_loc in H1. split; assumption.
Qed.

Lemma step_canonical m e :
  0 <= m -> e <= Number.fexp64 (Zdigits2 m + e) ->
  (m / 2 ^ Number.shift m e = 0 /\ e + Number.shift m e = -1074)
  \/ (0 < m / 2 ^ Number.shift m e
      /\ Number.fexp64 (Zdigits2 (m / 2 ^ Number.shift m e) + (e + Number.shift m e)) = e + Number.shift m e).
Proof.
  intros Hm He. unfold Number.shift. set (n := Z.max 0 (Number.fexp64 (Zdigits2 m + e) - e)).
  pose proof (Zdigits2_nonneg m) as Hd.
  destruct (Z_lt_le_dec n (Zdigits2 m)) as [Hlt | Hge].
  - right. assert (0 < m) by (destruct m; cbn in *; lia).
    rewrite Zdigits2_shr by lia.
    split.
    + assert (0 < Zdigits2 (m / 2 ^ n)) by (rewrite Zdigits2_shr; lia).
      destruct (m / 2 ^ n) eqn:E; cbn in *; try lia.
      pose proof (Z.pow_pos_nonneg 2 n ltac:(lia) ltac:(lia)).
      pose proof (Z.div_pos m (2 ^ n) ltac:(lia) ltac:(lia)). lia.
    + unfold Number.fexp64 in *. lia.
  - left. split; [apply shr_small; lia|]. unfold Number.fexp64 in *. lia.
Qed.

Lemma step_positive m e :
  0 < m -> -1074 <= e ->
  0 < m / 2 ^ Number.shift m e /\ -1074 <= e + Number.shift m e.
Proof.
  intros Hm He. unfold Number.shift. set (n := Z.max 0 (Number.fexp64 (Zdigits2 m + e) - e)).
  destruct (Zdigits2_bounds m Hm) as [[Dlo Dhi] Dpos].
  assert (Hn : 0 <= n < Zdigits2 m) by (unfold Number.fexp64 in *; lia).
  split; [|lia].
  assert (0 < Zdigits2 (m / 2 ^ n)) by (rewrite Zdigits2_shr; lia).
  destruct (m / 2 ^ n) eqn:E; cbn in *; try lia.
  pose proof (Z.div_pos m (2 ^ n)). pose proof (Z.pow_pos_nonneg 2 n). lia.
Qed.

Lemma round_nearest_even_cases m l :
  round_nearest_even m l = m \/ round_nearest_even m l = m + 1.
Proof. destruct l as [|[]]; cbn; auto. destruct (Z.even m); auto. Qed.


(** The value [binary_round_aux] returns, in terms of quotients. *)
Lemma binary_round_aux_spec s m e l :
  0 <= m ->
  exists m1,
    (m1 = m / 2 ^ Number.shift m e \/ m1 = m / 2 ^ Number.shift m e + 1)
    /\ binary_round_aux Number.prec Number.emax s m e l
       = match m1 / 2 ^ Number.shift m1 (e + Number.shift m e) with
         | Z0 => S754_zero s
         | Zpos p =>
             if e + Number.shift m e + Number.shift m1 (e + Number.shift m e) <=? 971
             then S754_finite s p (e + Number.shift m e + Number.shift m1 (e + Number.shift m e))
             else S754_infinity s
         | Zneg _ => S754_nan
         end.
Proof.
  intros Hm. unfold binary_round_aux.
  destruct (shr_fexp_spec m e l Hm) as [H1 H2].
  destruct (shr_fexp Number.prec Number.emax m e l) as [mrs' e'].
  cbn [fst snd] in H1, H2. subst e'.
  set (m1 := round_nearest_even (shr_m mrs') (loc_of_shr_record mrs')).
  assert (Hm' : 0 <= m / 2 ^ Number.shift m e).
  { apply Z.div_pos; [exact Hm | apply Z.pow_pos_nonneg; unfold Number.shift; lia]. }
  assert (Hc : m1 = m / 2 ^ Number.shift m e \/ m1 = m / 2 ^ Number.shift m e + 1).
  { rewrite <- H1. apply round_nearest_even_cases. }
  exists m1. split; [exact Hc|].
  destruct (shr_fexp_spec m1 (e + Number.shift m e) loc_Exact) as [H3 H4]; [lia|].
  destruct (shr_fexp Number.prec Number.emax m1 (e + Number.shift m e) loc_Exact)
    as [mrs'' e''].
  cbn [fst snd] in H3, H4. subst e''. rewrite H3. reflexivity.
Qed.

(** Rounding a mantissa that has digits enough gives a binary64 value. *)
Lemma binary_round_aux_valid s m e l :
  0 <= m -> e <= Number.fexp64 (Zdigits2 m + e) ->
  Number.isValue (binary_round_aux Number.prec Number.emax s m e l) = true
  /\ Number.isNaN (binary_round_aux Number.prec Number.emax s m e l) = false.
Proof.
  intros Hm He.
  destruct (binary_round_aux_spec s m e l Hm) as (m1 & Hc & ->).
  assert (He1 : 0 <= m1 /\ e + Number.shift m e <= Number.fexp64 (Zdigits2 m1 + (e + Number.shift m e))).
  { destruct (step_canonical m e Hm He) as [[H0 H1] | [Hpos Hcan]].
    - split; [lia|]. unfold Number.fexp64. lia.
    - split; [lia|]. rewrite <- Hcan at 1.
      assert (Zdigits2 (m / 2 ^ Number.shift m e) <= Zdigits2 m1)
        by (apply Zdigits2_mono; lia).
      unfold Number.fexp64. lia. }
  destruct He1 as [Hm1 He1].
  destruct (step_canonical m1 (e + Number.shift m e) Hm1 He1) as [[H0 H1] | [Hpos Hcan]].
  - rewrite H0. split; reflexivity.
  - destruct (m1 / 2 ^ Number.shift m1 (e + Number.shift m e)) as [|p|p] eqn:E; try lia.
    destruct (_ <=? 971) eqn:Eb; [|split; reflexivity].
    split; [|reflexivity].
    unfold Number.isValue, valid_binary, bounded, canonical_mantissa.
    apply andb_true_iff. split.
    + apply Z.eqb_eq. rewrite fexp64_eq.
      change (Z.pos (digits2_pos p)) with (Zdigits2 (Z.pos p)).
      unfold Number.fexp64 in Hcan. exact Hcan.
    + exact Eb.
Qed.

(** Rounding a positive mantissa at an exponent in range keeps the sign. *)
Lemma binary_round_aux_positive s m e l :
  0 < m -> -1074 <= e ->
  (exists p e2, binary_round_aux Number.prec Number.emax s m e l = S754_finite s p e2)
  \/ binary_round_aux Number.prec Number.emax s m e l = S754_infinity s.
Proof.
  intros Hm He.
  destruct (binary_round_aux_spec s m e l) as (m1 & Hc & ->); [lia|].
  destruct (step_positive m e Hm He) as [H1 H2].
  assert (Hm1 : 0 < m1) by lia.
  destruct (step_positive m1 (e + Number.shift m e) Hm1 H2) as [H3 H4].
  destruct (m1 / 2 ^ Number.shift m1 (e + Number.shift m e)) as [|p|p]; try lia.
  destruct (_ <=? _); eauto.
Qed.

(** The quotient computed by [SFdiv_core_binary] has digits enough. *)
Lemma SFdiv_core_binary_digits mx ex my ey :
  let '(q, e', _) :=
    SFdiv_core_binary Number.prec Number.emax (Zpos mx) ex (Zpos my) ey in
  0 <= q /\ e' <= Number.fexp64 (Zdigits2 q + e').
Proof.
  unfold SFdiv_core_binary. rewrite fexp64_eq.
  set (d1 := Zdigits2 (Zpos mx)). set (d2 := Zdigits2 (Zpos my)).
  fold (Number.fexp64 (d1 + ex - (d2 + ey))).
  set (e' := Z.min (Number.fexp64 (d1 + ex - (d2 + ey))) (ex - ey)).
  set (sh := ex - ey - e').
  set (m' := match sh with Z.pos _ => Z.shiftl (Z.pos mx) sh | Z0 => Z.pos mx | Z.neg _ => 0 end).
  assert (Hsh : 0 <= sh) by (unfold sh, e'; lia).
  assert (Hm' : m' = Zpos mx * 2 ^ sh).
  { unfold m'. destruct sh as [|p|p] eqn:E; try lia.
    now rewrite Z.shiftl_mul_pow2 by lia. }
  clearbody m'.
  pose proof (Z_div_mod m' (Zpos my) eq_refl) as Hdm.
  destruct (Z.div_eucl m' (Z.pos my)) as [q r]. destruct Hdm as [Hq Hr].
  assert (Hp : 0 < 2 ^ sh) by (apply Z.pow_pos_nonneg; lia).
  assert (Hq0 : 0 <= q) by nia.
  split; [exact Hq0|].
  destruct (Zdigits2_bounds (Zpos mx) eq_refl) as [[D1lo D1hi] D1pos].
  destruct (Zdigits2_bounds (Zpos my) eq_refl) as [[D2lo D2hi] D2pos].
  fold d1 in D1lo, D1hi, D1pos. fold d2 in D2lo, D2hi, D2pos.
  assert (Hdig : d1 - d2 + sh <= Zdigits2 q).
  { pose proof (Zdigits2_nonneg q).
    destruct (Z_le_gt_dec (d1 - d2 + sh) 0) as [Hle | Hgt]; [lia|].
    assert (d1 - d2 + sh - 1 < Zdigits2 q); [|lia].
    apply Zdigits2_gt; [lia|].
    (* 2^k * my < 2^(k + d2) = 2^(d1 - 1 + sh) <= m' *)
    assert (H1 : 2 ^ (d1 - d2 + sh - 1) * 2 ^ d2 = 2 ^ (d1 - 1) * 2 ^ sh).
    { rewrite <- !Z.pow_add_r by lia. f_equal. lia. }
    assert (H2 : 0 < 2 ^ (d1 - d2 + sh - 1)) by (apply Z.pow_pos_nonneg; lia).
    assert (H3 : 2 ^ (d1 - d2 + sh - 1) * Zpos my < m' + 1) by nia.
    nia. }
  unfold e' at 1. unfold Number.fexp64 in *. lia.
Qed.



(** A quotient is a binary64 value whatever the operands are. *)
Lemma div_isValue x y : Number.isValue (Number.div x y) = true.
Proof.
  destruct x as [sx|sx| |sx mx ex], y as [sy|sy| |sy my ey]; try reflexivity.
  unfold Number.div, SFdiv.
  pose proof (SFdiv_core_binary_digits mx ex my ey) as H.
  destruct (SFdiv_core_binary _ _ _ _ _ _) as [[q e'] l].
  destruct H as [Hq He]. now apply binary_round_aux_valid.
Qed.

(** A finite dividend and a divisor that is not zero never give [NaN]. *)
Lemma div_not_NaN x y :
  Number.isFinite x = true -> Number.gt y Number.zero = true ->
  Number.isNaN (Number.div x y) = false.
Proof.
  destruct x as [sx|sx| |sx mx ex], y as [sy|sy| |sy my ey];
    try discriminate; try reflexivity.
  intros _ _. unfold Number.div, SFdiv.
  pose proof (SFdiv_core_binary_digits mx ex my ey) as H.
  destruct (SFdiv_core_binary _ _ _ _ _ _) as [[q e'] l].
  destruct H as [Hq He]. now apply binary_round_aux_valid.
Qed.

(** *** The sign of a difference *)

Lemma shl_align_fst mx ex ez :
  ez <= ex -> Zpos (fst (shl_align mx ex ez)) = Zpos mx * 2 ^ (ex - ez).
Proof.
  intros H. unfold shl_align.
  destruct (ez - ex) as [|d|d] eqn:E; cbn [fst]; try lia.
  - replace (ex - ez) with 0 by lia. lia.
  - replace (ex - ez) with (Zpos d) by lia.
    change (Pos.iter xO mx d) with (shift_pos d mx).
    rewrite shift_pos_correct. apply Z.mul_comm.
Qed.

Lemma binary_round_sign s m e :
  -1074 <= e ->
  (exists p e2, binary_round Number.prec Number.emax s m e = S754_finite s p e2)
  \/ binary_round Number.prec Number.emax s m e = S754_infinity s.
Proof.
  intros He. unfold binary_round.
  destruct (shl_align m e _) as [mz ez] eqn:E.
  apply binary_round_aux_positive; [lia|].
  revert E. unfold shl_align. rewrite fexp64_eq.
  destruct (_ - e); intros [= <- <-]; lia.
Qed.

(** A binary64 mantissa and exponent. *)
Lemma bounded_spec m e :
  bounded Number.prec Number.emax m e = true ->
  -1074 <= e /\ Zpos m < 2 ^ 53 /\ (e = -1074 \/ 2 ^ 52 <= Zpos m).
Proof.
  unfold bounded, canonical_mantissa. rewrite fexp64_eq.
  intros [H _]%andb_true_iff. apply Z.eqb_eq in H.
  destruct (digits2_pos_bounds m) as [Hlo Hhi].
  assert (Hd : Zpos (digits2_pos m) <= 53) by lia.
  split; [lia|]. split.
  - eapply Z.lt_le_trans; [exact Hhi|]. apply Z.pow_le_mono_r; lia.
  - destruct (Z.eq_dec e (-1074)) as [-> | Hne]; [now left | right].
    assert (Zpos (digits2_pos m) = 53) as Heq by lia.
    rewrite Heq in Hlo. exact Hlo.
Qed.

(** With the exponents different, the larger exponent is the larger number. *)
Lemma aligned_lt mx ex my ey :
  bounded Number.prec Number.emax mx ex = true ->
  bounded Number.prec Number.emax my ey = true ->
  ex < ey ->
  Zpos (fst (shl_align mx ex (Z.min ex ey)))
  < Zpos (fst (shl_align my ey (Z.min ex ey))).
Proof.
  intros Hx Hy Hlt. rewrite !shl_align_fst by lia.
  destruct (bounded_spec _ _ Hx) as (Hex & Hmx & _).
  destruct (bounded_spec _ _ Hy) as (_ & _ & [-> | Hmy]); [lia|].
  replace (ex - Z.min ex ey) with 0 by lia.
  replace (ey - Z.min ex ey) with (ey - ex) by lia.
  assert (2 ^ 1 <= 2 ^ (ey - ex)) by (apply Z.pow_le_mono_r; lia).
  change (2 ^ 1) with 2 in *. change (2 ^ 53) with (2 ^ 52 * 2) in Hmx. nia.
Qed.

Lemma aligned_eq mx ex my :
  fst (shl_align mx ex (Z.min ex ex)) = mx
  /\ fst (shl_align my ex (Z.min ex ex)) = my.
Proof.
  unfold shl_align. rewrite Z.min_id, Z.sub_diag. now split.
Qed.

Lemma gt_zero_of_sign (r : Number.t) s :
  (exists p e2, r = S754_finite s p e2) \/ r = S754_infinity s ->
  Number.gt r Number.zero = negb s.
Proof. intros [(p & e2 & ->) | ->]; now destruct s. Qed.

Lemma sub_gt_zero x y :
  Number.isValue x = true -> Number.isValue y = true ->
  Number.gt (Number.sub x y) Number.zero = Number.gt x y.
Proof.
  destruct x as [sx|sx| |sx mx ex], y as [sy|sy| |sy my ey];
    try reflexivity;
    try (destruct sx; try destruct sy; reflexivity);
    try (destruct sy; reflexivity).
  cbn [Number.isValue valid_binary]. intros Hx Hy.
  destruct (bounded_spec _ _ Hx) as (Hex & _).
  destruct (bounded_spec _ _ Hy) as (Hey & _).
  unfold Number.sub, SFsub, binary_normalize.
  set (X := Zpos (fst (shl_align mx ex (Z.min ex ey)))).
  set (Y := Zpos (fst (shl_align my ey (Z.min ex ey)))).
  assert (Hcmp :
    Number.gt (S754_finite sx mx ex) (S754_finite sy my ey)
    = (0 <? cond_Zopp sx X - cond_Zopp sy Y)).
  { unfold Number.gt, SFltb, SFcompare. subst X Y.
    destruct (Z.compare_spec ey ex) as [-> | Hlt | Hlt].
    - destruct (aligned_eq mx ex my) as [-> ->].
      rewrite Pos.compare_cont_spec. cbn [Pos.switch_Eq].
      destruct (Pos.compare_spec my mx); destruct sx, sy; cbn [cond_Zopp];
        symmetry; try (apply Z.ltb_lt; lia); apply Z.ltb_ge; lia.
    - pose proof (aligned_lt my ey mx ex Hy Hx Hlt) as H.
      rewrite (Z.min_comm ey ex) in H.
      destruct sx, sy; cbn [cond_Zopp];
        symmetry; try (apply Z.ltb_lt; lia); apply Z.ltb_ge; lia.
    - pose proof (aligned_lt mx ex my ey Hx Hy Hlt) as H.
      destruct sx, sy; cbn [cond_Zopp];
        symmetry; try (apply Z.ltb_lt; lia); apply Z.ltb_ge; lia. }
  rewrite Hcmp.
  destruct (cond_Zopp sx X - cond_Zopp sy Y) as [|d|d] eqn:E.
  - reflexivity.
  - now rewrite (gt_zero_of_sign _ false)
      by (apply binary_round_sign; lia).
  - now rewrite (gt_zero_of_sign _ true)
      by (apply binary_round_sign; lia).
Qed.


(** *** The order on numbers *)



Lemma SFcompare_rank x y :
  Number.isNaN x = false -> Number.isNaN y = false ->
  SFcompare x y = Some (Number.lex (Number.rank x) (Number.rank y)).
Proof.
  destruct x as [sx|sx| |sx mx ex], y as [sy|sy| |sy my ey];
    try discriminate; intros _ _;
    try destruct sx; try destruct sy; try reflexivity;
    cbn [SFcompare Number.rank Number.lex]; rewrite ?Pos.compare_cont_spec;
    cbn [Pos.switch_Eq].
  - change (-1 ?= -1) with Eq. cbn iota.
    rewrite (Z.compare_opp ex ey), (Z.compare_opp (Zpos mx) (Zpos my)).
    rewrite (Z.compare_antisym ex ey).
    change (Z.pos my ?= Z.pos mx) with (my ?= mx)%positive.
    rewrite (Pos.compare_antisym mx my).
    destruct (ex ?= ey), (mx ?= my)%positive; reflexivity.
Qed.

Lemma number_lex_le_trans a b c :
  Number.lex a b <> Gt -> Number.lex b c <> Gt -> Number.lex a c <> Gt.
Proof.
  destruct a as [[a1 a2] a3], b as [[b1 b2] b3], c as [[c1 c2] c3]. unfold Number.lex.
  destruct (Z.compare_spec a1 b1), (Z.compare_spec b1 c1), (Z.compare_spec a1 c1);
    try lia; try congruence;
    destruct (Z.compare_spec a2 b2), (Z.compare_spec b2 c2), (Z.compare_spec a2 c2);
    try lia; try congruence;
    destruct (Z.compare_spec a3 b3), (Z.compare_spec b3 c3), (Z.compare_spec a3 c3);
    try lia; congruence.
Qed.

Lemma number_lex_antisym a b : Number.lex b a = CompOpp (Number.lex a b).
Proof.
  destruct a as [[a1 a2] a3], b as [[b1 b2] b3]. unfold Number.lex.
  rewrite (Z.compare_antisym a1 b1), (Z.compare_antisym a2 b2),
    (Z.compare_antisym a3 b3).
  destruct (a1 ?= b1), (a2 ?= b2), (a3 ?= b3); reflexivity.
Qed.

Lemma number_le_not_NaN x y :
  Number.le x y = true -> Number.isNaN x = false /\ Number.isNaN y = false.
Proof. destruct x as [| | |], y as [| | |]; (discriminate || now split). Qed.

Lemma number_le_rank x y :
  Number.isNaN x = false -> Number.isNaN y = false ->
  Number.le x y = true <-> Number.lex (Number.rank x) (Number.rank y) <> Gt.
Proof.
  intros Hx Hy. unfold Number.le, SFleb. rewrite (SFcompare_rank x y Hx Hy).
  destruct (Number.lex _ _); split; congruence.
Qed.

Lemma number_le_trans x y z :
  Number.le x y = true -> Number.le y z = true -> Number.le x z = true.
Proof.
  intros H1 H2.
  destruct (number_le_not_NaN _ _ H1) as [Hx Hy], (number_le_not_NaN _ _ H2) as [_ Hz].
  rewrite number_le_rank in * by assumption. eapply number_lex_le_trans; eassumption.
Qed.

Lemma number_gt_rank x y :
  Number.isNaN x = false -> Number.isNaN y = false ->
  Number.gt x y = true <-> Number.lex (Number.rank x) (Number.rank y) = Gt.
Proof.
  intros Hx Hy. unfold Number.gt, SFltb. rewrite (SFcompare_rank y x Hy Hx).
  rewrite number_lex_antisym. destruct (Number.lex _ _); cbn; split; congruence.
Qed.

Lemma number_gt_not_NaN x y :
  Number.gt x y = true -> Number.isNaN x = false /\ Number.isNaN y = false.
Proof. destruct x as [| | |], y as [| | |]; (discriminate || now split). Qed.

(** [x > y] gives [y <= x]. *)
Lemma number_gt_le x y : Number.gt x y = true -> Number.le y x = true.
Proof.
  intros H. destruct (number_gt_not_NaN _ _ H) as [Hx Hy].
  apply (number_gt_rank x y Hx Hy) in H. apply (number_le_rank y x Hy Hx).
  rewrite number_lex_antisym, H. discriminate.
Qed.

(** Numbers other than [NaN] are comparable. *)
Lemma number_not_gt_le x y :
  Number.isNaN x = false -> Number.isNaN y = false ->
  Number.gt x y = false -> Number.le x y = true.
Proof.
  intros Hx Hy H. apply (number_le_rank x y Hx Hy). intros Hgt.
  apply (number_gt_rank x y Hx Hy) in Hgt. congruence.
Qed.

Lemma number_le_not_gt x y : Number.le x y = true -> Number.gt x y = false.
Proof.
  intros H. destruct (number_le_not_NaN _ _ H) as [Hx Hy].
  apply (number_le_rank x y Hx Hy) in H.
  destruct (Number.gt x y) eqn:E; [|reflexivity].
  apply (number_gt_rank x y Hx Hy) in E. contradiction.
Qed.

Lemma number_eqb_rank x y :
  Number.eqb x y = true <->
  Number.isNaN x = false /\ Number.isNaN y = false /\ Number.lex (Number.rank x) (Number.rank y) = Eq.
Proof.
  unfold Number.eqb, SFeqb.
  destruct (Number.isNaN x) eqn:Hx.
  { destruct x; try discriminate. cbn. split; [discriminate | now intros [? _]]. }
  destruct (Number.isNaN y) eqn:Hy.
  { destruct y; try discriminate. destruct x; cbn; split;
      (discriminate || now intros (_ & ? & _)). }
  rewrite (SFcompare_rank x y Hx Hy).
  destruct (Number.lex _ _); split; (congruence || now intros (_ & _ & ?) || auto).
Qed.

Lemma number_lex_eq a b : Number.lex a b = Eq -> a = b.
Proof.
  destruct a as [[a1 a2] a3], b as [[b1 b2] b3]. unfold Number.lex.
  destruct (Z.compare_spec a1 b1), (Z.compare_spec a2 b2), (Z.compare_spec a3 b3);
    congruence.
Qed.

Lemma number_lex_refl a : Number.lex a a = Eq.
Proof. destruct a as [[a1 a2] a3]. unfold Number.lex. now rewrite !Z.compare_refl. Qed.

(** Two numbers equal to a third are not ordered strictly. *)
Lemma number_eqb_not_gt x y q :
  Number.eqb x q = true -> Number.eqb y q = true -> Number.gt x y = false.
Proof.
  intros (Hx & _ & H1)%number_eqb_rank (Hy & _ & H2)%number_eqb_rank.
  apply number_lex_eq in H1, H2.
  destruct (Number.gt x y) eqn:E; [|reflexivity].
  apply (number_gt_rank x y Hx Hy) in E. rewrite H1, H2, number_lex_refl in E. discriminate.
Qed.


End Binary64Arithmetic.

(** ** The stable sort *)
Section Binary64Sort.
Import Binary64.
Context {A : Type} (key : A -> Number.t).

Local Abbreviation cmp := (fun a b : A => Number.sub (key a) (key b)).
Local Abbreviation ascending := (fun a b : A => Number.le (key a) (key b) = true).
Local Abbreviation comparable :=
  (fun a : A => Number.isValue (key a) = true /\ Number.isNaN (key a) = false).

Lemma sort64_insert_perm x l : Permutation (sort_insert cmp x l) (x :: l).
Proof.
  induction l as [|y l IH]; simpl; [reflexivity|].
  destruct (Number.gt _ _); [|reflexivity].
  rewrite IH. apply perm_swap.
Qed.

Lemma sort64_perm l : Permutation (sort cmp l) l.
Proof.
  induction l as [|x l IH]; simpl; [constructor|].
  rewrite sort64_insert_perm. now constructor.
Qed.

Lemma sort64_insert_sorted x l :
  comparable x -> Forall comparable l ->
  StronglySorted ascending l -> StronglySorted ascending (sort_insert cmp x l).
Proof.
  intros [Hvx Hnx] Hl Hs. induction Hs as [|y l Hs IH Hy]; simpl.
  - repeat constructor.
  - apply Forall_cons in Hl as [[Hvy Hny] Hl].
    rewrite (sub_gt_zero _ _ Hvx Hvy).
    destruct (Number.gt (key x) (key y)) eqn:E.
    + apply number_gt_le in E. constructor; [now apply IH|].
      rewrite List.Forall_forall in *. intros z Hz.
      apply (Permutation_in _ (sort64_insert_perm x l)) in Hz.
      destruct Hz as [<- | Hz]; [exact E | now apply Hy].
    + assert (Hxy : Number.le (key x) (key y) = true) by now apply number_not_gt_le.
      constructor; [now constructor|].
      constructor; [exact Hxy|].
      rewrite List.Forall_forall in *. intros z Hz.
      apply number_le_trans with (key y); [exact Hxy | now apply Hy].
Qed.

Lemma sort64_comparable l : Forall comparable l -> Forall comparable (sort cmp l).
Proof.
  intros H. rewrite List.Forall_forall in *. intros z Hz. apply H.
  now apply (Permutation_in _ (sort64_perm l)).
Qed.

Lemma sort64_sorted l :
  Forall comparable l -> StronglySorted ascending (sort cmp l).
Proof.
  induction 1 as [|x l Hx Hl IH]; simpl; [constructor|].
  apply sort64_insert_sorted; [exact Hx | now apply sort64_comparable | exact IH].
Qed.

(** Elements of equal key keep the order they had in the input. *)
Lemma sort64_insert_stable q x l :
  comparable x -> Forall comparable l ->
  List.filter (fun a => Number.eqb (key a) q) (sort_insert cmp x l)
  = List.filter (fun a => Number.eqb (key a) q) (x :: l).
Proof.
  intros [Hvx Hnx] Hl. induction l as [|y l IH]; [reflexivity|].
  apply Forall_cons in Hl as [[Hvy Hny] Hl].
  cbn [sort_insert]. rewrite (sub_gt_zero _ _ Hvx Hvy).
  destruct (Number.gt (key x) (key y)) eqn:E; [|reflexivity].
  cbn [List.filter] in *. rewrite (IH Hl).
  destruct (Number.eqb (key x) q) eqn:Ex, (Number.eqb (key y) q) eqn:Ey;
    try reflexivity.
  rewrite (number_eqb_not_gt _ _ _ Ex Ey) in E. discriminate.
Qed.

Lemma sort64_stable q l :
  Forall comparable l ->
  List.filter (fun a => Number.eqb (key a) q) (sort cmp l)
  = List.filter (fun a => Number.eqb (key a) q) l.
Proof.
  induction 1 as [|x l Hx Hl IH]; [reflexivity|].
  cbn [sort foldr]. fold (sort cmp l).
  rewrite sort64_insert_stable by (exact Hx || now apply sort64_comparable).
  cbn [List.filter]. now rewrite IH.
Qed.

End Binary64Sort.

(** ** Dashboard: the low-stock list and the category chart *)
Section Binary64Dashboard.
Import Binary64 Binary64.Dashboard.

Implicit Types (h : store) (items r : ref) (xs : list InventoryItem.t).

Local Abbreviation level :=
  (fun a : InventoryItem.t =>
     Number.div (InventoryItem.quantity a) (InventoryItem.minLevel a)).

Lemma lowStockItems64_eval h items xs :
  h !! items = Some xs ->
  lowStockItems items h
  = Some (fresh (dom h),
          <[fresh (dom h) := sort byLevel (List.filter isLowStock xs)]> h).
Proof.
  intros H. unfold lowStockItems, array_filter. rewrite H.
  unfold array_sort. rewrite lookup_insert_eq. now rewrite insert_insert_eq.
Qed.

Lemma lowStockItems64_result h items xs r h' res :
  lowStockItems items h = Some (r, h') -> h' !! r = Some res ->
  h !! items = Some xs ->
  res = sort byLevel (List.filter isLowStock xs).
Proof.
  intros H1 H2 H. rewrite (lowStockItems64_eval _ _ _ H) in H1.
  injection H1 as <- <-. rewrite lookup_insert_eq in H2. now injection H2.
Qed.

(** The quotient of a low-stock item whose quantity is finite is a binary64
    value other than [NaN]. *)
Lemma level_comparable i :
  isLowStock i = true -> Number.isFinite (InventoryItem.quantity i) = true ->
  Number.isValue (level i) = true /\ Number.isNaN (level i) = false.
Proof.
  intros [Hmin _]%andb_true_iff Hfin.
  split; [apply div_isValue | now apply div_not_NaN].
Qed.

(** C7. For every array of items held by the dashboard whose quantities are
    finite, [lowStockItems] returns a newly allocated array that holds
    exactly the items with [minLevel > 0] and [quantity <= minLevel] (same
    elements, same multiplicities), ordered ascending by the quotient
    [quantity / minLevel] as computed in double precision, items whose
    quotients are equal in their original order; the input array and every
    other array of the store are left as they were. *)
Theorem lowStockItems_spec h items xs :
  h !! items = Some xs ->
  Forall (fun i => Number.isFinite (InventoryItem.quantity i) = true) xs ->
  exists r h' res,
    lowStockItems items h = Some (r, h')
    /\ h' !! r = Some res
    /\ Permutation res (List.filter isLowStock xs)
    /\ (forall i, In i res <->
          In i xs
          /\ Number.gt (InventoryItem.minLevel i) Number.zero = true
          /\ Number.le (InventoryItem.quantity i) (InventoryItem.minLevel i) = true)
    /\ StronglySorted
         (fun a b =>
            Number.le
              (Number.div (InventoryItem.quantity a) (InventoryItem.minLevel a))
              (Number.div (InventoryItem.quantity b) (InventoryItem.minLevel b))
            = true) res
    /\ (forall v,
          List.filter
            (fun a =>
               Number.eqb
                 (Number.div (InventoryItem.quantity a) (InventoryItem.minLevel a)) v)
            res
          = List.filter
              (fun a =>
                 Number.eqb
                   (Number.div (InventoryItem.quantity a) (InventoryItem.minLevel a)) v)
              (List.filter isLowStock xs))
    /\ h !! r = None
    /\ h' !! items = Some xs
    /\ (forall r0, is_Some (h !! r0) -> h' !! r0 = h !! r0).
Proof.
  intros H Hfin.
  exists (fresh (dom h)),
    (<[fresh (dom h) := sort byLevel (List.filter isLowStock xs)]> h),
    (sort byLevel (List.filter isLowStock xs)).
  assert (Hcmp : Forall (fun a => Number.isValue (level a) = true
                                  /\ Number.isNaN (level a) = false)
                   (List.filter isLowStock xs)).
  { rewrite List.Forall_forall in *. intros i [Hi Hlow]%filter_In.
    apply level_comparable; [exact Hlow | now apply Hfin]. }
  split; [now apply lowStockItems64_eval|].
  split; [apply lookup_insert_eq|].
  assert (HP := sort64_perm level (List.filter isLowStock xs)).
  split; [exact HP|].
  split.
  { intros i. rewrite <- andb_true_iff.
    change (Number.gt (InventoryItem.minLevel i) Number.zero
            && Number.le (InventoryItem.quantity i) (InventoryItem.minLevel i))
      with (isLowStock i).
    rewrite <- filter_In.
    split; intros Hi.
    - now apply (Permutation_in _ HP).
    - now apply (Permutation_in _ (Permutation_sym HP)). }
  split; [exact (sort64_sorted level _ Hcmp)|].
  split; [intros v; exact (sort64_stable level v _ Hcmp)|].
  split; [apply not_elem_of_dom, is_fresh|].
  split.
  - rewrite lookup_insert_ne; [exact H|]. intros Heq.
    pose proof (is_fresh (dom h)) as Hf. rewrite Heq in Hf.
    apply Hf, elem_of_dom. eauto.
  - intros r0 Hr0. apply lookup_insert_ne. intros Heq.
    pose proof (is_fresh (dom h)) as Hf. rewrite Heq in Hf.
    now apply Hf, elem_of_dom.
Qed.

(** On the sample shelf the item at a twentieth of its threshold moves to the
    front, and the two items whose quotients are the same double stay in the
    order of the input. *)
Lemma lowStockItems_spec_witness :
  exists r h' res,
    lowStockItems 1%positive {[ 1%positive := Samples.shelf ]} = Some (r, h')
    /\ h' !! r = Some res
    /\ res = [Samples.twentieth; Samples.third; Samples.thirdish]
    /\ StronglySorted
         (fun a b =>
            Number.le
              (Number.div (InventoryItem.quantity a) (InventoryItem.minLevel a))
              (Number.div (InventoryItem.quantity b) (InventoryItem.minLevel b))
            = true) res
    /\ h' !! 1%positive = Some Samples.shelf.
Proof.
  destruct (lowStockItems_spec {[ 1%positive := Samples.shelf ]} 1%positive
              Samples.shelf)
    as (r & h' & res & H1 & H2 & _ & _ & H5 & _ & _ & H8 & _).
  - reflexivity.
  - repeat constructor.
  - exists r, h', res. split; [exact H1|]. split; [exact H2|].
    split; [|split; [exact H5 | exact H8]].
    rewrite (lowStockItems64_result _ _ Samples.shelf _ _ _ H1 H2 eq_refl).
    vm_compute. reflexivity.
Defined.

(** The order is that of the rounded quotients.  An item at 1 of 3 placed
    before an item at 0.3333333333333333 of 1 stays before it, although its
    quotient is the larger one: both round to the same double. *)
Lemma low_stock_order_rounds :
  ((3333333333333333 # 10000000000000000) / 1 < 1 / 3)%Q
  /\ Number.div (InventoryItem.quantity Samples.thirdish)
       (InventoryItem.minLevel Samples.thirdish)
     = Number.div (InventoryItem.quantity Samples.third)
         (InventoryItem.minLevel Samples.third)
  /\ exists r h',
       lowStockItems 1%positive {[ 1%positive := [Samples.third; Samples.thirdish] ]}
       = Some (r, h')
       /\ h' !! r = Some [Samples.third; Samples.thirdish].
Proof.
  split; [vm_compute; reflexivity|].
  split; [vm_compute; reflexivity|].
  eexists _, _. split; [apply lowStockItems64_eval; reflexivity|].
  rewrite lookup_insert_eq. vm_compute. reflexivity.
Qed.

(** *** The category chart *)

Lemma runningTotal_snoc qs q :
  runningTotal (qs ++ [q])
  = Number.add (Number.or_else (runningTotal qs) Number.zero) q.
Proof. unfold runningTotal. now rewrite fold_left_app. Qed.

Lemma quantitiesOf_snoc c xs i :
  quantitiesOf c (xs ++ [i])
  = if JS.str_eq (InventoryItem.category i) c
    then quantitiesOf c xs ++ [InventoryItem.quantity i]
    else quantitiesOf c xs.
Proof.
  unfold quantitiesOf. rewrite List.filter_app. cbn [List.filter].
  destruct (JS.str_eq _ _); [now rewrite map_app | now rewrite app_nil_r].
Qed.

(** What the object [counts] holds once the items [seen] are counted. *)
Local Abbreviation tallied :=
  (fun (counts : gmap string Number.t) (seen : list InventoryItem.t) =>
     forall c,
       match counts !! c with
       | Some v =>
           v = runningTotal (quantitiesOf c seen)
           /\ exists i, In i seen /\ InventoryItem.category i = c
       | None => forall i, In i seen -> InventoryItem.category i <> c
       end).

Lemma quantitiesOf_absent c xs :
  (forall i, In i xs -> InventoryItem.category i <> c) -> quantitiesOf c xs = [].
Proof.
  intros H. unfold quantitiesOf.
  induction xs as [|x xs IH]; [reflexivity|]. cbn [List.filter].
  unfold JS.str_eq at 1. rewrite bool_decide_eq_false_2 by (apply H; now left).
  apply IH. intros i Hi. apply H. now right.
Qed.

Lemma count64_tallied counts seen i :
  tallied counts seen ->
  InventoryItem.category i ∉ JSObject.objectPrototypeKeys ->
  exists counts', count counts i = Some counts' /\ tallied counts' (seen ++ [i]).
Proof.
  intros Ht Hp.
  assert (Hstep : forall v,
            v = runningTotal (quantitiesOf (InventoryItem.category i) (seen ++ [i])) ->
            tallied (<[InventoryItem.category i := v]> counts) (seen ++ [i])).
  { intros v Hv c.
    destruct (decide (InventoryItem.category i = c)) as [<- | Hne].
    - rewrite lookup_insert_eq. split; [exact Hv|].
      exists i. split; [apply in_or_app; right; now left | reflexivity].
    - rewrite lookup_insert_ne by exact Hne.
      specialize (Ht c). rewrite quantitiesOf_snoc. unfold JS.str_eq.
      rewrite bool_decide_eq_false_2 by exact Hne.
      destruct (counts !! c) as [w|].
      + destruct Ht as [Hw (y & Hy & Hc)]. split; [exact Hw|].
        exists y. split; [apply in_or_app; now left | exact Hc].
      + intros y [Hy | [<- | []]]%in_app_or; [now apply Ht | exact Hne]. }
  assert (Hcat := Ht (InventoryItem.category i)).
  unfold count.
  destruct (counts !! InventoryItem.category i) as [w|] eqn:E.
  - eexists. split; [reflexivity|]. apply Hstep.
    rewrite quantitiesOf_snoc. unfold JS.str_eq.
    rewrite bool_decide_eq_true_2 by reflexivity.
    rewrite runningTotal_snoc. now rewrite (proj1 Hcat).
  - rewrite bool_decide_eq_false_2 by exact Hp.
    eexists. split; [reflexivity|]. apply Hstep.
    rewrite quantitiesOf_snoc. unfold JS.str_eq.
    rewrite bool_decide_eq_true_2 by reflexivity.
    now rewrite (quantitiesOf_absent _ _ Hcat).
Qed.

Lemma countAll64_tallied xs counts seen :
  tallied counts seen ->
  Forall (fun i => InventoryItem.category i ∉ JSObject.objectPrototypeKeys) xs ->
  exists counts', countAll counts xs = Some counts' /\ tallied counts' (seen ++ xs).
Proof.
  intros Ht Hp. revert counts seen Ht.
  induction Hp as [|x xs Hx _ IH]; intros counts seen Ht; cbn [countAll].
  - exists counts. now rewrite app_nil_r.
  - destruct (count64_tallied counts seen x Ht Hx) as (c1 & -> & Ht1).
    destruct (IH c1 (seen ++ [x]) Ht1) as (c2 & Hc2 & Ht2).
    exists c2. split; [exact Hc2|]. now rewrite <- app_assoc in Ht2.
Qed.

(** X13. The "Inventory Mix" chart.  Provided no category is a name
    inherited from [Object.prototype], [categoryData] has exactly one slice
    per category that occurs among the items, and the value of a slice is
    the running total [(t || 0) + quantity] over the items of its category
    alone, taken in the order of the inventory: the items of the other
    categories, wherever they stand, do not change it.  This holds in
    whatever order [Object.keys] lists the categories. *)
Theorem category_chart_slices keysOf xs :
  (forall counts, Permutation (keysOf counts) (elements (dom counts))) ->
  Forall (fun i => InventoryItem.category i ∉ JSObject.objectPrototypeKeys) xs ->
  exists slices,
    categoryData keysOf xs = Some slices
    /\ NoDup (name <$> slices)
    /\ (forall c,
          c ∈ (name <$> slices)
          <-> exists i, In i xs /\ InventoryItem.category i = c)
    /\ (forall sl, In sl slices ->
          value sl = runningTotal (quantitiesOf (name sl) xs)).
Proof.
  intros Hkeys Hp.
  destruct (countAll64_tallied xs ∅ []) as (counts & Hc & Ht).
  { intros c. rewrite lookup_empty. intros i []. }
  { exact Hp. }
  cbn [app] in Ht.
  unfold categoryData. rewrite Hc. eexists. split; [reflexivity|].
  assert (Hnames :
    name <$> map (fun key => mkSlice key (default Number.zero (counts !! key)))
               (keysOf counts) = keysOf counts).
  { induction (keysOf counts) as [|k l IH]; cbn; [reflexivity | now rewrite IH]. }
  assert (Hdom : forall c, is_Some (counts !! c)
                           <-> exists i, In i xs /\ InventoryItem.category i = c).
  { intros c. specialize (Ht c). destruct (counts !! c) as [v|]; split.
    - intros _. apply Ht.
    - intros _. eauto.
    - intros [? [=]].
    - intros (i & Hi & Hic). now destruct (Ht i Hi Hic). }
  rewrite Hnames.
  split; [rewrite (Hkeys counts); apply NoDup_elements|].
  split.
  { intros c. rewrite (Hkeys counts), elem_of_elements, elem_of_dom. apply Hdom. }
  intros sl (k & <- & Hk)%in_map_iff. cbn [name value].
  apply list_elem_of_In in Hk.
  rewrite (Hkeys counts), elem_of_elements, elem_of_dom in Hk.
  destruct Hk as [v Hv]. specialize (Ht k). rewrite Hv in Ht.
  rewrite Hv. cbn. apply Ht.
Qed.

(** A large lot and two single pieces: the pieces add up in their own slice
    (1 + 1 = 2), while in the total of all units each of them is lost to
    rounding ([10^16 + 1] is [10^16]); the slices do not add up to the
    "Total Units" card. *)
Lemma category_chart_slices_witness :
  exists slices,
    categoryData (fun counts => elements (dom counts)) Samples.lots = Some slices
    /\ (forall sl, In sl slices ->
          value sl = runningTotal (quantitiesOf (name sl) Samples.lots))
    /\ runningTotal (quantitiesOf "Spare" Samples.lots) = Number.ofZ 2
    /\ runningTotal (quantitiesOf "Bulk" Samples.lots) = Number.ofZ (10 ^ 16)
    /\ totalStockCount Samples.lots = Number.ofZ (10 ^ 16)
    /\ Number.eqb (Number.add (Number.ofZ (10 ^ 16)) (Number.ofZ 2))
         (totalStockCount Samples.lots) = false.
Proof.
  destruct (category_chart_slices (fun counts => elements (dom counts)) Samples.lots)
    as (slices & H1 & _ & _ & H4).
  - intros counts. reflexivity.
  - repeat (constructor; [refine (bool_decide_unpack _ _); vm_compute; exact I|]).
    constructor.
  - exists slices. split; [exact H1|]. split; [exact H4|].
    repeat split; vm_compute; reflexivity.
Defined.

End Binary64Dashboard.

(** ** TransactionManager: the stock check of the item form *)
Section Binary64TransactionManager.
Import Binary64 Binary64.TransactionManager.

Implicit Types (s : State) (item : InventoryItem.t) (qty : Number.t)
  (unitName : string) (targetCart : Cart).

Lemma addLine64_eval targetCart item unitName qty s :
  addLine targetCart item unitName qty s
  = handleAddToCart targetCart (formFilled item unitName qty s).
Proof.
  unfold addLine, andThen, formFilled, changeQuantity.
  destruct (handleSelectItem item s) as [s1 es1] eqn:E1.
  unfold handleSelectItem in E1. injection E1 as <- <-.
  destruct (handleUnitSelect unitName _) as [s2 es2] eqn:E2.
  assert (es2 = []) as ->.
  { revert E2. unfold handleUnitSelect. cbn.
    destruct (JS.str_eq _ _); now intros [= <- <-]. }
  cbn [fst]. now destruct (handleAddToCart targetCart _).
Qed.

Lemma formFilled64_form targetCart item unitName qty s :
  selectedItem (formFilled item unitName qty s) = Some item
  /\ quantityInput (formFilled item unitName qty s) = Some qty
  /\ conversionRatio (formFilled item unitName qty s) = resolve item unitName
  /\ selectedUnit (formFilled item unitName qty s) = unitName
  /\ type (formFilled item unitName qty s) = type s
  /\ cartOf targetCart (formFilled item unitName qty s) = cartOf targetCart s.
Proof.
  unfold formFilled, handleUnitSelect, handleSelectItem, resolve. cbn.
  destruct (JS.str_eq _ _); cbn; destruct targetCart; auto 10.
Qed.

(** What [handleAddToCart] does once the guard is passed. *)
Lemma handleAddToCart64_checked targetCart s item qty :
  selectedItem s = Some item -> quantityInput s = Some qty ->
  Number.truthy qty = true -> type s = OUT ->
  let total :=
    Number.add (alreadyInCart (InventoryItem.id item) (cartOf targetCart s))
      (Number.mul qty (conversionRatio s)) in
  handleAddToCart targetCart s
  = if Number.gt total (InventoryItem.quantity item)
    then (s, [alert total (InventoryItem.quantity item)])
    else
      (setValidationError None
         (setQuantityInput None
            (setSearchQuery ""
               (setSelectedItem None
                  (let line :=
                     TID.mk (InventoryItem.id item) (InventoryItem.name item) qty
                       (selectedUnit s) (conversionRatio s)
                       (Number.mul qty (conversionRatio s)) in
                   match targetCart with
                   | new => setCartItems (cartItems s ++ [line]) s
                   | edit => setEditCartItems (editCartItems s ++ [line]) s
                   end)))), []).
Proof.
  intros Hi Hq Ht Ho total. unfold handleAddToCart.
  rewrite Hi, Hq, Ht, Ho. reflexivity.
Qed.

Lemma alreadyInCart64_snoc id cart line :
  alreadyInCart id (cart ++ [line])
  = if JS.str_eq (TID.itemId line) id
    then Number.add (alreadyInCart id cart) (TID.totalBaseQuantity line)
    else alreadyInCart id cart.
Proof.
  unfold alreadyInCart, JS.reduce. rewrite List.filter_app. cbn [List.filter].
  destruct (JS.str_eq _ _).
  - now rewrite fold_left_app.
  - now rewrite app_nil_r.
Qed.

Lemma addLine64_checked targetCart item unitName qty s :
  type s = OUT -> Number.truthy qty = true ->
  let total :=
    Number.add (alreadyInCart (InventoryItem.id item) (cartOf targetCart s))
      (Number.mul qty (resolve item unitName)) in
  let r := addLine targetCart item unitName qty s in
  if Number.gt total (InventoryItem.quantity item)
  then r = (formFilled item unitName qty s,
            [alert total (InventoryItem.quantity item)])
  else snd r = []
       /\ cartOf targetCart (fst r)
          = cartOf targetCart s ++ [newLine item unitName qty]
       /\ type (fst r) = OUT.
Proof.
  intros Ho Hq total r. subst r. rewrite addLine64_eval.
  destruct (formFilled64_form targetCart item unitName qty s)
    as (Hi & Hqi & Hr & Hu & Ht & Hc).
  rewrite (handleAddToCart64_checked targetCart _ item qty Hi Hqi Hq)
    by (now rewrite Ht).
  cbv zeta. rewrite Hr, Hc, Hu. fold total.
  destruct (Number.gt total (InventoryItem.quantity item)); [reflexivity|].
  unfold newLine. destruct targetCart; cbn [cartOf] in Hc; rewrite Hc;
    cbn -[formFilled]; rewrite ?Hc;
    (split; [reflexivity|]; split; [reflexivity | exact (eq_trans Ht Ho)]).
Qed.

(** C1. In an outbound draft, [addLine] with a quantity that is not [0] or
    [NaN] is refused with the "exceeds available stock" alert exactly when
    the total already drafted for the item plus the new line's total, both
    as the code computes them in double precision, is above the item's
    quantity; the cart is then left as it was, and otherwise the line is
    appended.  After an accepted line, a further line of the same item is
    refused as soon as the running total with it exceeds the quantity,
    whether or not it would fit alone. *)
Theorem addLine_out_insufficient_stock targetCart item unitName qty s :
  type s = OUT -> Number.truthy qty = true ->
  let total :=
    Number.add (alreadyInCart (InventoryItem.id item) (cartOf targetCart s))
      (Number.mul qty (resolve item unitName)) in
  let r := addLine targetCart item unitName qty s in
  (Number.gt total (InventoryItem.quantity item) = true
   <-> snd r = [alert total (InventoryItem.quantity item)])
  /\ (Number.gt total (InventoryItem.quantity item) = true ->
      cartOf targetCart (fst r) = cartOf targetCart s)
  /\ (Number.gt total (InventoryItem.quantity item) = false ->
      snd r = []
      /\ cartOf targetCart (fst r)
         = cartOf targetCart s ++ [newLine item unitName qty])
  /\ (forall unitName2 qty2,
        Number.truthy qty2 = true ->
        Number.gt total (InventoryItem.quantity item) = false ->
        let total2 := Number.add total (Number.mul qty2 (resolve item unitName2)) in
        Number.gt total2 (InventoryItem.quantity item) = true ->
        let r2 := addLine targetCart item unitName2 qty2 (fst r) in
        snd r2 = [alert total2 (InventoryItem.quantity item)]
        /\ cartOf targetCart (fst r2)
           = cartOf targetCart s ++ [newLine item unitName qty]).
Proof.
  intros Ho Hq total r.
  pose proof (addLine64_checked targetCart item unitName qty s Ho Hq) as H.
  cbv zeta in H. fold total in H. fold r in H.
  destruct (Number.gt total (InventoryItem.quantity item)) eqn:E.
  - rewrite H. cbn [fst snd].
    destruct (formFilled64_form targetCart item unitName qty s)
      as (_ & _ & _ & _ & _ & Hc).
    repeat split; try discriminate; auto.
  - destruct H as (H1 & H2 & H3). rewrite H1.
    split; [split; discriminate|]. split; [discriminate|].
    split; [auto|].
    intros unitName2 qty2 Hq2 _ total2 Hgt r2.
    pose proof (addLine64_checked targetCart item unitName2 qty2 (fst r) H3 Hq2)
      as H'.
    cbv zeta in H'. fold r2 in H'.
    assert (Hin : alreadyInCart (InventoryItem.id item) (cartOf targetCart (fst r))
                  = total).
    { rewrite H2, alreadyInCart64_snoc. cbn [newLine TID.itemId TID.totalBaseQuantity].
      unfold JS.str_eq. now rewrite bool_decide_eq_true_2. }
    rewrite Hin in H'. fold total2 in H'. rewrite Hgt in H'. rewrite H'.
    cbn [fst snd]. split; [reflexivity|].
    destruct (formFilled64_form targetCart item unitName2 qty2 (fst r))
      as (_ & _ & _ & _ & _ & Hc).
    now rewrite Hc.
Qed.

(** Scenario A of the specification (9 boxes of 12 against 100 pieces), and
    a draft where 5 boxes are accepted and 50 more pieces are then refused. *)
Lemma addLine_out_insufficient_stock_witness :
  snd (addLine new (Samples.widget 100) "Box" (Number.ofZ 9) Samples.outbound)
  = [alert (Number.ofZ 108) (Number.ofZ 100)]
  /\ cartItems
       (fst (addLine new (Samples.widget 100) "Box" (Number.ofZ 9) Samples.outbound))
     = []
  /\ snd (addLine new (Samples.widget 100) "Pcs" (Number.ofZ 50)
            (fst (addLine new (Samples.widget 100) "Box" (Number.ofZ 5)
                    Samples.outbound)))
     = [alert (Number.ofZ 110) (Number.ofZ 100)].
Proof.
  pose proof (addLine_out_insufficient_stock new (Samples.widget 100) "Box"
                (Number.ofZ 9) Samples.outbound eq_refl eq_refl) as HA.
  pose proof (addLine_out_insufficient_stock new (Samples.widget 100) "Box"
                (Number.ofZ 5) Samples.outbound eq_refl eq_refl) as HB.
  cbv zeta in HA, HB.
  destruct HA as ([HA1 _] & HA2 & _).
  destruct HB as (_ & _ & _ & HB4).
  split; [exact (HA1 eq_refl)|].
  split; [exact (HA2 eq_refl)|].
  exact (proj1 (HB4 "Pcs" (Number.ofZ 50) eq_refl eq_refl eq_refl)).
Defined.

(** The check is made on rounded numbers.  With 0.1 drafted, 0.2 more are
    refused against a stock of 0.3, although 0.1 + 0.2 does not exceed 0.3:
    the sum of the two doubles is 0.30000000000000004.  With [2^53] drafted,
    one more piece is accepted against a stock of [2^53], although the total
    exceeds it: [2^53 + 1] rounds to [2^53]. *)
Lemma stock_check_rounds :
  ((1 # 10) + (2 # 10) <= (3 # 10))%Q
  /\ snd (addLine new (Samples.widget (3 # 10)) "Pcs" (Number.ofDecimal (2 # 10))
            (fst (addLine new (Samples.widget (3 # 10)) "Pcs"
                    (Number.ofDecimal (1 # 10)) Samples.outbound)))
     = [alert (Number.add (Number.ofDecimal (1 # 10)) (Number.ofDecimal (2 # 10)))
              (Number.ofDecimal (3 # 10))]
  /\ (2 ^ 53 < 2 ^ 53 + 1)%Z
  /\ snd (addLine new (Samples.widget (inject_Z (2 ^ 53))) "Pcs" (Number.ofZ 1)
            (fst (addLine new (Samples.widget (inject_Z (2 ^ 53))) "Pcs"
                    (Number.ofZ (2 ^ 53)) Samples.outbound)))
     = []
  /\ TID.totalBaseQuantity
       <$> cartItems
             (fst (addLine new (Samples.widget (inject_Z (2 ^ 53))) "Pcs"
                     (Number.ofZ 1)
                     (fst (addLine new (Samples.widget (inject_Z (2 ^ 53))) "Pcs"
                             (Number.ofZ (2 ^ 53)) Samples.outbound))))
     = [Number.ofZ (2 ^ 53); Number.ofZ 1].
Proof.
  split; [vm_compute; discriminate|].
  split; [vm_compute; reflexivity|].
  split; [reflexivity|].
  split; vm_compute; reflexivity.
Qed.

(** X7. Whenever a line is accepted into an outbound draft, the draft's
    total for that item, summed over the cart the way the code sums it with
    the new line included, is the total that was checked, and it is not
    above the item's quantity. *)
Theorem accepted_out_line_within_stock targetCart item unitName qty s :
  type s = OUT -> Number.truthy qty = true ->
  snd (addLine targetCart item unitName qty s) = [] ->
  cartOf targetCart (fst (addLine targetCart item unitName qty s))
  = cartOf targetCart s ++ [newLine item unitName qty]
  /\ alreadyInCart (InventoryItem.id item)
       (cartOf targetCart (fst (addLine targetCart item unitName qty s)))
     = Number.add (alreadyInCart (InventoryItem.id item) (cartOf targetCart s))
         (Number.mul qty (resolve item unitName))
  /\ Number.gt
       (alreadyInCart (InventoryItem.id item)
          (cartOf targetCart (fst (addLine targetCart item unitName qty s))))
       (InventoryItem.quantity item)
     = false.
Proof.
  intros Ho Hq Hs.
  pose proof (addLine64_checked targetCart item unitName qty s Ho Hq) as H.
  cbv zeta in H.
  destruct (Number.gt _ (InventoryItem.quantity item)) eqn:E.
  - rewrite H in Hs. discriminate.
  - destruct H as (_ & Hc & _).
    assert (Hin : alreadyInCart (InventoryItem.id item)
                    (cartOf targetCart (fst (addLine targetCart item unitName qty s)))
                  = Number.add
                      (alreadyInCart (InventoryItem.id item) (cartOf targetCart s))
                      (Number.mul qty (resolve item unitName))).
    { rewrite Hc, alreadyInCart64_snoc.
      cbn [newLine TID.itemId TID.totalBaseQuantity].
      unfold JS.str_eq. now rewrite bool_decide_eq_true_2. }
    split; [exact Hc|]. split; [exact Hin|]. now rewrite Hin.
Qed.

(** 8 boxes of 12 against 100 pieces: the draft holds 96. *)
Lemma accepted_out_line_within_stock_witness :
  alreadyInCart "i1"
    (cartItems (fst (addLine new (Samples.widget 100) "Box" (Number.ofZ 8)
                       Samples.outbound)))
  = Number.ofZ 96
  /\ Number.gt (Number.ofZ 96) (Number.ofZ 100) = false.
Proof.
  destruct (accepted_out_line_within_stock new (Samples.widget 100) "Box"
              (Number.ofZ 8) Samples.outbound eq_refl eq_refl eq_refl)
    as (_ & H2 & H3).
  split; [exact H2 | exact H3].
Defined.

End Binary64TransactionManager.
